(** * bellat-pdf: the PDF generation service (src/main.py)

    A shallow embedding of the request handler of the document-generation
    endpoint: the pydantic request model, the totals computation, the
    amount-in-words converter, the document-title table and the
    orchestration of template lookup, rendering and page conversion.

    Python floats are IEEE binary64 numbers; they are modelled by Rocq's
    primitive floats, whose operations are the same binary64 operations.
    Exceptions are modelled by a small error monad, and the calls into the
    template engine and the page renderer are logged in a trace. The
    interpreter's float summation and the libraries the handler calls
    ([num2words], [float], the template engine, the page renderer, the
    clock) are parameters of the service. *)

From Stdlib Require Import ZArith List String Ascii Bool Lia DecimalString.
From Stdlib Require Import Floats.
From Stdlib Require DecimalN.
From stdpp Require Import gmap strings.
Import ListNotations.

Local Open Scope string_scope.

(** ** Exceptions *)

(** A raised Python exception; [str(e)] is its message. *)
Inductive exn : Type :=
| Exception (msg : string).

Definition str_exn (e : exn) : string :=
  match e with Exception msg => msg end.

Inductive exc (A : Type) : Type :=
| Ok (a : A)
| Raise (e : exn).
Arguments Ok {A} a.
Arguments Raise {A} e.

Definition exc_bind {A B : Type} (c : exc A) (k : A -> exc B) : exc B :=
  match c with
  | Ok a => k a
  | Raise e => Raise e
  end.

Declare Scope exc_scope.
Delimit Scope exc_scope with exc.
Notation "'let*' x ':=' c 'in' k" := (exc_bind c (fun x => k))
  (at level 10, x name, c at level 100, k at level 200) : exc_scope.

(** ** Python numbers *)

Module Py.

(** The two numeric types the handler works with. *)
Inductive number : Type :=
| PyInt (z : Z)
| PyFloat (f : float).

(** Nearest integer to [num * 2^e], ties to the even integer
    ([num] is a non-negative magnitude). *)
Definition round_half_even (num e : Z) : Z :=
  if (0 <=? e)%Z then (num * 2 ^ e)%Z
  else
    let d := (2 ^ (- e))%Z in
    let q := (num / d)%Z in
    let r := (num mod d)%Z in
    match (2 * r ?= d)%Z with
    | Lt => q
    | Gt => (q + 1)%Z
    | Eq => if Z.even q then q else (q + 1)%Z
    end.

(** Integer part of the magnitude [m * 2^e]. *)
Definition truncate (m : positive) (e : Z) : Z :=
  if (0 <=? e)%Z then (Zpos m * 2 ^ e)%Z else (Zpos m / 2 ^ (- e))%Z.

Definition signed (s : bool) (z : Z) : Z := if s then (- z)%Z else z.

(** [int(n)]: truncation toward zero; infinities and NaN raise. *)
Definition int (n : number) : exc Z :=
  match n with
  | PyInt z => Ok z
  | PyFloat f =>
      match Prim2SF f with
      | S754_zero _ => Ok 0%Z
      | S754_finite s m e => Ok (signed s (truncate m e))
      | S754_infinity _ =>
          Raise (Exception "cannot convert float infinity to integer")
      | S754_nan => Raise (Exception "cannot convert float NaN to integer")
      end
  end.

(** [round(n)] with one argument: an int, ties to even. *)
Definition round (n : number) : exc Z :=
  match n with
  | PyInt z => Ok z
  | PyFloat f =>
      match Prim2SF f with
      | S754_zero _ => Ok 0%Z
      | S754_finite s m e => Ok (signed s (round_half_even (Zpos m) e))
      | S754_infinity _ =>
          Raise (Exception "cannot convert float infinity to integer")
      | S754_nan => Raise (Exception "cannot convert float NaN to integer")
      end
  end.

(** Conversion of an int operand in mixed arithmetic: correctly rounded,
    [OverflowError] when out of range. *)
Definition to_float (n : number) : exc float :=
  match n with
  | PyFloat f => Ok f
  | PyInt z =>
      match binary_normalize prec emax z 0 false with
      | S754_infinity _ => Raise (Exception "int too large to convert to float")
      | sf => Ok (SF2Prim sf)
      end
  end.

Definition sub (a b : number) : exc number :=
  match a, b with
  | PyInt x, PyInt y => Ok (PyInt (x - y))
  | _, _ =>
      (let* x := to_float a in
       let* y := to_float b in
       Ok (PyFloat (x - y)%float))%exc
  end.

Definition mul (a b : number) : exc number :=
  match a, b with
  | PyInt x, PyInt y => Ok (PyInt (x * y))
  | _, _ =>
      (let* x := to_float a in
       let* y := to_float b in
       Ok (PyFloat (x * y)%float))%exc
  end.

(** Decimal digits of a natural number, ["0"] for zero. *)
Definition digits (z : Z) : string :=
  NilZero.string_of_uint (N.to_uint (Z.to_N z)).

Definition str_int (z : Z) : string :=
  NilZero.string_of_int (Z.to_int z).

Definition two_digits (z : Z) : string :=
  if (z <? 10)%Z then "0" ++ digits z else digits z.

Definition sign_prefix (s : bool) : string := if s then "-" else "".

(** [f"{x:.2f}"]: the exact binary value rounded to two decimals, ties to
    even; non-finite values print as [inf], [-inf] and [nan]. *)
Definition format_2f (x : float) : string :=
  match Prim2SF x with
  | S754_nan => "nan"
  | S754_infinity s => sign_prefix s ++ "inf"
  | S754_zero s => sign_prefix s ++ "0.00"
  | S754_finite s m e =>
      let c := round_half_even (100 * Zpos m) e in
      sign_prefix s ++ digits (c / 100) ++ "." ++ two_digits (c mod 100)
  end.

(** Truth value of a float: every value but the two zeros. *)
Definition truthy (x : float) : bool := negb (is_zero x).

(** [x or 0] for an optional float [x]. The result is only ever multiplied
    with a float, where the int [0] is converted to [0.0]. *)
Definition or_zero (o : option float) : float :=
  match o with
  | Some x => if truthy x then x else 0%float
  | None => 0%float
  end.

(** How the interpreter adds floats in [sum]: one addition per item
    (CPython up to 3.11), or Neumaier's compensated summation, which carries
    the rounding errors along in a second float (CPython from 3.12). *)
Inductive summation : Type :=
| LeftToRight
| Compensated.

(** One item of the compensated loop: [t = f_result + x], and the error of
    that addition is added to [c]. *)
Definition compensated_add (st : float * float) (x : float) : float * float :=
  let (f_result, c) := st in
  let t := (f_result + x)%float in
  let c' :=
    if (abs x <=? abs f_result)%float
    then (c + ((f_result - t) + x))%float
    else (c + ((x - t) + f_result))%float in
  (t, c').

(** [sum(xs)] for floats. The start value is the int [0]; the first item is
    added to it as a float, and the remaining items are added from left to
    right. The compensation is added at the end when it is finite and not
    zero. An empty sum is the start value. *)
Definition sum (alg : summation) (xs : list float) : float :=
  match xs with
  | [] => 0%float
  | x0 :: rest =>
      let first := (0 + x0)%float in
      match alg with
      | LeftToRight => fold_left PrimFloat.add rest first
      | Compensated =>
          let (f_result, c) := fold_left compensated_add rest (first, 0%float) in
          if truthy c && is_finite c then (f_result + c)%float else f_result
      end
  end.

End Py.

(** ** Request model (the pydantic classes)

    A field name that several classes share ([adresse], [telephone], [nif],
    [nis], [art]) carries the class as a prefix. *)

Record CompanyInfo : Type := {
  raisonSociale : string;
  company_adresse : string;
  company_telephone : string;
  email : option string;
  company_nif : string;
  company_nis : string;
  rc : string;
  company_art : option string
}.

Record ClientInfo : Type := {
  nom : string;
  client_adresse : string;
  client_telephone : option string;
  client_nif : option string;
  client_nis : option string;
  client_art : option string
}.

Record DocumentInfo : Type := {
  numero : string;
  date : string;
  bonCommande : option string;
  dateLivraison : option string;
  dateEcheance : option string;
  conditions : option string;
  modePaiement : option string;
  facture : option string;
  motifGeneral : option string
}.

Record Product : Type := {
  designation : string;
  quantite : float;
  unite : string;
  prixUnitaire : option float;
  tauxTVA : option float;
  observation : option string;
  motifRetour : option string
}.

Record Totals : Type := {
  totalHT : string;
  totalTVA : string;
  totalTTC : string
}.

(** The nine values of the [Literal] type of the [type] field. *)
Definition type_literal : list string :=
  [ "bon-livraison"; "bon-commande"; "facture"; "facture-proforma";
    "proforma"; "bon-retour"; "facture-avoir"; "bon-versement";
    "bon-reception" ].

Record GeneratePdfRequest : Type := {
  type : string;
  companyInfo : CompanyInfo;
  clientInfo : ClientInfo;
  documentInfo : DocumentInfo;
  products : list Product;
  totals : option Totals;
  logoUrl : option string
}.

(** ** Title table *)

(** The [titles] dictionary of [get_document_title]. *)
Definition titles : gmap string string :=
  list_to_map
    [ ("bon-livraison", "BON DE LIVRAISON");
      ("bon-commande", "BON DE COMMANDE");
      ("facture", "FACTURE");
      ("facture-proforma", "FACTURE PROFORMA");
      ("proforma", "FACTURE PROFORMA");
      ("bon-retour", "BON DE RETOUR");
      ("facture-avoir", "FACTURE AVOIR");
      ("bon-versement", "BON DE VERSEMENT");
      ("bon-reception", "BON DE RÉCEPTION") ].

(** [titles.get(doc_type, "DOCUMENT")] *)
Definition get_document_title (doc_type : string) : string :=
  default "DOCUMENT" (titles !! doc_type).

(** ** Truth values *)

(** Truth value of an optional model instance and of a list. *)
Definition is_set {A : Type} (o : option A) : bool :=
  match o with Some _ => true | None => false end.

Definition non_empty {A : Type} (l : list A) : bool :=
  match l with [] => false | _ :: _ => true end.

(** ** The totals as the specification words them *)

(** An optional amount read as the specification reads it: its value, or
    zero when it is absent. *)
Definition or_absent_zero (o : option float) : float :=
  match o with
  | Some x => x
  | None => 0%float
  end.

(** The sum over the lines of quantity times unit price. *)
Definition spec_total_ht (alg : Py.summation) (ps : list Product) : float :=
  Py.sum alg
    (map (fun p => (quantite p * or_absent_zero (prixUnitaire p))%float) ps).

(** The sum over the lines of quantity times unit price times tax rate over
    one hundred. *)
Definition spec_total_tva (alg : Py.summation) (ps : list Product) : float :=
  Py.sum alg
    (map (fun p =>
            (quantite p * or_absent_zero (prixUnitaire p)
             * or_absent_zero (tauxTVA p) / 100)%float) ps).

(** ** The rendering context and the response *)

(** The [context] dictionary of lines 188-199, one field per key. *)
Record Context : Type := {
  ctx_document_title : string;
  ctx_company : CompanyInfo;
  ctx_client : ClientInfo;
  ctx_document : DocumentInfo;
  ctx_products : list Product;
  ctx_totals : option Totals;
  ctx_type : string;
  ctx_generated_date : string;
  ctx_total_ttc_words : string;
  ctx_logo_url : option string
}.

(** The arguments the handler gives to [Response(...)] at lines 212-218: the
    body, the media type and the [headers] dictionary. The header lines
    that are sent (names in lower case, [content-length] and [content-type]
    added) are derived from these arguments by the framework. *)
Record Response : Type := {
  content : list Byte.byte;
  media_type : string;
  headers : gmap string string
}.

(** What the endpoint answers: a response, the [HTTPException] raised by the
    handler, or the rejection of the body by the request model. *)
Inductive outcome : Type :=
| Returned (r : Response)
| HTTPException (status_code : Z) (detail : string)
| RequestValidationError (loc : list string).

(** Calls into the template engine and the page renderer. *)
Inductive event : Type :=
| GetTemplate (name : string)
| Render (context : Context)
| WritePdf (html : string) (stylesheet : string).

(** Computations that call out and may raise: the calls made so far, and
    the result or the exception. *)
Definition io (A : Type) : Type := (list event * exc A)%type.

Definition io_ret {A : Type} (a : A) : io A := ([], Ok a).

Definition io_bind {A B : Type} (c : io A) (k : A -> io B) : io B :=
  match c with
  | (t, Ok a) => let (t', r) := k a in ((t ++ t')%list, r)
  | (t, Raise e) => (t, Raise e)
  end.

Definition io_call {A : Type} (ev : event) (r : exc A) : io A := ([ev], r).

(** A step that may raise and is not logged. *)
Definition io_lift {A : Type} (r : exc A) : io A := ([], r).

(** [try: c except: h] *)
Definition io_try {A : Type} (c : io A) (h : io A) : io A :=
  match c with
  | (t, Ok a) => (t, Ok a)
  | (t, Raise _) => let (t', r) := h in ((t ++ t')%list, r)
  end.

Declare Scope io_scope.
Delimit Scope io_scope with io.
Notation "'let*' x ':=' c 'in' k" := (io_bind c (fun x => k))
  (at level 10, x name, c at level 100, k at level 200) : io_scope.

(** ** The service *)

Section Service.

(** The interpreter and the libraries the handler calls.
    - [summation]: how the built-in [sum] adds floats;
    - [num2words k]: [num2words(k, lang='fr')], which may raise;
    - [float_of_str s]: the built-in [float(s)] on a string, which may
      raise;
    - [repr_float x]: [str(x)] for a finite float [x];
    - [get_template], [render], [write_pdf]: the template engine
      ([env.get_template], [template.render]) and the page renderer
      ([HTML(string=...).write_pdf(stylesheets=[CSS(string=...)])]), each of
      which may raise;
    - [init_headers h]: the encoding of the header values when the
      [Response] is built, which raises on a value outside Latin-1;
    - [now]: [datetime.now().strftime("%d/%m/%Y %H:%M")]. *)
Variable summation : Py.summation.
Variable num2words : Z -> exc string.
Variable float_of_str : string -> exc float.
Variable repr_float : float -> string.
Variable Template : Type.
Variable get_template : string -> exc Template.
Variable render : Template -> Context -> exc string.
Variable write_pdf : string -> string -> exc (list Byte.byte).
Variable init_headers : gmap string string -> exc unit.
Variable now : string.

(** Lines 161-174 of [generate_pdf]: the three sums and their formatting. *)
Definition compute_totals (ps : list Product) : Totals :=
  let total_ht :=
    Py.sum summation
      (map (fun p => (quantite p * Py.or_zero (prixUnitaire p))%float) ps) in
  let total_tva :=
    Py.sum summation
      (map (fun p =>
              (quantite p * Py.or_zero (prixUnitaire p)
               * Py.or_zero (tauxTVA p) / 100)%float) ps) in
  let total_ttc := (total_ht + total_tva)%float in
  {| totalHT := Py.format_2f total_ht;
     totalTVA := Py.format_2f total_tva;
     totalTTC := Py.format_2f total_ttc |}.

(** Lines 159-174: [totals = request.totals], recomputed only under
    [if not totals and request.products]. *)
Definition resolve_totals (request : GeneratePdfRequest) : option Totals :=
  let totals0 := totals request in
  if negb (is_set totals0) && non_empty (products request)
  then Some (compute_totals (products request))
  else totals0.

(** [str(n)] *)
Definition str_number (n : Py.number) : string :=
  match n with
  | Py.PyInt z => Py.str_int z
  | Py.PyFloat f =>
      match Prim2SF f with
      | S754_nan => "nan"
      | S754_infinity s => Py.sign_prefix s ++ "inf"
      | _ => repr_float f
      end
  end.

(** [centimes = int(round((n - entier) * 100))] *)
Definition centimes_of (n : Py.number) (entier : Z) : exc Z :=
  (let* d := Py.sub n (Py.PyInt entier) in
   let* c := Py.mul d (Py.PyInt 100) in
   let* r := Py.round c in
   Py.int (Py.PyInt r))%exc.

(** The body of the [try] block of [number_to_french_words]. *)
Definition french_words_body (n : Py.number) : exc string :=
  (let* entier := Py.int n in
   let* centimes := centimes_of n entier in
   let* w := num2words entier in
   let words := w ++ " dinar" in
   let words :=
     if (entier >? 1)%Z || (entier =? 0)%Z then words ++ "s" else words in
   if (centimes >? 0)%Z then
     let* wc := num2words centimes in
     let words := words ++ " et " ++ wc ++ " centime" in
     let words := if (centimes >? 1)%Z then words ++ "s" else words in
     Ok words
   else Ok words)%exc.

(** [try: ... return words / except Exception: return str(n)] *)
Definition number_to_french_words (n : Py.number) : string :=
  match french_words_body n with
  | Ok words => words
  | Raise _ => str_number n
  end.

(** Lines 179-182: [float(totals.totalTTC)], or the int [0] when the
    conversion raises. *)
Definition total_ttc_value (t : Totals) : Py.number :=
  match float_of_str (totalTTC t) with
  | Ok x => Py.PyFloat x
  | Raise _ => Py.PyInt 0
  end.

(** Lines 178-185: the words of the after-tax total. *)
Definition total_ttc_words_of (totals1 : option Totals) : string :=
  match totals1 with
  | Some t => number_to_french_words (total_ttc_value t)
  | None => "zéro"
  end.

(** Lines 188-199: the context handed to the template. *)
Definition make_context (request : GeneratePdfRequest) : Context :=
  let totals1 := resolve_totals request in
  {| ctx_document_title := get_document_title (type request);
     ctx_company := companyInfo request;
     ctx_client := clientInfo request;
     ctx_document := documentInfo request;
     ctx_products := products request;
     ctx_totals := totals1;
     ctx_type := type request;
     ctx_generated_date := now;
     ctx_total_ttc_words := total_ttc_words_of totals1;
     ctx_logo_url := logoUrl request |}.

(** Lines 150-156: the template of the type, else the generic one. *)
Definition select_template (request : GeneratePdfRequest) : io Template :=
  let template_name := type request ++ ".html" in
  io_try
    (io_call (GetTemplate template_name) (get_template template_name))
    (io_call (GetTemplate "bon-livraison.html")
       (get_template "bon-livraison.html")).

Definition a4_css : string :=
  "@page { size: A4; margin: 20mm 15mm 20mm 15mm; }".

(** The headers of the response. *)
Definition response_headers (request : GeneratePdfRequest)
  : gmap string string :=
  {[ "Content-Disposition" :=
       "attachment; filename=" ++ numero (documentInfo request) ++ ".pdf" ]}.

(** The body of the outer [try] block of [generate_pdf]. *)
Definition generate_pdf_body (request : GeneratePdfRequest) : io Response :=
  (let* template := select_template request in
   let context := make_context request in
   let* html_content := io_call (Render context) (render template context) in
   let* pdf_bytes :=
     io_call (WritePdf html_content a4_css) (write_pdf html_content a4_css) in
   let headers1 := response_headers request in
   let* _ := io_lift (init_headers headers1) in
   io_ret
     {| content := pdf_bytes;
        media_type := "application/pdf";
        headers := headers1 |})%io.

(** [generate_pdf]: any exception of the body becomes an
    [HTTPException] with status 500. *)
Definition generate_pdf (request : GeneratePdfRequest)
  : list event * outcome :=
  match generate_pdf_body request with
  | (t, Ok response) => (t, Returned response)
  | (t, Raise e) =>
      (t, HTTPException 500 ("Error generating PDF: " ++ str_exn e))
  end.

(** A stage of the handler raises [e]: neither the template of the type nor
    the generic one can be loaded, or the template is found and rendering
    raises, or the markup is rendered and the page conversion raises, or the
    document is there and the response cannot be built. The totals and the
    words are computed without a call that can raise past its own [try]. *)
Inductive stage_raises (request : GeneratePdfRequest) (e : exn) : Prop :=
| template_raises (e0 : exn) :
    get_template (type request ++ ".html") = Raise e0 ->
    get_template "bon-livraison.html" = Raise e ->
    stage_raises request e
| render_raises (template : Template) :
    snd (select_template request) = Ok template ->
    render template (make_context request) = Raise e ->
    stage_raises request e
| write_pdf_raises (template : Template) (html_content : string) :
    snd (select_template request) = Ok template ->
    render template (make_context request) = Ok html_content ->
    write_pdf html_content a4_css = Raise e ->
    stage_raises request e
| response_raises (template : Template) (html_content : string)
    (pdf_bytes : list Byte.byte) :
    snd (select_template request) = Ok template ->
    render template (make_context request) = Ok html_content ->
    write_pdf html_content a4_css = Ok pdf_bytes ->
    init_headers (response_headers request) = Raise e ->
    stage_raises request e.

(** The [Literal] check of the [type] field. *)
Definition valid_type (t : string) : bool :=
  existsb (String.eqb t) type_literal.

(** [POST /generate-pdf]: the body is checked against the request model
    before the handler is called. The body is given with its fields
    decoded; its [type] is any string. *)
Definition post_generate_pdf (body : GeneratePdfRequest)
  : list event * outcome :=
  if valid_type (type body) then generate_pdf body
  else ([], RequestValidationError ["body"; "type"]).

End Service.

(** ** Shape of a formatted amount *)

Definition is_digit (c : ascii) : bool :=
  (48 <=? nat_of_ascii c)%nat && (nat_of_ascii c <=? 57)%nat.

Fixpoint all_digits (s : string) : bool :=
  match s with
  | EmptyString => true
  | String c s' => is_digit c && all_digits s'
  end.

(** One or more digits, a point, exactly two digits. *)
Fixpoint unsigned_2dp (s : string) : bool :=
  match s with
  | EmptyString => false
  | String c s' =>
      is_digit c &&
      match s' with
      | String "." (String d1 (String d2 EmptyString)) =>
          is_digit d1 && is_digit d2
      | _ => unsigned_2dp s'
      end
  end.

(** Exactly two digits. *)
Definition two_digit_string (s : string) : bool :=
  match s with
  | String d1 (String d2 EmptyString) => is_digit d1 && is_digit d2
  | _ => false
  end.

(** A fixed two-decimal-place string, with an optional minus sign. *)
Definition fixed_2dp (s : string) : bool :=
  match s with
  | EmptyString => false
  | String c s' => if Ascii.eqb c "-" then unsigned_2dp s' else unsigned_2dp s
  end.

(** [math.isfinite] *)
Definition isfinite (x : float) : bool :=
  match Prim2SF x with
  | S754_zero _ | S754_finite _ _ _ => true
  | S754_infinity _ | S754_nan => false
  end.

Abbreviation fexp64 := (fexp prec emax).

(** A result that is a zero or a finite float of bounded magnitude. *)
Definition in_range (s : bool) (bound : Z) (r : spec_float) : Prop :=
  r = S754_zero s
  \/ exists m e, r = S754_finite s m e /\ (Zpos (digits2_pos m) + e <= bound)%Z.

(** A zero, or a finite float below [2^bound] in magnitude. *)
Definition bounded_float (bound : Z) (r : spec_float) : Prop :=
  (exists s, r = S754_zero s)
  \/ exists s m e, r = S754_finite s m e /\ (Zpos (digits2_pos m) + e <= bound)%Z.

(** A zero of either sign. *)
Definition is_zero_float (x : float) : Prop :=
  exists s, Prim2SF x = S754_zero s.

(** Every float but the negative zero. *)
Definition not_neg_zero (x : float) : Prop := Prim2SF x <> S754_zero true.

(** The same float, or two zeros that may differ in sign. *)
Definition same_amount (x y : float) : Prop :=
  x = y \/ (is_zero_float x /\ is_zero_float y).

Abbreviation emin := (SpecFloat.emin prec emax).

(** [n >= 0] *)
Definition nonneg (n : Py.number) : bool :=
  match n with
  | Py.PyInt z => (0 <=? z)%Z
  | Py.PyFloat f => (0 <=? f)%float
  end.

(** ** The cents as the specification words them *)

(** [d] is the fractional part of [f]: the float of the sign of [f] whose
    magnitude is that of [f] less its integer part, exactly. For a finite
    [f] of mantissa [m] and exponent [e < 0] that magnitude is
    [(m mod 2^(-e)) * 2^e]. *)
Definition fractional_part (f d : float) : Prop :=
  match Prim2SF f with
  | S754_zero _ => is_zero_float d
  | S754_finite s m e =>
      if (0 <=? e)%Z then is_zero_float d
      else
        let r := (Zpos m mod 2 ^ (- e))%Z in
        match Prim2SF d with
        | S754_zero _ => r = 0%Z
        | S754_finite sd md ed =>
            sd = s /\ (ed <= e)%Z /\ Zpos md = (r * 2 ^ (e - ed))%Z
        | _ => False
        end
  | _ => False
  end.

(** [c] is an integer nearest to the float [p]: at most one half away, and
    the even one of the two when [p] lies half way. *)
Definition nearest_integer (p : float) (c : Z) : Prop :=
  match Prim2SF p with
  | S754_zero _ => c = 0%Z
  | S754_finite s m e =>
      exists k : Z,
        c = (if s then - k else k)%Z
        /\ (0 <= k)%Z
        /\ if (0 <=? e)%Z then k = (Zpos m * 2 ^ e)%Z
           else (Z.abs (2 * (Zpos m - k * 2 ^ (- e))) <= 2 ^ (- e))%Z
                /\ ((2 * (Zpos m mod 2 ^ (- e)) = 2 ^ (- e))%Z ->
                    Z.even k = true)
  | _ => False
  end.

(** The cents of an amount: the fractional part times a hundred (the float
    product), rounded to the nearest integer; an int has none. *)
Definition spec_centimes (n : Py.number) (centimes : Z) : Prop :=
  match n with
  | Py.PyInt _ => centimes = 0%Z
  | Py.PyFloat f =>
      exists d, fractional_part f d /\ nearest_integer (d * 100) centimes
  end.

(** ** The line total and the currency filter *)

(** [calculate_line_total]: nothing without a unit price, else quantity
    times unit price, with the tax added when the rate is given and not
    zero. *)
Definition calculate_line_total (product : Product) : float :=
  match prixUnitaire product with
  | None => 0%float
  | Some price =>
      let subtotal := (quantite product * price)%float in
      match tauxTVA product with
      | Some rate =>
          if Py.truthy rate then (subtotal * (1 + rate / 100))%float
          else subtotal
      | None => subtotal
      end
  end.

(** The [,] option of a format: a comma after every three digits, counted
    from the right; the digits are given from the right. *)
Fixpoint group3_rev (l : list ascii) : list ascii :=
  match l with
  | a :: b :: c :: (_ :: _) as rest =>
      a :: b :: c :: ","%char :: group3_rev rest
  | _ => l
  end.

Definition group3 (s : string) : string :=
  string_of_list_ascii
    (rev (group3_rev (rev (list_ascii_of_string s)))).

(** [f"{x:,.2f}"]: as [f"{x:.2f}"], with the integer digits grouped. *)
Definition format_grouped_2f (x : float) : string :=
  match Prim2SF x with
  | S754_nan => "nan"
  | S754_infinity s => Py.sign_prefix s ++ "inf"
  | S754_zero s => Py.sign_prefix s ++ "0.00"
  | S754_finite s m e =>
      let c := Py.round_half_even (100 * Zpos m) e in
      Py.sign_prefix s ++ group3 (Py.digits (c / 100)) ++ "."
      ++ Py.two_digits (c mod 100)
  end.

(** What a template hands to a filter: [None], a number or a string. *)
Inductive template_value : Type :=
| VNone
| VNumber (n : Py.number)
| VString (s : string).

Section Filters.

Variable float_of_str : string -> exc float.

(** [float(value)] *)
Definition float_of_value (value : template_value) : exc float :=
  match value with
  | VNone =>
      Raise
        (Exception
           "float() argument must be a string or a real number, not 'NoneType'")
  | VNumber n => Py.to_float n
  | VString s => float_of_str s
  end.

(** [format_currency]: "0.00" for [None], else the float of the value with
    two decimals and grouped digits; the exception of [float] is not
    caught. *)
Definition format_currency (value : template_value) : exc string :=
  match value with
  | VNone => Ok "0.00"
  | _ => (let* x := float_of_value value in Ok (format_grouped_2f x))%exc
  end.

End Filters.

(** ** Vocabulary of the properties *)

(** The titles of the table. *)
Definition display_titles : list string :=
  [ "BON DE LIVRAISON"; "BON DE COMMANDE"; "FACTURE"; "FACTURE PROFORMA";
    "BON DE RETOUR"; "FACTURE AVOIR"; "BON DE VERSEMENT"; "BON DE RÉCEPTION" ].

(** The request with its [totals] field replaced. *)
Definition with_totals (request : GeneratePdfRequest) (t : option Totals)
  : GeneratePdfRequest :=
  {| type := type request;
     companyInfo := companyInfo request;
     clientInfo := clientInfo request;
     documentInfo := documentInfo request;
     products := products request;
     totals := t;
     logoUrl := logoUrl request |}.

(** The two terms a line adds to the sums of lines 161-167. *)
Definition ht_term (p : Product) : float :=
  (quantite p * Py.or_zero (prixUnitaire p))%float.

Definition tva_term (p : Product) : float :=
  (quantite p * Py.or_zero (prixUnitaire p) * Py.or_zero (tauxTVA p) / 100)%float.

(** A line without a price: the unit price is absent or zero, and the
    quantity and the tax rate, when there is one, are finite. *)
Definition unpriced (p : Product) : bool :=
  match prixUnitaire p with None => true | Some x => is_zero x end
  && isfinite (quantite p)
  && match tauxTVA p with None => true | Some r => isfinite r end.

(** A line without tax: the rate is absent or zero, and quantity times unit
    price is finite. *)
Definition untaxed (p : Product) : bool :=
  match tauxTVA p with None => true | Some r => is_zero r end
  && isfinite (quantite p * Py.or_zero (prixUnitaire p)).

(** The end of the compensated loop of [sum]. *)
Definition compensated_result (st : float * float) : float :=
  let (f_result, c) := st in
  if Py.truthy c && is_finite c then (f_result + c)%float else f_result.

(** Two states of the compensated loop that end in the same sum: the same
    running sum, and the same compensation unless the sum has left the
    finite range. *)
Definition same_sum (st st' : float * float) : Prop :=
  fst st = fst st' /\ (snd st = snd st' \/ isfinite (fst st) = false).

(** A zero, or a finite float of sign [s] below one in magnitude. *)
Definition fraction (s : bool) (r : spec_float) : Prop :=
  (exists s', r = S754_zero s')
  \/ exists m e, r = S754_finite s m e /\ (Zpos (digits2_pos m) + e <= 0)%Z.

(** A zero of sign [s], or a finite float of sign [s] and of magnitude at
    most a hundred. *)
Definition at_most_100 (s : bool) (r : spec_float) : Prop :=
  r = S754_zero s
  \/ exists m e,
       r = S754_finite s m e /\ (e <= 0)%Z /\ (Zpos m <= 100 * 2 ^ (- e))%Z.

(** The text before and after the first point. *)
Fixpoint split_point (s : string) : option (string * string) :=
  match s with
  | EmptyString => None
  | String c s' =>
      if Ascii.eqb c "." then Some (EmptyString, s')
      else
        match split_point s' with
        | Some (whole, frac) => Some (String c whole, frac)
        | None => None
        end
  end.

(** The number written by one or more decimal digits. *)
Definition read_digits (s : string) : option Z :=
  match s with
  | EmptyString => None
  | _ =>
      match NilEmpty.uint_of_string s with
      | Some d => Some (Z.of_N (N.of_uint d))
      | None => None
      end
  end.

(** A printed amount read back: whether it carries a minus sign, and its
    number of hundredths. *)
Definition read_2dp (s : string) : option (bool * Z) :=
  let (neg, body) :=
    match s with
    | String "-" s' => (true, s')
    | _ => (false, s)
    end in
  match split_point body with
  | Some (whole, frac) =>
      if (String.length frac =? 2)%nat then
        match read_digits whole, read_digits frac with
        | Some w, Some c => Some (neg, (100 * w + c)%Z)
        | _, _ => None
        end
      else None
  | None => None
  end.

Fixpoint remove_commas (s : string) : string :=
  match s with
  | EmptyString => EmptyString
  | String c s' =>
      if Ascii.eqb c "," then remove_commas s' else String c (remove_commas s')
  end.

Definition not_comma (c : ascii) : bool := negb (Ascii.eqb c ",").

(** [grouped] is [whole] with a comma before each group of three
    characters that follows a first group of one to three. *)
Definition grouping (whole grouped : list ascii) : Prop :=
  exists (first : list ascii) (groups : list (list ascii)),
    (1 <= length first <= 3)%nat
    /\ Forall (fun g => length g = 3%nat) groups
    /\ whole = (first ++ concat groups)%list
    /\ grouped = (first ++ concat (map (cons ","%char) groups))%list.

(** ** A sample environment

    A template directory that holds only the generic template, a words
    table for a few numbers, and a few parsed strings: enough to run the
    handler on concrete requests. *)

Module Sample.

Definition num2words (k : Z) : exc string :=
  match k with
  | 0%Z => Ok "zéro"
  | 1%Z => Ok "un"
  | 2%Z => Ok "deux"
  | 50%Z => Ok "cinquante"
  | _ => Raise (Exception "not in the table")
  end.

Definition float_of_str (s : string) : exc float :=
  if String.eqb s "1.50" then Ok 1.5%float
  else if String.eqb s "0.00" then Ok 0%float
  else if String.eqb s "inf" then Ok infinity
  else Raise (Exception ("could not convert string to float: '" ++ s ++ "'")).

Definition repr_float (x : float) : string :=
  if (x =? 1.5)%float then "1.5" else "0.0".

Definition get_template (name : string) : exc string :=
  if String.eqb name "bon-livraison.html"
  then Ok "<html>{{ document_title }}</html>"
  else Raise (Exception name).

Definition render (template : string) (context : Context) : exc string :=
  Ok ("<html>" ++ ctx_document_title context ++ "</html>").

Definition write_pdf (html stylesheet : string) : exc (list Byte.byte) :=
  if String.eqb html "" then Raise (Exception "empty document")
  else Ok (list_byte_of_string "%PDF-1.7").

Definition init_headers (h : gmap string string) : exc unit := Ok tt.

(** An engine whose template directory is empty. *)
Definition no_template (name : string) : exc string :=
  Raise (Exception name).

Definition now : string := "03/11/2026 10:34".

Definition company : CompanyInfo :=
  {| raisonSociale := "ABC Company SARL";
     company_adresse := "123 Rue Example, Alger";
     company_telephone := "+213 555 123 456";
     email := None;
     company_nif := "123456789012345";
     company_nis := "123456789012345";
     rc := "12345678";
     company_art := None |}.

Definition client : ClientInfo :=
  {| nom := "Client XYZ";
     client_adresse := "456 Rue Client, Oran";
     client_telephone := None;
     client_nif := None;
     client_nis := None;
     client_art := None |}.

Definition document : DocumentInfo :=
  {| numero := "BL-2024-001";
     date := "2024-01-15";
     bonCommande := None;
     dateLivraison := None;
     dateEcheance := None;
     conditions := None;
     modePaiement := None;
     facture := None;
     motifGeneral := None |}.

Definition line (q : float) (price rate : option float) : Product :=
  {| designation := "Produit A";
     quantite := q;
     unite := "pièce";
     prixUnitaire := price;
     tauxTVA := rate;
     observation := None;
     motifRetour := None |}.

Definition request (t : string) (ps : list Product) (tot : option Totals)
  : GeneratePdfRequest :=
  {| type := t;
     companyInfo := company;
     clientInfo := client;
     documentInfo := document;
     products := ps;
     totals := tot;
     logoUrl := None |}.

Definition summation : Py.summation := Py.Compensated.

(** The service on the sample environment. *)
Definition to_words : Py.number -> string :=
  number_to_french_words num2words repr_float.

Definition totals_of : GeneratePdfRequest -> option Totals :=
  resolve_totals summation.

Definition context_of : GeneratePdfRequest -> Context :=
  make_context summation num2words float_of_str repr_float now.

Definition handle : GeneratePdfRequest -> list event * outcome :=
  generate_pdf summation num2words float_of_str repr_float string get_template
    render write_pdf init_headers now.

Definition handle_no_template : GeneratePdfRequest -> list event * outcome :=
  generate_pdf summation num2words float_of_str repr_float string no_template
    render write_pdf init_headers now.

Definition post : GeneratePdfRequest -> list event * outcome :=
  post_generate_pdf summation num2words float_of_str repr_float string
    get_template render write_pdf init_headers now.

End Sample.

(** A words table that knows the French "moins" of a negative number. *)
Definition signed_words (k : Z) : exc string :=
  if (k <? 0)%Z then
    (let* w := Sample.num2words (- k) in Ok ("moins " ++ w))%exc
  else Sample.num2words k.

(** A words table that knows the hundred. *)
Definition words_with_hundred (k : Z) : exc string :=
  if (k =? 100)%Z then Ok "cent" else Sample.num2words k.

(** * Properties *)

(** ** Strings *)

Lemma append_cons (ch : ascii) (a b : string) :
  String ch a ++ b = String ch (a ++ b).
Proof. reflexivity. Qed.

Lemma append_assoc (a b c : string) : (a ++ b) ++ c = a ++ (b ++ c).
Proof.
  induction a as [|ch a IH]; [reflexivity |].
  rewrite !append_cons. now rewrite IH.
Qed.

(** ** The title table *)

Lemma valid_type_In (t : string) : valid_type t = true <-> In t type_literal.
Proof.
  unfold valid_type. rewrite existsb_exists. split.
  - intros [x [Hin Heq]]. apply String.eqb_eq in Heq. now subst.
  - intros Hin. exists t. split; [assumption | apply String.eqb_refl].
Qed.

Lemma titles_miss (s : string) : ~ In s type_literal -> titles !! s = None.
Proof.
  intros Hnot. unfold titles. simpl list_to_map.
  repeat (rewrite lookup_insert_ne;
          [| intros <-; apply Hnot; simpl; tauto]).
  apply lookup_empty.
Qed.

(** C6. [get_document_title] gives each of the nine values of the [type]
    enumeration its display title, gives "facture-proforma" and "proforma"
    the same title, and gives every other string the title "DOCUMENT". *)
Theorem get_document_title_spec (s : string) :
  map get_document_title type_literal =
    [ "BON DE LIVRAISON"; "BON DE COMMANDE"; "FACTURE"; "FACTURE PROFORMA";
      "FACTURE PROFORMA"; "BON DE RETOUR"; "FACTURE AVOIR";
      "BON DE VERSEMENT"; "BON DE RÉCEPTION" ]
  /\ get_document_title "facture-proforma" = get_document_title "proforma"
  /\ (~ In s type_literal -> get_document_title s = "DOCUMENT").
Proof.
  split; [vm_compute; reflexivity |].
  split; [vm_compute; reflexivity |].
  intros Hnot. unfold get_document_title.
  now rewrite (titles_miss s Hnot).
Qed.

Lemma devis_not_a_type : ~ In "devis" type_literal.
Proof.
  simpl. intros H.
  repeat (destruct H as [H | H]; [discriminate H |]). exact H.
Qed.

Lemma get_document_title_spec_witness :
  get_document_title "devis" = "DOCUMENT"
  /\ get_document_title "bon-reception" = "BON DE RÉCEPTION".
Proof.
  destruct (get_document_title_spec "devis") as [Hnine [_ Hother]].
  split; [exact (Hother devis_not_a_type) |].
  apply (f_equal (fun l => nth 8 l "")) in Hnine. exact Hnine.
Defined.

(** ** Numbers *)

Lemma truncate_nonneg (m : positive) (e : Z) : (0 <= Py.truncate m e)%Z.
Proof.
  unfold Py.truncate. destruct (0 <=? e)%Z eqn:He.
  - apply Z.leb_le in He. apply Z.mul_nonneg_nonneg; [lia |].
    apply Z.pow_nonneg. lia.
  - apply Z.leb_gt in He. apply Z.div_pos; [lia |].
    apply Z.pow_pos_nonneg; lia.
Qed.

(** [truncate m e] is the integer part of [m * 2^e]. *)
Lemma truncate_floor (m : positive) (e : Z) :
  (e < 0)%Z ->
  (Py.truncate m e * 2 ^ (- e) <= Zpos m < (Py.truncate m e + 1) * 2 ^ (- e))%Z.
Proof.
  intros He. unfold Py.truncate.
  destruct (Z.leb_spec 0 e) as [H | _]; [lia |].
  assert (Hd : (0 < 2 ^ (- e))%Z) by (apply Z.pow_pos_nonneg; lia).
  pose proof (Z.div_mod (Zpos m) (2 ^ (- e)) ltac:(lia)) as Hdm.
  pose proof (Z.mod_pos_bound (Zpos m) (2 ^ (- e)) Hd) as Hmod.
  nia.
Qed.

(** [round_half_even num e] is an integer nearest to [num * 2^e]: twice the
    distance is at most one unit. *)
Lemma round_half_even_nearest (num e : Z) :
  (e < 0)%Z ->
  (Z.abs (2 * (num - Py.round_half_even num e * 2 ^ (- e))) <= 2 ^ (- e))%Z.
Proof.
  intros He. unfold Py.round_half_even.
  destruct (Z.leb_spec 0 e) as [H | _]; [lia |].
  assert (Hd : (0 < 2 ^ (- e))%Z) by (apply Z.pow_pos_nonneg; lia).
  pose proof (Z.div_mod num (2 ^ (- e)) ltac:(lia)) as Hdm.
  pose proof (Z.mod_pos_bound num (2 ^ (- e)) Hd) as Hmod.
  set (d := (2 ^ (- e))%Z) in *.
  set (q := (num / d)%Z) in *. set (r := (num mod d)%Z) in *.
  cbv zeta.
  destruct (Z.compare_spec (2 * r) d) as [Heq | Hlt | Hgt];
    [destruct (Z.even q) |..]; nia.
Qed.

(** On a tie the even neighbour is taken. *)
Lemma round_half_even_tie (num e : Z) :
  (e < 0)%Z -> (2 * (num mod 2 ^ (- e)) = 2 ^ (- e))%Z ->
  Z.even (Py.round_half_even num e) = true.
Proof.
  intros He Htie. unfold Py.round_half_even.
  destruct (Z.leb_spec 0 e) as [H | _]; [lia |].
  cbv zeta. rewrite Htie, Z.compare_refl.
  destruct (Z.even (num / 2 ^ (- e))) eqn:Hev; [exact Hev |].
  rewrite Z.even_add, Hev. reflexivity.
Qed.

(** The formatting and the two summations on a few values, as the
    interpreter prints them. *)
Example format_2f_tie : Py.format_2f 0.125 = "0.12".
Proof. reflexivity. Qed.

#[warnings="-inexact-float"]
Example format_2f_below_tie : Py.format_2f 2.675 = "2.67".
Proof. reflexivity. Qed.

#[warnings="-inexact-float"]
Example format_2f_small_negative : Py.format_2f (-0.001) = "-0.00".
Proof. reflexivity. Qed.

#[warnings="-inexact-float"]
Example format_2f_large :
  Py.format_2f 1e23 = "99999999999999991611392.00".
Proof. reflexivity. Qed.

#[warnings="-inexact-float"]
Example sum_left_to_right :
  Py.sum Py.LeftToRight [0.1; 0.2; 0.3]%float = 0.60000000000000009%float.
Proof. reflexivity. Qed.

#[warnings="-inexact-float"]
Example sum_compensated :
  Py.sum Py.Compensated [0.1; 0.2; 0.3]%float = 0.59999999999999998%float.
Proof. reflexivity. Qed.

Example round_ties_to_even :
  Py.round (Py.PyFloat 0.5) = Ok 0%Z /\ Py.round (Py.PyFloat 1.5) = Ok 2%Z
  /\ Py.round (Py.PyFloat 2.5) = Ok 2%Z
  /\ Py.round (Py.PyFloat (-2.5)) = Ok (-2)%Z.
Proof. repeat split; reflexivity. Qed.

Example int_truncates :
  Py.int (Py.PyFloat 2.75) = Ok 2%Z /\ Py.int (Py.PyFloat (-2.75)) = Ok (-2)%Z.
Proof. repeat split; reflexivity. Qed.

(** The integer part of a non-negative number is non-negative. *)
Lemma int_nonneg (n : Py.number) (entier : Z) :
  nonneg n = true -> Py.int n = Ok entier -> (0 <= entier)%Z.
Proof.
  destruct n as [z | f]; simpl.
  - intros Hz Heq. apply Z.leb_le in Hz. now inversion Heq; subst.
  - rewrite leb_spec. change (Prim2SF 0) with (S754_zero false).
    destruct (Prim2SF f) as [s | s | | s m e]; intros Hle Heq;
      try discriminate Heq; inversion Heq; subst; try lia.
    destruct s; [discriminate Hle |].
    apply truncate_nonneg.
Qed.

(** ** Rounding never produces a zero

    The sum of two finite floats is rounded from a non-zero integer
    mantissa at an exponent of the format; the rounded mantissa is not
    zero, so a sum is a negative zero only when both terms are. *)

Lemma digits2_size (m : positive) : digits2_pos m = Pos.size m.
Proof. induction m; simpl; congruence. Qed.

Lemma digits2_lower (m : positive) : (2 ^ (Zpos (digits2_pos m) - 1) <= Zpos m)%Z.
Proof.
  rewrite digits2_size.
  pose proof (Pos.size_le m) as H.
  assert (H' : (2 ^ Zpos (Pos.size m) <= 2 * Zpos m)%Z).
  { rewrite <- Pos2Z.inj_pow. change (2 * Zpos m)%Z with (Zpos m~0).
    apply Pos2Z.pos_le_pos. exact H. }
  replace (Zpos (Pos.size m)) with (Z.succ (Zpos (Pos.size m) - 1)) in H' by lia.
  rewrite Z.pow_succ_r in H' by lia. lia.
Qed.

Lemma shr_1_m (mrs : shr_record) :
  (0 <= shr_m mrs)%Z -> shr_m (shr_1 mrs) = Z.div2 (shr_m mrs).
Proof.
  destruct mrs as [m r s]. simpl.
  destruct m as [|[p|p|]|p]; simpl; intros H; try reflexivity; lia.
Qed.

Lemma iter_shr_1_m (p : positive) (mrs : shr_record) :
  (0 <= shr_m mrs)%Z ->
  shr_m (SpecFloat.iter_pos shr_1 p mrs) = Z.shiftr (shr_m mrs) (Zpos p).
Proof.
  revert mrs. induction p as [p IH | p IH |]; intros mrs Hm; simpl.
  - assert (H1 : (0 <= shr_m (shr_1 mrs))%Z).
    { rewrite shr_1_m by assumption. apply Z.div2_nonneg. assumption. }
    assert (H2 : (0 <= shr_m (SpecFloat.iter_pos shr_1 p (shr_1 mrs)))%Z).
    { rewrite IH by assumption. apply Z.shiftr_nonneg. assumption. }
    rewrite IH by assumption. rewrite IH by assumption.
    rewrite shr_1_m by assumption. rewrite Z.div2_spec.
    rewrite !Z.shiftr_shiftr by lia. f_equal. lia.
  - assert (H2 : (0 <= shr_m (SpecFloat.iter_pos shr_1 p mrs))%Z).
    { rewrite IH by assumption. apply Z.shiftr_nonneg. assumption. }
    rewrite IH by assumption. rewrite IH by assumption.
    rewrite !Z.shiftr_shiftr by lia. f_equal. lia.
  - rewrite shr_1_m by assumption. apply Z.div2_spec.
Qed.

(** Shifting a positive mantissa into the format leaves it positive. *)
Lemma shr_fexp_pos (m : positive) (e : Z) (l : location) :
  (emin <= e)%Z ->
  exists m' r s e',
    shr_fexp prec emax (Zpos m) e l = (Build_shr_record (Zpos m') r s, e')
    /\ (emin <= e')%Z.
Proof.
  intros He. unfold shr_fexp, shr.
  set (n := (fexp prec emax (Zdigits2 (Zpos m) + e) - e)%Z).
  assert (Hn : (n < Zpos (digits2_pos m))%Z).
  { unfold n, fexp, SpecFloat.emin in *. simpl Zdigits2.
    unfold prec, emax in *. lia. }
  set (rec := shr_record_of_loc (Zpos m) l).
  assert (Hrec : shr_m rec = Zpos m)
    by (unfold rec; destruct l as [|[]]; reflexivity).
  destruct n as [|p|p] eqn:En.
  - destruct rec as [m0 r s]. simpl in Hrec. subst m0.
    exists m, r, s, e. split; [reflexivity | lia].
  - pose proof (iter_shr_1_m p rec) as Hm. rewrite Hrec in Hm.
    specialize (Hm ltac:(lia)).
    assert (Hpos : (0 < Z.shiftr (Zpos m) (Zpos p))%Z).
    { rewrite Z.shiftr_div_pow2 by lia. apply Z.div_str_pos. split.
      - apply Z.pow_pos_nonneg; lia.
      - pose proof (digits2_lower m).
        assert ((2 ^ Zpos p <= 2 ^ (Zpos (digits2_pos m) - 1))%Z).
        { apply Z.pow_le_mono_r; lia. }
        lia. }
    destruct (SpecFloat.iter_pos shr_1 p rec) as [m0 r s]. simpl in Hm. subst m0.
    destruct (Z.shiftr (Zpos m) (Zpos p)) as [|m'|m'] eqn:Es; try lia.
    exists m', r, s, (e + Zpos p)%Z. split; [reflexivity | lia].
  - destruct rec as [m0 r s]. simpl in Hrec. subst m0.
    exists m, r, s, e. split; [reflexivity | lia].
Qed.

Lemma round_nearest_even_pos (m : positive) (l : location) :
  exists m', round_nearest_even (Zpos m) l = Zpos m'.
Proof.
  destruct l as [|[]]; unfold round_nearest_even.
  - exists m; reflexivity.
  - destruct (Z.even (Zpos m)); [exists m | exists (m + 1)%positive];
      reflexivity.
  - exists m; reflexivity.
  - exists (m + 1)%positive; reflexivity.
Qed.

Lemma binary_round_aux_nonzero (sx : bool) (m : positive) (e : Z)
  (l : location) (s : bool) :
  (emin <= e)%Z -> binary_round_aux prec emax sx (Zpos m) e l <> S754_zero s.
Proof.
  intros He. unfold binary_round_aux.
  destruct (shr_fexp_pos m e l He) as [m1 [r1 [s1 [e1 [H1 He1]]]]].
  rewrite H1. cbv beta iota. simpl shr_m at 1.
  destruct (round_nearest_even_pos m1
              (loc_of_shr_record (Build_shr_record (Zpos m1) r1 s1)))
    as [m2 H2].
  rewrite H2.
  destruct (shr_fexp_pos m2 e1 loc_Exact He1) as [m3 [r3 [s3 [e3 [H3 He3]]]]].
  rewrite H3. simpl.
  destruct (e3 <=? emax - prec)%Z; discriminate.
Qed.

Lemma binary_round_nonzero (sx : bool) (m : positive) (e : Z) (s : bool) :
  (emin <= e)%Z -> binary_round prec emax sx m e <> S754_zero s.
Proof.
  intros He. unfold binary_round, shl_align.
  set (f := fexp prec emax (Zpos (digits2_pos m) + e)).
  assert (Hf : (emin <= f)%Z) by (unfold f, fexp; lia).
  destruct (f - e)%Z eqn:E; apply binary_round_aux_nonzero; lia.
Qed.

Local Open Scope Z_scope.

(** ** Number of binary digits *)

Lemma digits2_upper (p : positive) : Zpos p < 2 ^ Zpos (digits2_pos p).
Proof.
  rewrite digits2_size. rewrite <- Pos2Z.inj_pow.
  apply Pos2Z.pos_lt_pos. apply Pos.size_gt.
Qed.

Lemma digits2_le (p : positive) (k : Z) :
  Zpos p < 2 ^ k -> 0 <= k -> Zpos (digits2_pos p) <= k.
Proof.
  intros Hlt Hk. pose proof (digits2_lower p) as Hlow.
  assert (H : 2 ^ (Zpos (digits2_pos p) - 1) < 2 ^ k) by lia.
  apply Z.pow_lt_mono_r_iff in H; lia.
Qed.

Lemma digits2_mono (p q : positive) :
  (p <= q)%positive -> Zpos (digits2_pos p) <= Zpos (digits2_pos q).
Proof.
  intros H. apply digits2_le; [| lia].
  pose proof (digits2_upper q). lia.
Qed.

Lemma digits2_succ (p : positive) :
  Zpos (digits2_pos (p + 1)) <= Zpos (digits2_pos p) + 1.
Proof.
  apply digits2_le; [| lia].
  pose proof (digits2_upper p) as H.
  rewrite Z.pow_add_r by lia. change (2 ^ 1) with 2. lia.
Qed.

Lemma digits2_mul (p q : positive) :
  Zpos (digits2_pos (p * q)) <= Zpos (digits2_pos p) + Zpos (digits2_pos q).
Proof.
  apply digits2_le; [| lia].
  pose proof (digits2_upper p) as Hp. pose proof (digits2_upper q) as Hq.
  rewrite Z.pow_add_r by lia. rewrite Pos2Z.inj_mul. nia.
Qed.

Lemma digits2_shiftr (p q : positive) (n : Z) :
  0 <= n -> Z.shiftr (Zpos p) n = Zpos q ->
  Zpos (digits2_pos q) + n <= Zpos (digits2_pos p).
Proof.
  intros Hn Hq. rewrite Z.shiftr_div_pow2 in Hq by lia.
  assert (Hd : 0 < 2 ^ n) by (apply Z.pow_pos_nonneg; lia).
  pose proof (Z.div_mod (Zpos p) (2 ^ n) ltac:(lia)) as Hdm.
  pose proof (Z.mod_pos_bound (Zpos p) (2 ^ n) Hd) as Hmod.
  rewrite Hq in Hdm.
  pose proof (digits2_upper p) as Hup.
  assert (Hlt : n < Zpos (digits2_pos p)).
  { apply (Z.pow_lt_mono_r_iff 2); [lia | lia | nia]. }
  assert (Hk : Zpos (digits2_pos q) <= Zpos (digits2_pos p) - n).
  { apply digits2_le; [| lia].
    assert (Hsplit : 2 ^ Zpos (digits2_pos p)
                     = 2 ^ (Zpos (digits2_pos p) - n) * 2 ^ n).
    { rewrite <- Z.pow_add_r by lia. f_equal. lia. }
    nia. }
  lia.
Qed.

Lemma digits2_iter_xO (p k : positive) :
  Zpos (digits2_pos (Pos.iter xO p k)) = Zpos (digits2_pos p) + Zpos k.
Proof.
  induction k as [| k IH] using Pos.peano_ind.
  - simpl. lia.
  - rewrite Pos.iter_succ. simpl digits2_pos. lia.
Qed.

Lemma iter_xO_value (p k : positive) :
  Zpos (Pos.iter xO p k) = Zpos p * 2 ^ Zpos k.
Proof.
  induction k as [| k IH] using Pos.peano_ind.
  - simpl. lia.
  - rewrite Pos.iter_succ. rewrite Pos2Z.inj_xO, IH.
    rewrite Pos2Z.inj_succ, Z.pow_succ_r by lia. lia.
Qed.

(** ** Rounding stays in range *)

Lemma fexp64_eq (x : Z) : fexp64 x = Z.max (x - 53) (-1074).
Proof. reflexivity. Qed.

(** What [shr_fexp] does to a positive mantissa: the exponent is raised to
    the exponent of the format, and the number of digits shrinks by as
    much. *)
Lemma shr_fexp_bound (p : positive) (e : Z) (l : location) :
  exists m' r s e',
    shr_fexp prec emax (Zpos p) e l = (Build_shr_record m' r s, e')
    /\ 0 <= m'
    /\ e' = Z.max e (fexp64 (Zpos (digits2_pos p) + e))
    /\ (forall q, m' = Zpos q ->
                  Zpos (digits2_pos q) + e' <= Zpos (digits2_pos p) + e).
Proof.
  unfold shr_fexp, shr. simpl Zdigits2.
  set (x := Zpos (digits2_pos p) + e).
  set (rec := shr_record_of_loc (Zpos p) l).
  assert (Hrec : shr_m rec = Zpos p)
    by (unfold rec; destruct l as [|[]]; reflexivity).
  destruct (fexp64 x - e) as [|k|k] eqn:En.
  - destruct rec as [m0 r s]. simpl in Hrec. subst m0.
    exists (Zpos p), r, s, e. repeat split; try lia.
    intros q Hq. inversion Hq; subst. unfold x. lia.
  - pose proof (iter_shr_1_m k rec) as Hm. rewrite Hrec in Hm.
    specialize (Hm ltac:(lia)).
    destruct (SpecFloat.iter_pos shr_1 k rec) as [m0 r s]. simpl in Hm. subst m0.
    exists (Z.shiftr (Zpos p) (Zpos k)), r, s, (e + Zpos k).
    repeat split; try lia.
    + apply Z.shiftr_nonneg. lia.
    + intros q Hq. pose proof (digits2_shiftr p q (Zpos k) ltac:(lia) Hq). lia.
  - destruct rec as [m0 r s]. simpl in Hrec. subst m0.
    exists (Zpos p), r, s, e. repeat split; try lia.
    intros q Hq. inversion Hq; subst. unfold x. lia.
Qed.

Lemma shr_fexp_zero (e : Z) :
  shr_m (fst (shr_fexp prec emax 0 e loc_Exact)) = 0.
Proof.
  unfold shr_fexp, shr. simpl Zdigits2. simpl shr_record_of_loc.
  destruct (fexp64 (0 + e) - e) as [|k|k]; try reflexivity.
  simpl fst. rewrite iter_shr_1_m by (simpl; lia). simpl. apply Z.shiftr_0_l.
Qed.

Lemma round_nearest_even_bound (m : Z) (l : location) :
  m <= round_nearest_even m l <= m + 1.
Proof.
  destruct l as [|[]]; simpl; try lia.
  destruct (Z.even m); lia.
Qed.

Lemma binary_round_aux_in_range (s : bool) (p : positive) (e : Z) (l : location) :
  e <= 971 -> Zpos (digits2_pos p) + e <= 1023 ->
  in_range s (Z.max (Zpos (digits2_pos p) + e) (-1074) + 1)
    (binary_round_aux prec emax s (Zpos p) e l).
Proof.
  intros He Hd. unfold binary_round_aux.
  destruct (shr_fexp_bound p e l) as [m1 [r1 [s1 [e1 [H1 [Hm1 [He1 Hd1]]]]]]].
  rewrite H1. cbv beta iota. simpl shr_m at 1.
  set (loc := loc_of_shr_record _).
  pose proof (round_nearest_even_bound m1 loc) as Hr.
  rewrite fexp64_eq in He1.
  destruct (round_nearest_even m1 loc) as [|p2|p2] eqn:E2; [| | lia].
  - pose proof (shr_fexp_zero e1) as Hz.
    destruct (shr_fexp prec emax 0 e1 loc_Exact) as [mrs3 e3]. simpl in Hz.
    rewrite Hz. now left.
  - assert (Hd2 : Zpos (digits2_pos p2) + e1
                  <= Z.max (Zpos (digits2_pos p) + e) (-1074) + 1).
    { destruct m1 as [|q1|q1]; [| | lia].
      - assert (p2 = 1%positive) by lia. subst p2. simpl. lia.
      - specialize (Hd1 q1 eq_refl).
        assert (Hle : (p2 <= q1 + 1)%positive) by lia.
        pose proof (digits2_mono _ _ Hle). pose proof (digits2_succ q1). lia. }
    destruct (shr_fexp_bound p2 e1 loc_Exact)
      as [m3 [r3 [s3 [e3 [H3 [Hm3 [He3 Hd3]]]]]]].
    rewrite H3. simpl shr_m. rewrite fexp64_eq in He3.
    destruct m3 as [|q3|q3]; [now left | | lia].
    specialize (Hd3 q3 eq_refl).
    replace (e3 <=? emax - prec) with true.
    + right. exists q3, e3. split; [reflexivity | lia].
    + symmetry. apply Z.leb_le. unfold emax, prec. lia.
Qed.

Lemma binary_round_in_range (s : bool) (p : positive) (e : Z) :
  e <= 971 -> Zpos (digits2_pos p) + e <= 1023 ->
  in_range s (Z.max (Zpos (digits2_pos p) + e) (-1074) + 1)
    (binary_round prec emax s p e).
Proof.
  intros He Hd. unfold binary_round, shl_align.
  set (f := fexp64 (Zpos (digits2_pos p) + e)).
  destruct (f - e) as [|k|k] eqn:Ek;
    try (apply binary_round_aux_in_range; assumption).
  pose proof (digits2_iter_xO p k) as Hk.
  replace (Z.max (Zpos (digits2_pos p) + e) (-1074))
    with (Z.max (Zpos (digits2_pos (Pos.iter xO p k)) + f) (-1074)) by lia.
  apply binary_round_aux_in_range; lia.
Qed.

(** ** Exact conversions *)

(** A mantissa already at the exponent of the format is kept as it is. *)
Lemma binary_round_aux_canonical (s : bool) (p : positive) (e : Z) :
  fexp64 (Zpos (digits2_pos p) + e) = e -> e <= 971 ->
  binary_round_aux prec emax s (Zpos p) e loc_Exact = S754_finite s p e.
Proof.
  intros Hc He. unfold binary_round_aux, shr_fexp. simpl Zdigits2.
  rewrite Hc, Z.sub_diag. simpl shr. cbv beta iota. simpl Zdigits2.
  rewrite Hc, Z.sub_diag. simpl.
  replace (e <=? emax - prec) with true; [reflexivity |].
  symmetry. apply Z.leb_le. unfold emax, prec. lia.
Qed.

Lemma canonical_valid (s : bool) (p : positive) (e : Z) :
  fexp64 (Zpos (digits2_pos p) + e) = e -> e <= 971 ->
  valid_binary (S754_finite s p e) = true.
Proof.
  intros Hc He. unfold SpecFloat.valid_binary, bounded, canonical_mantissa.
  apply andb_true_iff. split.
  - apply Z.eqb_eq. exact Hc.
  - apply Z.leb_le. unfold emax, prec. lia.
Qed.

Lemma valid_canonical (s : bool) (p : positive) (e : Z) :
  valid_binary (S754_finite s p e) = true ->
  fexp64 (Zpos (digits2_pos p) + e) = e /\ e <= 971.
Proof.
  unfold SpecFloat.valid_binary, bounded, canonical_mantissa.
  intros H. apply andb_true_iff in H. destruct H as [Hc He].
  apply Z.eqb_eq in Hc. apply Z.leb_le in He. unfold emax, prec in He. lia.
Qed.

(** Shifting out zeros is exact. *)
Lemma shr_1_double (y : Z) :
  0 < y ->
  shr_1 (Build_shr_record (2 * y) false false) = Build_shr_record y false false.
Proof.
  intros Hy. destruct y as [|q|q]; try lia. reflexivity.
Qed.

Lemma pow2_double (k : positive) : 2 ^ Zpos k~0 = 2 ^ Zpos k * 2 ^ Zpos k.
Proof.
  rewrite <- Z.pow_add_r by lia. f_equal. lia.
Qed.

Lemma iter_shr_1_zeros (k : positive) (x : Z) :
  0 < x ->
  SpecFloat.iter_pos shr_1 k (Build_shr_record (x * 2 ^ Zpos k) false false)
  = Build_shr_record x false false.
Proof.
  revert x. induction k as [k IH | k IH |]; intros x Hx; cbn [SpecFloat.iter_pos].
  - assert (Hp : 0 < x * 2 ^ Zpos k).
    { apply Z.mul_pos_pos; [lia | apply Z.pow_pos_nonneg; lia]. }
    assert (Hpp : 0 < x * 2 ^ Zpos k * 2 ^ Zpos k).
    { apply Z.mul_pos_pos; [lia | apply Z.pow_pos_nonneg; lia]. }
    replace (x * 2 ^ Zpos k~1) with (2 * (x * 2 ^ Zpos k * 2 ^ Zpos k)).
    + rewrite shr_1_double by assumption.
      rewrite IH by assumption. now apply IH.
    + rewrite Pos2Z.inj_xI, Z.pow_add_r by lia.
      change (2 * Zpos k) with (Zpos k~0). rewrite pow2_double.
      change (2 ^ 1) with 2. ring.
  - assert (Hp : 0 < x * 2 ^ Zpos k).
    { apply Z.mul_pos_pos; [lia | apply Z.pow_pos_nonneg; lia]. }
    replace (x * 2 ^ Zpos k~0) with (x * 2 ^ Zpos k * 2 ^ Zpos k).
    + rewrite IH by assumption. now apply IH.
    + rewrite pow2_double. ring.
  - change (2 ^ 1) with 2. rewrite Z.mul_comm. now apply shr_1_double.
Qed.

(** The integer [m * 2^e] of a float with a non-negative exponent converts
    back to that float. *)
Lemma binary_round_integer (s : bool) (m k : positive) :
  valid_binary (S754_finite s m (Zpos k)) = true ->
  binary_round prec emax s (Pos.iter xO m k) 0 = S754_finite s m (Zpos k).
Proof.
  intros Hv. apply valid_canonical in Hv. destruct Hv as [Hc He].
  rewrite fexp64_eq in Hc.
  unfold binary_round, shl_align.
  rewrite digits2_iter_xO, fexp64_eq.
  replace (Z.max (Zpos (digits2_pos m) + Zpos k + 0 - 53) (-1074) - 0)
    with (Zpos k) by lia.
  unfold binary_round_aux, shr_fexp. simpl Zdigits2.
  rewrite digits2_iter_xO, fexp64_eq.
  replace (Z.max (Zpos (digits2_pos m) + Zpos k + 0 - 53) (-1074) - 0)
    with (Zpos k) by lia.
  simpl shr_record_of_loc. unfold shr.
  rewrite iter_xO_value, iter_shr_1_zeros by lia.
  cbv beta iota. simpl shr_m. simpl loc_of_shr_record.
  simpl round_nearest_even. simpl Zdigits2. rewrite fexp64_eq.
  replace (Z.max (Zpos (digits2_pos m) + (0 + Zpos k) - 53) (-1074) - (0 + Zpos k))
    with 0 by lia.
  simpl. change (0 + Zpos k) with (Zpos k).
  replace (Zpos k <=? emax - prec) with true; [reflexivity |].
  symmetry. apply Z.leb_le. unfold emax, prec. lia.
Qed.

(** A positive integer of at most 53 bits converts to a float of the same
    magnitude. *)
Lemma binary_round_small_integer (s : bool) (z : positive) :
  Zpos (digits2_pos z) <= 53 ->
  exists m e,
    binary_round prec emax s z 0 = S754_finite s m e
    /\ valid_binary (S754_finite s m e) = true
    /\ Zpos (digits2_pos m) + e = Zpos (digits2_pos z)
    /\ e <= 0.
Proof.
  intros Hd. unfold binary_round, shl_align. rewrite fexp64_eq.
  destruct (Z.max (Zpos (digits2_pos z) + 0 - 53) (-1074) - 0) as [|k|k] eqn:Ek.
  - assert (Hc : fexp64 (Zpos (digits2_pos z) + 0) = 0) by (rewrite fexp64_eq; lia).
    exists z, 0. rewrite binary_round_aux_canonical by (assumption || lia).
    repeat split; try lia. apply canonical_valid; [assumption | lia].
  - lia.
  - set (f := Z.max (Zpos (digits2_pos z) + 0 - 53) (-1074)) in *.
    assert (Hc : fexp64 (Zpos (digits2_pos (Pos.iter xO z k)) + f) = f).
    { rewrite digits2_iter_xO, fexp64_eq. lia. }
    exists (Pos.iter xO z k), f.
    rewrite binary_round_aux_canonical by (assumption || lia).
    repeat split; try lia.
    + apply canonical_valid; [assumption | lia].
    + rewrite digits2_iter_xO. lia.
Qed.

(** ** The cents of a finite amount *)

Lemma in_range_bounded (s : bool) (b b' : Z) (r : spec_float) :
  in_range s b r -> b <= b' -> bounded_float b' r.
Proof.
  intros [-> | [m [e [-> H]]]] Hb; [left; now exists s |].
  right. exists s, m, e. split; [reflexivity | lia].
Qed.

Lemma valid_digits (s : bool) (m : positive) (e : Z) :
  valid_binary (S754_finite s m e) = true ->
  Zpos (digits2_pos m) <= 53 /\ e <= 971.
Proof.
  intros H. apply valid_canonical in H. rewrite fexp64_eq in H. lia.
Qed.

Lemma shl_align_digits (m : positive) (e e' : Z) :
  e' <= e ->
  Zpos (digits2_pos (fst (shl_align m e e'))) + e' = Zpos (digits2_pos m) + e.
Proof.
  intros H. unfold shl_align.
  destruct (e' - e) as [|k|k] eqn:Ek; simpl fst; try lia.
  rewrite digits2_iter_xO. lia.
Qed.

(** The difference of two finite floats of the same sign is no larger than
    the larger of the two. *)
Lemma SFsub_same_sign (s : bool) (mx my : positive) (ex ey b : Z) :
  ex <= 971 -> ey <= 971 ->
  Zpos (digits2_pos mx) + ex <= b -> Zpos (digits2_pos my) + ey <= b ->
  -1074 <= b <= 1023 ->
  bounded_float (b + 1) (SF64sub (S754_finite s mx ex) (S754_finite s my ey)).
Proof.
  intros Hex Hey Hx Hy Hb. unfold SF64sub, SFsub. cbv zeta.
  set (ez := Z.min ex ey).
  pose proof (shl_align_digits mx ex ez ltac:(lia)) as Ha.
  pose proof (shl_align_digits my ey ez ltac:(lia)) as Hb'.
  set (a := fst (shl_align mx ex ez)) in *.
  set (c := fst (shl_align my ey ez)) in *.
  unfold binary_normalize.
  destruct (cond_Zopp s (Zpos a) - cond_Zopp s (Zpos c)) as [|p|p] eqn:Ed.
  - left. now exists false.
  - assert (Hp : (p <= a)%positive \/ (p <= c)%positive)
      by (destruct s; simpl in Ed; lia).
    assert (Hdp : Zpos (digits2_pos p) + ez <= b).
    { destruct Hp as [Hp | Hp]; apply digits2_mono in Hp; lia. }
    apply (in_range_bounded false (Z.max (Zpos (digits2_pos p) + ez) (-1074) + 1));
      [apply binary_round_in_range |]; lia.
  - assert (Hp : (p <= a)%positive \/ (p <= c)%positive)
      by (destruct s; simpl in Ed; lia).
    assert (Hdp : Zpos (digits2_pos p) + ez <= b).
    { destruct Hp as [Hp | Hp]; apply digits2_mono in Hp; lia. }
    apply (in_range_bounded true (Z.max (Zpos (digits2_pos p) + ez) (-1074) + 1));
      [apply binary_round_in_range |]; lia.
Qed.

Lemma SFsub_self (s : bool) (m : positive) (e : Z) :
  SF64sub (S754_finite s m e) (S754_finite s m e) = S754_zero false.
Proof.
  unfold SF64sub, SFsub. cbv zeta. now rewrite Z.sub_diag.
Qed.

Lemma Prim2SF_100 : Prim2SF 100 = S754_finite false 7036874417766400 (-46).
Proof. reflexivity. Qed.

(** A hundred times a float below [2^960] is a zero or a finite float. *)
Lemma SFmul_100_finite (r : spec_float) (b : Z) :
  valid_binary r = true -> bounded_float b r -> b <= 960 ->
  bounded_float 1024 (SF64mul r (Prim2SF 100)).
Proof.
  intros Hv [[s ->] | [s [m [e [-> Hd]]]]] Hb; rewrite Prim2SF_100.
  - left. now exists (xorb s false).
  - apply valid_digits in Hv.
    unfold SF64mul, SFmul.
    pose proof (digits2_mul m 7036874417766400) as Hm.
    change (Zpos (digits2_pos 7036874417766400)) with 53 in Hm.
    apply (in_range_bounded (xorb s false)
             (Z.max (Zpos (digits2_pos (m * 7036874417766400)) + (e + -46))
                (-1074) + 1));
      [apply binary_round_aux_in_range |]; lia.
Qed.

Lemma to_float_100 : Py.to_float (Py.PyInt 100) = Ok 100%float.
Proof. reflexivity. Qed.

Lemma to_float_0 : Py.to_float (Py.PyInt 0) = Ok 0%float.
Proof. reflexivity. Qed.

(** [round] succeeds on a zero and on a finite float. *)
Lemma round_bounded (c : float) (b : Z) :
  bounded_float b (Prim2SF c) -> exists r, Py.round (Py.PyFloat c) = Ok r.
Proof.
  unfold Py.round.
  intros [[s ->] | [s [m [e [-> _]]]]]; eexists; reflexivity.
Qed.

(** The cents of [f - g], for a difference [f - g] of small magnitude. *)
Lemma centimes_of_difference (f g : float) (z : Z) (b : Z) :
  Py.to_float (Py.PyInt z) = Ok g ->
  bounded_float b (Prim2SF (f - g)) -> b <= 960 ->
  exists c, centimes_of (Py.PyFloat f) z = Ok c.
Proof.
  intros Hg Hb Hle. unfold centimes_of, Py.sub.
  rewrite Hg. cbn [Py.to_float exc_bind].
  unfold Py.mul. rewrite to_float_100. cbn [Py.to_float exc_bind].
  assert (Hc : bounded_float 1024 (Prim2SF ((f - g) * 100))).
  { rewrite mul_spec. apply (SFmul_100_finite _ b); [apply Prim2SF_valid | |];
      assumption. }
  destruct (round_bounded _ _ Hc) as [r Hr]. rewrite Hr.
  cbn [exc_bind Py.int]. now exists r.
Qed.

Lemma to_float_signed (s : bool) (p m : positive) (e : Z) :
  binary_round prec emax s p 0 = S754_finite s m e ->
  Py.to_float (Py.PyInt (Py.signed s (Zpos p)))
  = Ok (SF2Prim (S754_finite s m e)).
Proof.
  intros H. unfold Py.to_float.
  assert (Hn : binary_normalize prec emax (Py.signed s (Zpos p)) 0 false
               = binary_round prec emax s p 0) by (destruct s; reflexivity).
  rewrite Hn, H. reflexivity.
Qed.

Lemma binary_round_unit_exponent (s : bool) (m : positive) :
  valid_binary (S754_finite s m 0) = true ->
  binary_round prec emax s m 0 = S754_finite s m 0.
Proof.
  intros Hv. apply valid_canonical in Hv. destruct Hv as [Hc He].
  unfold binary_round, shl_align. rewrite Hc. simpl.
  now apply binary_round_aux_canonical.
Qed.

(** The integer part of a float with a non-negative exponent is the float
    itself. *)
Lemma to_float_of_integer (f : float) (s : bool) (m : positive) (e : Z) :
  Prim2SF f = S754_finite s m e -> 0 <= e ->
  Py.to_float (Py.PyInt (Py.signed s (Py.truncate m e))) = Ok f.
Proof.
  intros Ef He.
  pose proof (Prim2SF_valid f) as Hv. rewrite Ef in Hv.
  rewrite <- (SF2Prim_Prim2SF f), Ef.
  unfold Py.truncate.
  replace (0 <=? e) with true by (symmetry; apply Z.leb_le; lia).
  destruct e as [|k|k]; [| | lia].
  - rewrite Z.mul_1_r. apply to_float_signed.
    now apply binary_round_unit_exponent.
  - rewrite <- iter_xO_value. apply to_float_signed.
    now apply binary_round_integer.
Qed.

(** No stage of [int(round((n - entier) * 100))] raises on a finite float. *)
Lemma centimes_of_total (f : float) (entier : Z) :
  Py.int (Py.PyFloat f) = Ok entier ->
  exists centimes, centimes_of (Py.PyFloat f) entier = Ok centimes.
Proof.
  unfold Py.int. destruct (Prim2SF f) as [s | s | | s m e] eqn:Ef;
    intros H; inversion H; subst entier; clear H.
  - apply (centimes_of_difference f 0 0 0 to_float_0); [| lia].
    rewrite sub_spec, Ef. left. destruct s; eexists; reflexivity.
  - pose proof (Prim2SF_valid f) as Hv. rewrite Ef in Hv.
    pose proof (valid_digits _ _ _ Hv) as [Hdm Hem].
    destruct (Z.le_gt_cases 0 e) as [He | He].
    + apply (centimes_of_difference f f _ 0
               (to_float_of_integer f s m e Ef He)); [| lia].
      rewrite sub_spec, Ef, SFsub_self. left. now exists false.
    + unfold Py.truncate.
      replace (0 <=? e) with false by (symmetry; apply Z.leb_gt; lia).
      assert (Hd : 0 < 2 ^ (- e)) by (apply Z.pow_pos_nonneg; lia).
      pose proof (Z.div_pos (Zpos m) (2 ^ (- e)) ltac:(lia) Hd) as Hz.
      destruct (Zpos m / 2 ^ (- e)) as [|pz|pz] eqn:Ez; [| | lia].
      * replace (Py.signed s 0) with 0 by (destruct s; reflexivity).
        apply (centimes_of_difference f 0 0 53 to_float_0); [| lia].
        rewrite sub_spec, Ef. right. exists s, m, e. split; [reflexivity | lia].
      * assert (Hle : (pz <= m)%positive).
        { assert (Zpos m / 2 ^ (- e) <= Zpos m)
            by (apply Z.div_le_upper_bound; nia).
          lia. }
        pose proof (digits2_mono _ _ Hle) as Hdz.
        destruct (binary_round_small_integer s pz ltac:(lia))
          as [mg [eg [Hr [Hvg [Hdg Heg]]]]].
        apply (centimes_of_difference f (SF2Prim (S754_finite s mg eg)) _ 54
                 (to_float_signed s pz mg eg Hr)); [| lia].
        rewrite sub_spec, Ef, (Prim2SF_SF2Prim _ Hvg).
        apply (SFsub_same_sign s m mg e eg 53); lia.
Qed.

Local Close Scope Z_scope.

(** ** Signed zeros in a sum *)

Lemma valid_exponent (s : bool) (m : positive) (e : Z) :
  valid_binary (S754_finite s m e) = true -> (emin <= e)%Z.
Proof.
  unfold SpecFloat.valid_binary, bounded, canonical_mantissa.
  intros H. apply andb_true_iff in H. destruct H as [H _].
  apply Z.eqb_eq in H. unfold fexp in H. lia.
Qed.

Lemma SFadd_not_neg_zero (a t : spec_float) :
  valid_binary a = true -> valid_binary t = true ->
  a <> S754_zero true -> SF64add a t <> S754_zero true.
Proof.
  intros Ha Ht Hnz.
  destruct a as [sa | sa | | sa ma ea]; destruct t as [st | st | | st mt et];
    unfold SF64add, SFadd;
    try (destruct sa; destruct st; try discriminate; try congruence; fail);
    try discriminate; try (destruct sa; discriminate).
  apply valid_exponent in Ha. apply valid_exponent in Ht.
  cbv zeta. unfold binary_normalize.
  match goal with
  | |- context [match ?z with Z0 => _ | Zpos _ => _ | Zneg _ => _ end] =>
      destruct z
  end;
    [discriminate | apply binary_round_nonzero; lia ..].
Qed.

Lemma add_not_neg_zero (a t : float) :
  not_neg_zero a -> not_neg_zero (a + t).
Proof.
  unfold not_neg_zero. intros Ha. rewrite add_spec.
  apply SFadd_not_neg_zero; [apply Prim2SF_valid .. | exact Ha].
Qed.

Lemma add_zero_same (a t t' : float) :
  not_neg_zero a -> is_zero_float t -> is_zero_float t' ->
  (a + t)%float = (a + t')%float.
Proof.
  unfold not_neg_zero. intros Ha [s Hs] [s' Hs'].
  apply Prim2SF_inj. rewrite !add_spec, Hs, Hs'.
  destruct (Prim2SF a) as [sa | sa | | sa ma ea]; try reflexivity.
  destruct sa; [congruence |]. destruct s, s'; reflexivity.
Qed.

Lemma same_amount_refl (x : float) : same_amount x x.
Proof. now left. Qed.

Lemma mul_same_amount (x x' y y' : float) :
  same_amount x x' -> same_amount y y' ->
  same_amount (x * y) (x' * y').
Proof.
  intros [<- | [[sx Hx] [sx' Hx']]] [<- | [[sy Hy] [sy' Hy']]].
  - now left.
  - destruct (Prim2SF x) as [s | s | | s m e] eqn:Ex.
    1, 4: right; split; eexists; rewrite mul_spec, Ex, ?Hy, ?Hy'; reflexivity.
    all: left; apply Prim2SF_inj; rewrite !mul_spec, Ex, Hy, Hy'; reflexivity.
  - destruct (Prim2SF y) as [s | s | | s m e] eqn:Ey.
    1, 4: right; split; eexists; rewrite mul_spec, Ey, ?Hx, ?Hx'; reflexivity.
    all: left; apply Prim2SF_inj; rewrite !mul_spec, Ey, Hx, Hx'; reflexivity.
  - right; split; eexists; rewrite mul_spec, ?Hx, ?Hx', ?Hy, ?Hy'; reflexivity.
Qed.

Lemma div_100_same_amount (x x' : float) :
  same_amount x x' -> same_amount (x / 100) (x' / 100).
Proof.
  intros [<- | [[sx Hx] [sx' Hx']]]; [now left |].
  right; split; eexists; rewrite div_spec, ?Hx, ?Hx'; reflexivity.
Qed.

Lemma or_zero_same_amount (o : option float) :
  same_amount (Py.or_zero o) (or_absent_zero o).
Proof.
  destruct o as [x |]; [| now left].
  unfold Py.or_zero, Py.truthy, is_zero, or_absent_zero.
  destruct (x =? zero)%float eqn:E; simpl; [| now left].
  right. split; [exists false; reflexivity |].
  rewrite FloatAxioms.eqb_spec in E.
  change (Prim2SF zero) with (S754_zero false) in E.
  destruct (Prim2SF x) as [s | s | | s m e] eqn:Ex; try discriminate E.
  - exists s. exact Ex.
  - destruct s; discriminate E.
  - destruct s; discriminate E.
Qed.

Lemma fold_add_same_amount (l l' : list float) (a : float) :
  Forall2 same_amount l l' -> not_neg_zero a ->
  fold_left PrimFloat.add l a = fold_left PrimFloat.add l' a.
Proof.
  intros H. revert a. induction H as [| x y l l' Hxy _ IH]; intros a Ha.
  - reflexivity.
  - simpl. destruct Hxy as [<- | [Hx Hy]].
    + apply IH. now apply add_not_neg_zero.
    + rewrite (add_zero_same a x y Ha Hx Hy).
      apply IH. now apply add_not_neg_zero.
Qed.

Lemma zero_not_neg_zero : not_neg_zero 0.
Proof.
  unfold not_neg_zero. change (Prim2SF 0) with (S754_zero false). discriminate.
Qed.

Lemma abs_zero_same (x x' : float) :
  is_zero_float x -> is_zero_float x' -> abs x = abs x'.
Proof.
  intros [s Hs] [s' Hs']. apply Prim2SF_inj.
  now rewrite !abs_spec, Hs, Hs'.
Qed.

(** The error term [f - (f + x)] of adding a zero is never a negative
    zero. *)
Lemma sub_add_zero_not_neg_zero (f x : float) :
  not_neg_zero f -> is_zero_float x -> not_neg_zero (f - (f + x)).
Proof.
  unfold not_neg_zero. intros Hf [s Hs].
  rewrite sub_spec, add_spec, Hs.
  destruct (Prim2SF f) as [sf | sf | | sf mf ef].
  - destruct sf; [congruence |]. destruct s; discriminate.
  - destruct sf; discriminate.
  - discriminate.
  - unfold SF64add, SFadd, SF64sub, SFsub. cbv zeta.
    rewrite Z.sub_diag. discriminate.
Qed.

(** Only a NaN fails to be at least as large as a zero. *)
Lemma leb_abs_zero_false (x f : float) :
  is_zero_float x -> (abs x <=? abs f)%float = false -> Prim2SF f = S754_nan.
Proof.
  intros [s Hs]. rewrite leb_spec, !abs_spec, Hs.
  destruct (Prim2SF f) as [sf | sf | | sf mf ef]; simpl;
    intros H; try discriminate H; reflexivity.
Qed.

Lemma compensated_add_same (f c x x' : float) :
  not_neg_zero f -> same_amount x x' ->
  Py.compensated_add (f, c) x = Py.compensated_add (f, c) x'.
Proof.
  intros Hf [<- | [Hx Hx']]; [reflexivity |].
  unfold Py.compensated_add.
  rewrite (add_zero_same f x x' Hf Hx Hx').
  rewrite (abs_zero_same x x' Hx Hx').
  destruct (abs x' <=? abs f)%float eqn:Hle.
  - f_equal. f_equal.
    apply add_zero_same; [| assumption ..].
    now apply sub_add_zero_not_neg_zero.
  - apply (leb_abs_zero_false x' f Hx') in Hle.
    f_equal. f_equal. f_equal.
    apply Prim2SF_inj. rewrite !sub_spec, add_spec, Hle.
    destruct Hx as [s Hs], Hx' as [s' Hs']. now rewrite Hs, Hs'.
Qed.

Lemma fold_compensated_same (l l' : list float) (f c : float) :
  Forall2 same_amount l l' -> not_neg_zero f ->
  fold_left Py.compensated_add l (f, c)
  = fold_left Py.compensated_add l' (f, c).
Proof.
  intros H. revert f c.
  induction H as [| x y l l' Hxy _ IH]; intros f c Hf; [reflexivity |].
  change (fold_left Py.compensated_add l (Py.compensated_add (f, c) x)
          = fold_left Py.compensated_add l' (Py.compensated_add (f, c) y)).
  rewrite (compensated_add_same f c x y Hf Hxy).
  unfold Py.compensated_add. apply IH. now apply add_not_neg_zero.
Qed.

(** Both summations give the same float on two lists whose items differ at
    most in the sign of their zeros. *)
Lemma sum_same_amount (alg : Py.summation) (A : Type) (f g : A -> float)
  (l : list A) :
  (forall p, same_amount (f p) (g p)) ->
  Py.sum alg (map f l) = Py.sum alg (map g l).
Proof.
  intros H. destruct l as [| p l]; [reflexivity |].
  assert (Hrest : Forall2 same_amount (map f l) (map g l)).
  { induction l; simpl; constructor; auto. }
  assert (Hfirst : (0 + f p)%float = (0 + g p)%float).
  { destruct (H p) as [-> | [Hx Hy]]; [reflexivity |].
    apply add_zero_same; [apply zero_not_neg_zero | assumption ..]. }
  assert (Hnz : not_neg_zero (0 + g p)).
  { apply add_not_neg_zero, zero_not_neg_zero. }
  simpl map. unfold Py.sum. rewrite Hfirst. destruct alg.
  - now apply fold_add_same_amount.
  - now rewrite (fold_compensated_same _ _ _ _ Hrest Hnz).
Qed.

(** The sums of the handler are the sums of the specification: an amount
    that is present and zero is replaced by the int [0], which changes at
    most the sign of a zero term, and the running sum is never a negative
    zero. *)
Lemma total_ht_spec (alg : Py.summation) (ps : list Product) :
  Py.sum alg
    (map (fun p => (quantite p * Py.or_zero (prixUnitaire p))%float) ps)
  = spec_total_ht alg ps.
Proof.
  unfold spec_total_ht. apply sum_same_amount. intros p.
  apply mul_same_amount; [apply same_amount_refl | apply or_zero_same_amount].
Qed.

Lemma total_tva_spec (alg : Py.summation) (ps : list Product) :
  Py.sum alg
    (map (fun p => (quantite p * Py.or_zero (prixUnitaire p)
                    * Py.or_zero (tauxTVA p) / 100)%float) ps)
  = spec_total_tva alg ps.
Proof.
  unfold spec_total_tva. apply sum_same_amount. intros p.
  apply div_100_same_amount.
  repeat apply mul_same_amount;
    [apply same_amount_refl | apply or_zero_same_amount ..].
Qed.

(** ** Formatting *)

Lemma all_digits_of_uint (d : Decimal.uint) :
  all_digits (NilEmpty.string_of_uint d) = true.
Proof.
  induction d; simpl; try reflexivity; exact IHd.
Qed.

(** The decimal digits of a number: a digit, then digits. *)
Lemma digits_shape (z : Z) :
  exists c s, Py.digits z = String c s
              /\ is_digit c = true /\ all_digits s = true.
Proof.
  unfold Py.digits, NilZero.string_of_uint.
  destruct (N.to_uint (Z.to_N z)) as [|d|d|d|d|d|d|d|d|d|d];
    [ exists "0"%char, ""; repeat split
    | eexists; exists (NilEmpty.string_of_uint d);
      (split; [reflexivity | split; [reflexivity | apply all_digits_of_uint]]) .. ].
Qed.

Lemma two_digits_shape (r : Z) :
  (0 <= r < 100)%Z -> two_digit_string (Py.two_digits r) = true.
Proof.
  intros Hr.
  assert (Hall : forallb (fun k => two_digit_string (Py.two_digits (Z.of_nat k)))
                   (seq 0 100) = true) by (vm_compute; reflexivity).
  rewrite forallb_forall in Hall.
  rewrite <- (Z2Nat.id r) by lia.
  apply Hall. apply in_seq. lia.
Qed.

Lemma unsigned_2dp_digits (s : string) (c d1 d2 : ascii) :
  is_digit c = true -> all_digits s = true ->
  is_digit d1 = true -> is_digit d2 = true ->
  unsigned_2dp (String c s ++ "." ++ String d1 (String d2 "")) = true.
Proof.
  intros Hc Hs H1 H2. revert c Hc Hs.
  induction s as [|c' s IH]; intros c Hc Hs.
  - change (is_digit c && (is_digit d1 && is_digit d2) = true).
    now rewrite Hc, H1, H2.
  - simpl in Hs. apply andb_true_iff in Hs. destruct Hs as [Hc' Hs].
    specialize (IH c' Hc' Hs).
    rewrite append_cons.
    change (unsigned_2dp (String c (String c' s ++ "." ++ String d1 (String d2 ""))))
      with (is_digit c &&
            match String c' s ++ "." ++ String d1 (String d2 "") with
            | String "." (String e1 (String e2 EmptyString)) =>
                is_digit e1 && is_digit e2
            | _ => unsigned_2dp (String c' s ++ "." ++ String d1 (String d2 ""))
            end).
    rewrite Hc. rewrite append_cons in *. simpl andb.
    destruct (Ascii.eqb_spec c' ".") as [-> | Hne]; [discriminate Hc' |].
    destruct c' as [[] [] [] [] [] [] [] []]; try exact IH;
      try discriminate Hc'.
Qed.

Lemma digit_not_minus (c : ascii) : is_digit c = true -> Ascii.eqb c "-" = false.
Proof.
  intros Hc. destruct (Ascii.eqb_spec c "-") as [-> | Hne];
    [discriminate Hc | reflexivity].
Qed.

Lemma fixed_2dp_unsigned (s : string) :
  unsigned_2dp s = true -> fixed_2dp s = true /\ fixed_2dp ("-" ++ s) = true.
Proof.
  intros Hs. split.
  - destruct s as [|c s]; [discriminate Hs |].
    unfold fixed_2dp.
    assert (Hc : is_digit c = true).
    { simpl in Hs. now apply andb_true_iff in Hs. }
    now rewrite (digit_not_minus c Hc).
  - exact Hs.
Qed.

(** A finite float is formatted with a point and exactly two decimals. *)
Lemma format_2f_fixed (x : float) :
  isfinite x = true -> fixed_2dp (Py.format_2f x) = true.
Proof.
  unfold isfinite, Py.format_2f.
  destruct (Prim2SF x) as [s | s | | s m e]; intros Hfin;
    try discriminate Hfin.
  - destruct s; reflexivity.
  - set (c := Py.round_half_even (100 * Z.pos m) e).
    destruct (digits_shape (c / 100)) as [c0 [ds [Hd [Hc0 Hds]]]].
    pose proof (two_digits_shape (c mod 100)
                  (Z.mod_pos_bound c 100 eq_refl)) as H2.
    rewrite Hd.
    destruct (Py.two_digits (c mod 100)) as [|d1 [|d2 [|? ?]]];
      try discriminate H2.
    simpl in H2. apply andb_true_iff in H2. destruct H2 as [Hd1 Hd2].
    pose proof (unsigned_2dp_digits ds c0 d1 d2 Hc0 Hds Hd1 Hd2) as Hu.
    apply fixed_2dp_unsigned in Hu.
    destruct s; [exact (proj2 Hu) | exact (proj1 Hu)].
Qed.

Lemma resolve_totals_computed (alg : Py.summation)
  (request : GeneratePdfRequest) :
  totals request = None -> products request <> [] ->
  resolve_totals alg request = Some (compute_totals alg (products request)).
Proof.
  intros Ht Hp. unfold resolve_totals. rewrite Ht.
  destruct (products request); [contradiction | reflexivity].
Qed.

(** ** The range of the cents *)

Lemma round_half_even_nonneg (num e : Z) :
  (0 <= num -> 0 <= Py.round_half_even num e)%Z.
Proof.
  intros Hn. unfold Py.round_half_even.
  destruct (Z.leb_spec 0 e) as [He | He].
  - apply Z.mul_nonneg_nonneg; [exact Hn | apply Z.pow_nonneg; lia].
  - assert (Hd : (0 < 2 ^ (- e))%Z) by (apply Z.pow_pos_nonneg; lia).
    pose proof (Z.div_pos num (2 ^ (- e)) Hn Hd) as Hq. cbv zeta.
    destruct (2 * (num mod 2 ^ (- e)) ?= 2 ^ (- e))%Z; [| lia | lia].
    destruct (Z.even (num / 2 ^ (- e))); lia.
Qed.

Local Open Scope Z_scope.

Lemma shl_align_value (m : positive) (e e' : Z) :
  e' <= e -> Zpos (fst (shl_align m e e')) = Zpos m * 2 ^ (e - e').
Proof.
  intros H. unfold shl_align.
  destruct (e' - e) as [|k|k] eqn:Ek; simpl fst; try lia.
  - replace (e - e') with 0 by lia. simpl. lia.
  - rewrite iter_xO_value. f_equal. f_equal. lia.
Qed.

Lemma binary_round_small_integer_value (s : bool) (z : positive) :
  Zpos (digits2_pos z) <= 53 ->
  exists m e,
    binary_round prec emax s z 0 = S754_finite s m e
    /\ valid_binary (S754_finite s m e) = true
    /\ Zpos (digits2_pos m) + e = Zpos (digits2_pos z)
    /\ e <= 0
    /\ Zpos m = Zpos z * 2 ^ (- e).
Proof.
  intros Hd. unfold binary_round, shl_align. rewrite fexp64_eq.
  destruct (Z.max (Zpos (digits2_pos z) + 0 - 53) (-1074) - 0) as [|k|k] eqn:Ek.
  - assert (Hc : fexp64 (Zpos (digits2_pos z) + 0) = 0) by (rewrite fexp64_eq; lia).
    exists z, 0. rewrite binary_round_aux_canonical by (assumption || lia).
    repeat split; try lia. apply canonical_valid; [assumption | lia].
  - lia.
  - set (f := Z.max (Zpos (digits2_pos z) + 0 - 53) (-1074)) in *.
    assert (Hc : fexp64 (Zpos (digits2_pos (Pos.iter xO z k)) + f) = f).
    { rewrite digits2_iter_xO, fexp64_eq. lia. }
    exists (Pos.iter xO z k), f.
    rewrite binary_round_aux_canonical by (assumption || lia).
    repeat split; try lia.
    + apply canonical_valid; [assumption | lia].
    + rewrite digits2_iter_xO. lia.
    + rewrite iter_xO_value. f_equal. f_equal. lia.
Qed.

Lemma centimes_of_round (f g : float) (z : Z) :
  Py.to_float (Py.PyInt z) = Ok g ->
  centimes_of (Py.PyFloat f) z = Py.round (Py.PyFloat ((f - g) * 100)).
Proof.
  intros Hg. unfold centimes_of, Py.sub.
  rewrite Hg. cbn [Py.to_float exc_bind].
  unfold Py.mul. rewrite to_float_100. cbn [Py.to_float exc_bind].
  destruct (Py.round (Py.PyFloat ((f - g) * 100))); reflexivity.
Qed.

(** What [shr_fexp] does to the value of a positive mantissa: it is
    divided by the power of two that raises the exponent to the exponent of
    the format. *)
Lemma shr_fexp_value (p : positive) (e : Z) (l : location) :
  exists m' r s e',
    shr_fexp prec emax (Zpos p) e l = (Build_shr_record m' r s, e')
    /\ e' = Z.max e (fexp64 (Zpos (digits2_pos p) + e))
    /\ m' = Zpos p / 2 ^ (e' - e).
Proof.
  unfold shr_fexp, shr. simpl Zdigits2.
  set (x := Zpos (digits2_pos p) + e).
  set (rec := shr_record_of_loc (Zpos p) l).
  assert (Hrec : shr_m rec = Zpos p)
    by (unfold rec; destruct l as [|[]]; reflexivity).
  destruct (fexp64 x - e) as [|k|k] eqn:En.
  - destruct rec as [m0 r s]. simpl in Hrec. subst m0.
    exists (Zpos p), r, s, e. repeat split; try lia.
    replace (e - e) with 0 by lia. now rewrite Z.div_1_r.
  - pose proof (iter_shr_1_m k rec) as Hm. rewrite Hrec in Hm.
    specialize (Hm ltac:(lia)).
    destruct (SpecFloat.iter_pos shr_1 k rec) as [m0 r s]. simpl in Hm. subst m0.
    exists (Z.shiftr (Zpos p) (Zpos k)), r, s, (e + Zpos k).
    repeat split; try lia.
    rewrite Z.shiftr_div_pow2 by lia. f_equal. f_equal. lia.
  - destruct rec as [m0 r s]. simpl in Hrec. subst m0.
    exists (Zpos p), r, s, e. repeat split; try lia.
    replace (e - e) with 0 by lia. now rewrite Z.div_1_r.
Qed.

Lemma pow2_split (a b : Z) : 0 <= a -> 0 <= b -> 2 ^ (a + b) = 2 ^ a * 2 ^ b.
Proof. intros Ha Hb. now apply Z.pow_add_r. Qed.

(** A positive number below [100 * 2^k] has at most [k + 7] digits. *)
Lemma digits2_below_100 (p : positive) (k : Z) :
  0 <= k -> Zpos p <= 100 * 2 ^ k -> Zpos (digits2_pos p) <= k + 7.
Proof.
  intros Hk Hp. apply digits2_le; [| lia].
  rewrite pow2_split by lia. change (2 ^ 7) with 128.
  assert (0 < 2 ^ k) by (apply Z.pow_pos_nonneg; lia). lia.
Qed.

(** Rounding a value below a hundred gives at most a hundred. *)
Lemma binary_round_aux_below_100 (s : bool) (p : positive) (e : Z)
  (l : location) :
  e <= 0 -> Zpos p < 100 * 2 ^ (- e) ->
  at_most_100 s (binary_round_aux prec emax s (Zpos p) e l).
Proof.
  intros He Hp. unfold binary_round_aux.
  pose proof (digits2_below_100 p (- e) ltac:(lia) ltac:(lia)) as Hdp.
  destruct (shr_fexp_value p e l) as [m1 [r1 [s1 [e1 [H1 [He1 Hm1]]]]]].
  rewrite H1. cbv beta iota. simpl shr_m at 1.
  rewrite fexp64_eq in He1.
  assert (He1' : e1 <= 0) by lia.
  assert (Hsh : 0 <= e1 - e) by lia.
  assert (Hpow : 0 < 2 ^ (e1 - e)) by (apply Z.pow_pos_nonneg; lia).
  assert (Hsplit : 2 ^ (- e) = 2 ^ (e1 - e) * 2 ^ (- e1)).
  { rewrite <- pow2_split by lia. f_equal. lia. }
  assert (Hm1' : 0 <= m1 < 100 * 2 ^ (- e1)).
  { subst m1. split; [apply Z.div_pos; lia |].
    apply Z.div_lt_upper_bound; [exact Hpow |]. rewrite Hsplit in Hp. lia. }
  set (loc := loc_of_shr_record _).
  pose proof (round_nearest_even_bound m1 loc) as Hr.
  destruct (round_nearest_even m1 loc) as [|p2|p2] eqn:E2; [| | lia].
  - pose proof (shr_fexp_zero e1) as Hz.
    destruct (shr_fexp prec emax 0 e1 loc_Exact) as [mrs3 e3]. simpl in Hz.
    rewrite Hz. now left.
  - assert (Hp2 : Zpos p2 <= 100 * 2 ^ (- e1)) by lia.
    pose proof (digits2_below_100 p2 (- e1) ltac:(lia) Hp2) as Hdp2.
    destruct (shr_fexp_value p2 e1 loc_Exact)
      as [m3 [r3 [s3 [e3 [H3 [He3 Hm3]]]]]].
    rewrite H3. simpl shr_m. rewrite fexp64_eq in He3.
    assert (He3' : e3 <= 0) by lia.
    assert (Hpow3 : 0 < 2 ^ (e3 - e1)) by (apply Z.pow_pos_nonneg; lia).
    assert (Hsplit3 : 2 ^ (- e1) = 2 ^ (- e3) * 2 ^ (e3 - e1)).
    { rewrite <- pow2_split by lia. f_equal. lia. }
    assert (Hm3' : 0 <= m3 <= 100 * 2 ^ (- e3)).
    { subst m3. split; [apply Z.div_pos; lia |].
      apply Z.div_le_upper_bound; [exact Hpow3 |].
      rewrite Hsplit3 in Hp2. lia. }
    destruct m3 as [|q3|q3]; [now left | | lia].
    replace (e3 <=? emax - prec) with true.
    + right. exists q3, e3. split; [reflexivity | split; lia].
    + symmetry. apply Z.leb_le. unfold emax, prec. lia.
Qed.

(** The rounding to an integer of a value of at most [k] is at most [k]. *)
Lemma round_half_even_le (num e k : Z) :
  0 <= num -> e <= 0 -> num <= k * 2 ^ (- e) ->
  Py.round_half_even num e <= k.
Proof.
  intros Hn He Hk. unfold Py.round_half_even.
  destruct (Z.leb_spec 0 e) as [He0 | He0].
  - replace e with 0 in * by lia. simpl in *. lia.
  - assert (Hd : 0 < 2 ^ (- e)) by (apply Z.pow_pos_nonneg; lia).
    pose proof (Z.div_mod num (2 ^ (- e)) ltac:(lia)) as Hdm.
    pose proof (Z.mod_pos_bound num (2 ^ (- e)) Hd) as Hmod.
    set (d := 2 ^ (- e)) in *.
    set (q := num / d) in *. set (r := num mod d) in *.
    cbv zeta.
    destruct (Z.compare_spec (2 * r) d) as [Heq | Hlt | Hgt];
      [destruct (Z.even q) |..]; nia.
Qed.

(** A number of at most 53 bits at an exponent of the format is kept. *)
Lemma binary_round_exact (s : bool) (p : positive) (e : Z) :
  Zpos (digits2_pos p) <= 53 -> -1074 <= e <= 971 ->
  exists m' e',
    binary_round prec emax s p e = S754_finite s m' e'
    /\ Zpos (digits2_pos m') + e' = Zpos (digits2_pos p) + e
    /\ e' <= e
    /\ Zpos m' = Zpos p * 2 ^ (e - e').
Proof.
  intros Hd He. unfold binary_round, shl_align. rewrite fexp64_eq.
  destruct (Z.max (Zpos (digits2_pos p) + e - 53) (-1074) - e) as [|k|k] eqn:Ek.
  - assert (Hc : fexp64 (Zpos (digits2_pos p) + e) = e)
      by (rewrite fexp64_eq; lia).
    exists p, e. rewrite binary_round_aux_canonical by (assumption || lia).
    split; [reflexivity |]. split; [lia |]. split; [lia |].
    rewrite Z.sub_diag. simpl. lia.
  - lia.
  - set (f := Z.max (Zpos (digits2_pos p) + e - 53) (-1074)) in *.
    assert (Hc : fexp64 (Zpos (digits2_pos (Pos.iter xO p k)) + f) = f).
    { rewrite digits2_iter_xO, fexp64_eq. lia. }
    exists (Pos.iter xO p k), f.
    rewrite binary_round_aux_canonical by (assumption || lia).
    split; [reflexivity |]. split; [rewrite digits2_iter_xO; lia |].
    split; [lia |].
    rewrite iter_xO_value. f_equal. f_equal. lia.
Qed.

(** The difference of a float and its integer part is exact. *)
Lemma SFsub_integer_part_value (s : bool) (m mg pz : positive) (e eg : Z) :
  valid_binary (S754_finite s m e) = true ->
  valid_binary (S754_finite s mg eg) = true ->
  e < 0 -> eg <= 0 ->
  Zpos m / 2 ^ (- e) = Zpos pz ->
  Zpos mg = Zpos pz * 2 ^ (- eg) ->
  let r := Zpos m mod 2 ^ (- e) in
  (SF64sub (S754_finite s m e) (S754_finite s mg eg) = S754_zero false
   /\ r = 0)
  \/ exists md ed,
       SF64sub (S754_finite s m e) (S754_finite s mg eg) = S754_finite s md ed
       /\ Zpos (digits2_pos md) + ed <= 0
       /\ ed <= e
       /\ Zpos md = r * 2 ^ (e - ed).
Proof.
  intros Hv Hvg He Heg Hpz Hmg r.
  pose proof (valid_digits _ _ _ Hv) as [Hdm Hem].
  pose proof (valid_digits _ _ _ Hvg) as [Hdmg Hemg].
  pose proof (valid_exponent _ _ _ Hv) as Hlow.
  pose proof (valid_exponent _ _ _ Hvg) as Hlowg.
  unfold SpecFloat.emin, emax, prec in Hlow, Hlowg.
  assert (Hd : 0 < 2 ^ (- e)) by (apply Z.pow_pos_nonneg; lia).
  pose proof (Z.div_mod (Zpos m) (2 ^ (- e)) ltac:(lia)) as Hdiv.
  pose proof (Z.mod_pos_bound (Zpos m) (2 ^ (- e)) Hd) as Hmod.
  rewrite Hpz in Hdiv. fold r in Hdiv, Hmod.
  unfold SF64sub, SFsub. cbv zeta.
  set (ez := Z.min e eg).
  pose proof (shl_align_value m e ez ltac:(lia)) as Ha.
  pose proof (shl_align_value mg eg ez ltac:(lia)) as Hc.
  set (a := fst (shl_align m e ez)) in *.
  set (c := fst (shl_align mg eg ez)) in *.
  assert (Hpe : 0 < 2 ^ (e - ez)) by (apply Z.pow_pos_nonneg; lia).
  assert (Hsplit : 2 ^ (- ez) = 2 ^ (- e) * 2 ^ (e - ez)).
  { rewrite <- pow2_split by lia. f_equal. lia. }
  assert (Hc' : Zpos c = Zpos pz * 2 ^ (- ez)).
  { rewrite Hc, Hmg, <- Z.mul_assoc, <- pow2_split by lia.
    f_equal. f_equal. lia. }
  assert (Hdiff : Zpos a - Zpos c = r * 2 ^ (e - ez)).
  { rewrite Hc', Ha, Hsplit. nia. }
  assert (Hhi : Zpos a - Zpos c < 2 ^ (- ez)) by (rewrite Hdiff, Hsplit; nia).
  assert (Hegl : - eg < 53).
  { pose proof (digits2_upper mg) as Hup.
    assert (Hpg : 0 < 2 ^ (- eg)) by (apply Z.pow_pos_nonneg; lia).
    assert (H53 : 2 ^ Zpos (digits2_pos mg) <= 2 ^ 53)
      by (apply Z.pow_le_mono_r; lia).
    apply (Z.pow_lt_mono_r_iff 2); [lia | lia | nia]. }
  assert (Hexact : forall p : positive,
             Zpos p = Zpos a - Zpos c ->
             exists md ed,
               binary_round prec emax s p ez = S754_finite s md ed
               /\ Zpos (digits2_pos md) + ed <= 0
               /\ ed <= e
               /\ Zpos md = r * 2 ^ (e - ed)).
  { intros p Hp.
    assert (Hlt : Zpos p < 2 ^ (- ez)) by lia.
    pose proof (digits2_le p (- ez) Hlt ltac:(lia)) as Hdp.
    assert (Hdp53 : Zpos (digits2_pos p) <= 53).
    { destruct (Z.le_gt_cases e eg).
      - assert (Hle : (p <= m)%positive).
        { replace ez with e in Ha by lia.
          replace (e - e) with 0 in Ha by lia. simpl in Ha. lia. }
        apply digits2_mono in Hle. lia.
      - lia. }
    destruct (binary_round_exact s p ez Hdp53 ltac:(lia))
      as [md [ed [Hr [Hde [Hle Hval]]]]].
    exists md, ed. split; [exact Hr |]. split; [lia |]. split; [lia |].
    rewrite Hval, Hp, Hdiff, <- Z.mul_assoc, <- pow2_split by lia.
    f_equal. f_equal. lia. }
  unfold binary_normalize.
  destruct (cond_Zopp s (Zpos a) - cond_Zopp s (Zpos c)) as [|p|p] eqn:Ed.
  - left. split; [reflexivity |].
    assert (Zpos a - Zpos c = 0) by (destruct s; simpl in Ed; lia).
    nia.
  - right. destruct s; simpl in Ed; [nia |].
    apply Hexact. lia.
  - right. destruct s; simpl in Ed; [| nia].
    apply Hexact. lia.
Qed.

(** The difference of a float and its integer part is a fraction. *)
Lemma SFsub_integer_part (s : bool) (m mg pz : positive) (e eg : Z) :
  valid_binary (S754_finite s m e) = true ->
  valid_binary (S754_finite s mg eg) = true ->
  e < 0 -> eg <= 0 ->
  Zpos m / 2 ^ (- e) = Zpos pz ->
  Zpos mg = Zpos pz * 2 ^ (- eg) ->
  fraction s (SF64sub (S754_finite s m e) (S754_finite s mg eg)).
Proof.
  intros Hv Hvg He Heg Hpz Hmg.
  destruct (SFsub_integer_part_value s m mg pz e eg Hv Hvg He Heg Hpz Hmg)
    as [[-> _] | [md [ed [-> [Hd _]]]]].
  - left. now exists false.
  - right. now exists md, ed.
Qed.

(** A hundred times a fraction, rounded to an integer, is at most a
    hundred in magnitude and has the sign of the fraction. *)
Lemma round_100_fraction (d : float) (s : bool) (r : Z) :
  fraction s (Prim2SF d) ->
  Py.round (Py.PyFloat (d * 100)) = Ok r ->
  if s then -100 <= r <= 0 else 0 <= r <= 100.
Proof.
  intros Hf. unfold Py.round. rewrite mul_spec, Prim2SF_100.
  destruct Hf as [[s' Hs] | [m [e [Hs Hd]]]]; rewrite Hs.
  - simpl. intros H. inversion H. destruct s; lia.
  - unfold SF64mul, SFmul.
    replace (xorb s false) with s by (destruct s; reflexivity).
    pose proof (digits2_upper m) as Hup.
    assert (Hm : Zpos m < 2 ^ (- e)).
    { assert (2 ^ Zpos (digits2_pos m) <= 2 ^ (- e))
        by (apply Z.pow_le_mono_r; lia).
      lia. }
    assert (Hp : Zpos (m * 7036874417766400) < 100 * 2 ^ (- (e + -46))).
    { replace (- (e + -46)) with (- e + 46) by lia.
      rewrite pow2_split by lia. rewrite Pos2Z.inj_mul.
      change (2 ^ 46) with 70368744177664. lia. }
    destruct (binary_round_aux_below_100 s (m * 7036874417766400) (e + -46)
                loc_Exact ltac:(lia) Hp) as [-> | [m2 [e2 [-> [He2 Hm2]]]]];
      intros H; inversion H.
    + destruct s; lia.
    + pose proof (round_half_even_nonneg (Zpos m2) e2 ltac:(lia)).
      pose proof (round_half_even_le (Zpos m2) e2 100 ltac:(lia) He2 Hm2).
      destruct s; simpl; lia.
Qed.

(** The cents of a finite float. *)
Lemma centimes_bounds (f : float) (s : bool) (m : positive) (e : Z)
  (entier centimes : Z) :
  Prim2SF f = S754_finite s m e ->
  Py.int (Py.PyFloat f) = Ok entier ->
  centimes_of (Py.PyFloat f) entier = Ok centimes ->
  if s then -100 <= centimes <= 0 else 0 <= centimes <= 100.
Proof.
  intros Ef. unfold Py.int. rewrite Ef. intros H. inversion H; subst entier.
  clear H.
  pose proof (Prim2SF_valid f) as Hv. rewrite Ef in Hv.
  pose proof (valid_digits _ _ _ Hv) as [Hdm Hem].
  destruct (Z.le_gt_cases 0 e) as [He | He].
  - rewrite (centimes_of_round f f _ (to_float_of_integer f s m e Ef He)).
    apply round_100_fraction.
    left. exists false. now rewrite sub_spec, Ef, SFsub_self.
  - unfold Py.truncate.
    replace (0 <=? e) with false by (symmetry; apply Z.leb_gt; lia).
    assert (Hd : 0 < 2 ^ (- e)) by (apply Z.pow_pos_nonneg; lia).
    pose proof (Z.div_pos (Zpos m) (2 ^ (- e)) ltac:(lia) Hd) as Hz.
    destruct (Zpos m / 2 ^ (- e)) as [|pz|pz] eqn:Ez; [| | lia].
    + replace (Py.signed s 0) with 0 by (destruct s; reflexivity).
      rewrite (centimes_of_round f 0 0 to_float_0).
      apply round_100_fraction.
      right. exists m, e. split; [now rewrite sub_spec, Ef |].
      apply Z.div_small_iff in Ez; [| lia].
      pose proof (digits2_le m (- e) ltac:(lia) ltac:(lia)). lia.
    + assert (Hle : (pz <= m)%positive).
      { assert (Zpos m / 2 ^ (- e) <= Zpos m)
          by (apply Z.div_le_upper_bound; nia).
        lia. }
      pose proof (digits2_mono _ _ Hle) as Hdz.
      destruct (binary_round_small_integer_value s pz ltac:(lia))
        as [mg [eg [Hr [Hvg [Hdg [Heg Hval]]]]]].
      rewrite (centimes_of_round f (SF2Prim (S754_finite s mg eg)) _
                 (to_float_signed s pz mg eg Hr)).
      apply round_100_fraction.
      rewrite sub_spec, Ef, (Prim2SF_SF2Prim _ Hvg).
      now apply (SFsub_integer_part s m mg pz e eg).
Qed.

(** The float of the integer part, and the exact difference. *)
Lemma sub_integer_part (f : float) (entier : Z) :
  Py.int (Py.PyFloat f) = Ok entier ->
  exists g, Py.to_float (Py.PyInt entier) = Ok g /\ fractional_part f (f - g).
Proof.
  unfold Py.int, fractional_part.
  destruct (Prim2SF f) as [s | s | | s m e] eqn:Ef;
    intros H; inversion H; subst entier; clear H.
  - exists 0%float. split; [exact to_float_0 |].
    destruct s; eexists; rewrite sub_spec, Ef; reflexivity.
  - pose proof (Prim2SF_valid f) as Hv. rewrite Ef in Hv.
    pose proof (valid_digits _ _ _ Hv) as [Hdm Hem].
    destruct (Z.leb_spec 0 e) as [He | He].
    + exists f. split; [exact (to_float_of_integer f s m e Ef He) |].
      exists false. now rewrite sub_spec, Ef, SFsub_self.
    + unfold Py.truncate.
      replace (0 <=? e) with false by (symmetry; apply Z.leb_gt; lia).
      assert (Hd : 0 < 2 ^ (- e)) by (apply Z.pow_pos_nonneg; lia).
      pose proof (Z.div_pos (Zpos m) (2 ^ (- e)) ltac:(lia) Hd) as Hz.
      cbv zeta.
      destruct (Zpos m / 2 ^ (- e)) as [|pz|pz] eqn:Ez; [| | lia].
      * replace (Py.signed s 0) with 0 by (destruct s; reflexivity).
        exists 0%float. split; [exact to_float_0 |].
        rewrite sub_spec, Ef. cbn [SF64sub SFsub Prim2SF].
        change (Prim2SF 0) with (S754_zero false). cbn [SF64sub SFsub].
        split; [reflexivity |]. split; [lia |].
        rewrite Z.sub_diag. apply Z.div_small_iff in Ez; [| lia].
        rewrite Z.mod_small by lia. simpl. lia.
      * assert (Hle : (pz <= m)%positive).
        { assert (Zpos m / 2 ^ (- e) <= Zpos m)
            by (apply Z.div_le_upper_bound; nia).
          lia. }
        pose proof (digits2_mono _ _ Hle) as Hdz.
        destruct (binary_round_small_integer_value s pz ltac:(lia))
          as [mg [eg [Hr [Hvg [Hdg [Heg Hval]]]]]].
        exists (SF2Prim (S754_finite s mg eg)).
        split; [exact (to_float_signed s pz mg eg Hr) |].
        rewrite sub_spec, Ef, (Prim2SF_SF2Prim _ Hvg).
        destruct (SFsub_integer_part_value s m mg pz e eg Hv Hvg He Heg Ez Hval)
          as [[-> Hr0] | [md [ed [-> [_ [Hed Hmd]]]]]].
        -- exact Hr0.
        -- split; [reflexivity |]. split; [exact Hed | exact Hmd].
Qed.

(** [round] gives an integer nearest to its argument, the even one on a
    tie. *)
Lemma round_nearest_integer (p : float) (c : Z) :
  Py.round (Py.PyFloat p) = Ok c -> nearest_integer p c.
Proof.
  unfold Py.round, nearest_integer.
  destruct (Prim2SF p) as [s | s | | s m e]; intros H; inversion H.
  - reflexivity.
  - exists (Py.round_half_even (Zpos m) e).
    split; [destruct s; reflexivity |].
    split; [apply round_half_even_nonneg; lia |].
    destruct (Z.leb_spec 0 e) as [He | He].
    + unfold Py.round_half_even.
      now replace (0 <=? e) with true by (symmetry; apply Z.leb_le; lia).
    + split; [now apply round_half_even_nearest |].
      now apply round_half_even_tie.
Qed.

(** The cents the code computes are the cents of the specification. *)
Lemma centimes_of_spec (n : Py.number) (entier centimes : Z) :
  Py.int n = Ok entier ->
  centimes_of n entier = Ok centimes ->
  spec_centimes n centimes.
Proof.
  destruct n as [z | f]; intros Hint Hc.
  - simpl in Hint. inversion Hint; subst entier.
    unfold centimes_of in Hc. simpl in Hc. rewrite Z.sub_diag in Hc.
    simpl in Hc. now inversion Hc.
  - destruct (sub_integer_part f entier Hint) as [g [Hg Hfrac]].
    rewrite (centimes_of_round f g entier Hg) in Hc.
    exists (f - g)%float. split; [exact Hfrac |].
    now apply round_nearest_integer.
Qed.

(** The cents of an amount that is not negative. *)
Lemma centimes_of_nonneg (n : Py.number) (entier centimes : Z) :
  nonneg n = true ->
  Py.int n = Ok entier ->
  centimes_of n entier = Ok centimes ->
  0 <= centimes <= 100.
Proof.
  destruct n as [z | f]; intros Hn Hint Hc.
  - simpl in Hint. inversion Hint; subst entier.
    unfold centimes_of in Hc. simpl in Hc. rewrite Z.sub_diag in Hc.
    simpl in Hc. inversion Hc. lia.
  - simpl in Hn. rewrite leb_spec in Hn.
    change (Prim2SF 0) with (S754_zero false) in Hn.
    destruct (Prim2SF f) as [s | s | | s m e] eqn:Ef.
    + unfold Py.int in Hint. rewrite Ef in Hint. inversion Hint; subst entier.
      rewrite (centimes_of_round f 0 0 to_float_0) in Hc.
      unfold Py.round in Hc.
      rewrite mul_spec, sub_spec, Ef, Prim2SF_100 in Hc.
      change (Prim2SF 0) with (S754_zero false) in Hc.
      destruct s; simpl in Hc; inversion Hc; lia.
    + unfold Py.int in Hint. rewrite Ef in Hint. discriminate Hint.
    + discriminate Hn.
    + destruct s; [discriminate Hn |].
      exact (centimes_bounds f false m e entier centimes Ef Hint Hc).
Qed.

(** X13. On every finite float amount the cents are computed without
    raising and lie between minus a hundred and a hundred; they are not
    negative for an amount that is not negative, and not positive for one
    that is not positive. The bounds are reached: the cents of an amount
    just below the next integer round to a hundred. *)
Theorem centimes_range (f : float) (entier : Z) :
  Py.int (Py.PyFloat f) = Ok entier ->
  exists centimes,
    centimes_of (Py.PyFloat f) entier = Ok centimes
    /\ -100 <= centimes <= 100
    /\ ((0 <=? f)%float = true -> 0 <= centimes)
    /\ ((f <=? 0)%float = true -> centimes <= 0).
Proof.
  intros Hint.
  destruct (centimes_of_total f entier Hint) as [centimes Hc].
  exists centimes. split; [exact Hc |].
  destruct (Prim2SF f) as [s | s | | s m e] eqn:Ef.
  - assert (centimes = 0).
    { unfold Py.int in Hint. rewrite Ef in Hint. inversion Hint; subst entier.
      rewrite (centimes_of_round f 0 0 to_float_0) in Hc.
      unfold Py.round in Hc. rewrite mul_spec, sub_spec, Ef in Hc.
      destruct s; simpl in Hc; now inversion Hc. }
    lia.
  - unfold Py.int in Hint. rewrite Ef in Hint. discriminate Hint.
  - unfold Py.int in Hint. rewrite Ef in Hint. discriminate Hint.
  - pose proof (centimes_bounds f s m e entier centimes Ef Hint Hc) as Hb.
    rewrite !leb_spec, Ef. change (Prim2SF 0) with (S754_zero false).
    destruct s; simpl; (split; [lia |]); split; intros H;
      try discriminate H; lia.
Qed.

Local Close Scope Z_scope.

(** ** The handler *)

Section ServiceProperties.

Variable summation : Py.summation.
Variable num2words : Z -> exc string.
Variable float_of_str : string -> exc float.
Variable repr_float : float -> string.
Variable Template : Type.
Variable get_template : string -> exc Template.
Variable render : Template -> Context -> exc string.
Variable write_pdf : string -> string -> exc (list Byte.byte).
Variable init_headers : gmap string string -> exc unit.
Variable now : string.

Local Abbreviation words_body := (french_words_body num2words).
Local Abbreviation to_words := (number_to_french_words num2words repr_float).
Local Abbreviation str := (str_number repr_float).
Local Abbreviation context_of :=
  (make_context summation num2words float_of_str repr_float now).
Local Abbreviation totals_of := (resolve_totals summation).
Local Abbreviation template_of := (select_template Template get_template).
Local Abbreviation handle :=
  (generate_pdf summation num2words float_of_str repr_float Template
     get_template render write_pdf init_headers now).
Local Abbreviation stage_failure :=
  (stage_raises summation num2words float_of_str repr_float Template
     get_template render write_pdf init_headers now).
Local Abbreviation post :=
  (post_generate_pdf summation num2words float_of_str repr_float Template
     get_template render write_pdf init_headers now).

(** Every call of [render] made by the handler is on the context of lines
    188-199. *)
Lemma render_context (request : GeneratePdfRequest) (ctx : Context) :
  In (Render ctx) (fst (handle request)) -> ctx = context_of request.
Proof.
  unfold generate_pdf, generate_pdf_body, select_template, io_try, io_call,
    io_lift, io_bind, io_ret.
  destruct (get_template (type request ++ ".html")) as [tpl | e0];
    [| destruct (get_template "bon-livraison.html") as [tpl | e1]];
    try destruct (render tpl _) as [html | e2];
    try destruct (write_pdf html a4_css) as [pdf | e3];
    try destruct (init_headers (response_headers request)) as [[] | e4];
    simpl; intros H;
    repeat (destruct H as [H | H]; [try discriminate H; try (now inversion H) |]);
    try contradiction.
Qed.

(** C7. A body whose [type] is not one of the nine values of the
    enumeration is rejected by the request model: the answer is a
    validation error, and no template is looked up and nothing is
    rendered (the trace of calls is empty). *)
Theorem unknown_type_rejected (body : GeneratePdfRequest) :
  ~ In (type body) type_literal ->
  post body = ([], RequestValidationError ["body"; "type"]).
Proof.
  intros Hnot. unfold post_generate_pdf.
  destruct (valid_type (type body)) eqn:Hv; [| reflexivity].
  apply valid_type_In in Hv. contradiction.
Qed.

(** C3. With supplied totals the computation is skipped: the context handed
    to the template holds exactly the supplied [Totals], whatever the
    product list is. *)
Theorem supplied_totals_verbatim (request : GeneratePdfRequest) (t : Totals) :
  totals request = Some t ->
  totals_of request = Some t
  /\ ctx_totals (context_of request) = Some t
  /\ (forall ctx, In (Render ctx) (fst (handle request)) ->
                  ctx_totals ctx = Some t).
Proof.
  intros Ht.
  assert (Hres : totals_of request = Some t).
  { unfold resolve_totals. rewrite Ht. reflexivity. }
  split; [exact Hres |]. split; [exact Hres |].
  intros ctx Hin. apply render_context in Hin. subst ctx. exact Hres.
Qed.

Lemma words_of_int_zero :
  to_words (Py.PyInt 0) =
    match num2words 0 with
    | Ok w => w ++ " dinars"
    | Raise _ => "0"
    end.
Proof.
  unfold number_to_french_words, french_words_body. simpl.
  destruct (num2words 0) as [w | e]; simpl; [| reflexivity].
  apply append_assoc.
Qed.

(** C10. With supplied totals whose [totalTTC] is not a number, the words
    are those of the int [0]: the words of zero followed by " dinars"
    (or "0" should the words library fail on zero), not the supplied
    string. *)
Theorem unparseable_total_words_of_zero
  (request : GeneratePdfRequest) (t : Totals) (e : exn) :
  totals request = Some t ->
  float_of_str (totalTTC t) = Raise e ->
  ctx_total_ttc_words (context_of request) = to_words (Py.PyInt 0)
  /\ to_words (Py.PyInt 0) =
       match num2words 0 with
       | Ok w => w ++ " dinars"
       | Raise _ => "0"
       end.
Proof.
  intros Ht Hf. split; [| apply words_of_int_zero].
  unfold make_context. simpl.
  unfold resolve_totals. rewrite Ht. simpl.
  unfold total_ttc_value. now rewrite Hf.
Qed.

(** When the template is found, the two renderers succeed and the headers
    can be encoded, the handler returns the document, whatever the words
    library does. *)
Lemma handler_returns (request : GeneratePdfRequest)
  (template : Template) (html_content : string) (pdf_bytes : list Byte.byte) :
  snd (template_of request) = Ok template ->
  render template (context_of request) = Ok html_content ->
  write_pdf html_content a4_css = Ok pdf_bytes ->
  init_headers (response_headers request) = Ok tt ->
  exists r, snd (handle request) = Returned r /\ content r = pdf_bytes.
Proof.
  intros Ht Hr Hw Hh.
  unfold generate_pdf, generate_pdf_body, io_bind, io_call, io_lift, io_ret.
  destruct (template_of request) as [t0 r0]. simpl in Ht. subst r0.
  rewrite Hr, Hw, Hh. eexists. split; reflexivity.
Qed.

(** C5. When the conversion raises, [number_to_french_words] returns
    [str(n)] and does not raise itself; in the handler the words of the
    context are then [str] of the after-tax value, and the request still
    succeeds when the template engine, the page renderer and the building
    of the response do. *)
Theorem words_failure_falls_back (n : Py.number) (e : exn) :
  words_body n = Raise e ->
  to_words n = str n
  /\ (forall request t,
        totals_of request = Some t ->
        total_ttc_value float_of_str t = n ->
        ctx_total_ttc_words (context_of request) = str n
        /\ (forall template html_content pdf_bytes,
              snd (template_of request) = Ok template ->
              render template (context_of request) = Ok html_content ->
              write_pdf html_content a4_css = Ok pdf_bytes ->
              init_headers (response_headers request) = Ok tt ->
              exists r, snd (handle request) = Returned r
                        /\ content r = pdf_bytes)).
Proof.
  intros H.
  assert (Hw : to_words n = str n).
  { unfold number_to_french_words. now rewrite H. }
  split; [exact Hw |].
  intros request t Hres Hval. split.
  - unfold make_context. simpl. rewrite Hres. simpl. now rewrite Hval.
  - intros template html_content pdf_bytes. apply handler_returns.
Qed.

(** C2 (as the code has it). With an empty product list and no supplied
    totals nothing is computed: the context holds no [Totals] at all, and
    the words are the literal "zéro". *)
Theorem empty_products_no_totals (request : GeneratePdfRequest) :
  products request = [] ->
  totals request = None ->
  totals_of request = None
  /\ ctx_totals (context_of request) = None
  /\ ctx_total_ttc_words (context_of request) = "zéro".
Proof.
  intros Hp Ht.
  assert (Hres : totals_of request = None).
  { unfold resolve_totals. rewrite Hp, Ht. reflexivity. }
  split; [exact Hres |]. split; [exact Hres |].
  unfold make_context. simpl. now rewrite Hres.
Qed.

(** The cents are computed without raising whenever the integer part
    is. *)
Lemma centimes_of_number (n : Py.number) (entier : Z) :
  Py.int n = Ok entier ->
  exists centimes, centimes_of n entier = Ok centimes.
Proof.
  destruct n as [z | f]; [| apply centimes_of_total].
  intros H. inversion H; subst entier. exists 0%Z.
  unfold centimes_of. simpl. now rewrite Z.sub_diag.
Qed.

(** The conversion raises only where [int] does (an infinity or a NaN) or
    where the words library does. *)
Lemma words_body_raises (n : Py.number) (e : exn) :
  words_body n = Raise e ->
  Py.int n = Raise e
  \/ exists entier,
       Py.int n = Ok entier
       /\ (num2words entier = Raise e
           \/ exists centimes,
                centimes_of n entier = Ok centimes
                /\ (0 < centimes)%Z /\ num2words centimes = Raise e).
Proof.
  unfold french_words_body.
  destruct (Py.int n) as [entier | e0] eqn:Hint; simpl exc_bind;
    [| intros H; inversion H; now left].
  destruct (centimes_of_number n entier Hint) as [centimes Hc].
  rewrite Hc. simpl exc_bind. intros H.
  right. exists entier. split; [reflexivity |].
  destruct (num2words entier) as [w | e1]; simpl exc_bind in H;
    [| inversion H; now left].
  right. exists centimes. split; [exact Hc |].
  cbv zeta in H. rewrite Z.gtb_ltb in H.
  destruct (0 <? centimes)%Z eqn:Hpos; [| discriminate H].
  apply Z.ltb_lt in Hpos. split; [exact Hpos |].
  destruct (num2words centimes) as [wc | e2]; simpl exc_bind in H;
    [discriminate H | now inversion H].
Qed.

(** C4. For a non-negative amount whose integer part [entier] has the words
    [w], the cents [centimes] are computed without raising and are the
    fractional part of the amount times a hundred, rounded to the nearest
    integer (the fractional part is exact, the product is the float
    product, a tie goes to the even integer), between 0 and 100; "dinar"
    takes its "s" exactly when [entier] is not 1, and the clause
    " et <words> centime[s]" is appended exactly when [centimes] is
    positive, "centime" taking its "s" unless [centimes] is 1. *)
Theorem dinar_centime_plurals (n : Py.number) (entier : Z) (w : string) :
  nonneg n = true ->
  Py.int n = Ok entier ->
  num2words entier = Ok w ->
  exists centimes,
    centimes_of n entier = Ok centimes
    /\ spec_centimes n centimes
    /\ (0 <= centimes <= 100)%Z
    /\ to_words n =
         let dinars := w ++ " dinar" ++ (if (entier =? 1)%Z then "" else "s") in
         if (0 <? centimes)%Z then
           match num2words centimes with
           | Ok wc =>
               dinars ++ " et " ++ wc ++ " centime"
               ++ (if (centimes =? 1)%Z then "" else "s")
           | Raise _ => str n
           end
         else dinars.
Proof.
  intros Hn Hint Hw.
  pose proof (int_nonneg n entier Hn Hint) as Hpos.
  destruct (centimes_of_number n entier Hint) as [centimes Hc].
  exists centimes. split; [exact Hc |].
  split; [exact (centimes_of_spec n entier centimes Hint Hc) |].
  split; [exact (centimes_of_nonneg n entier centimes Hn Hint Hc) |].
  unfold number_to_french_words, french_words_body.
  rewrite Hint. simpl exc_bind. rewrite Hc. simpl exc_bind.
  rewrite Hw. simpl exc_bind.
  assert (Hd : (if (entier >? 1)%Z || (entier =? 0)%Z
                then (w ++ " dinar") ++ "s" else w ++ " dinar")
               = w ++ " dinar" ++ (if (entier =? 1)%Z then "" else "s")).
  { destruct (Z.eqb_spec entier 1) as [-> | Hne].
    - simpl. reflexivity.
    - replace ((entier >? 1)%Z || (entier =? 0)%Z) with true.
      + apply append_assoc.
      + symmetry. apply orb_true_iff.
        destruct (Z.eqb_spec entier 0); [now right | left].
        rewrite Z.gtb_ltb. apply Z.ltb_lt. lia. }
  rewrite Hd. clear Hd. cbv zeta.
  rewrite Z.gtb_ltb.
  destruct (0 <? centimes)%Z eqn:Hcpos; [| reflexivity].
  apply Z.ltb_lt in Hcpos.
  destruct (num2words centimes) as [wc | e]; simpl exc_bind; [| reflexivity].
  rewrite Z.gtb_ltb.
  destruct (Z.eqb_spec centimes 1) as [-> | Hne].
  - simpl. rewrite !append_assoc. reflexivity.
  - replace (1 <? centimes)%Z with true by (symmetry; apply Z.ltb_lt; lia).
    rewrite !append_assoc. reflexivity.
Qed.

(** C8. When a stage of the handler raises (template selection, markup
    rendering, page rendering, the building of the response), the answer is
    the one [HTTPException] with status 500 whose detail embeds the text of
    the failure; and a response, when one is returned, carries the complete
    output of the page renderer. *)
Theorem failure_is_internal_error (request : GeneratePdfRequest) :
  (forall e, stage_failure request e ->
             snd (handle request) =
               HTTPException 500 ("Error generating PDF: " ++ str_exn e))
  /\ (forall r, snd (handle request) = Returned r ->
                exists template html_content,
                  snd (template_of request) = Ok template
                  /\ render template (context_of request) = Ok html_content
                  /\ write_pdf html_content a4_css = Ok (content r)).
Proof.
  split.
  - intros e Hstage.
    unfold generate_pdf, generate_pdf_body, io_bind, io_call, io_lift, io_ret.
    destruct Hstage as [e0 H0 H1 | tpl Htpl Hr | tpl html Htpl Hr Hw
                       | tpl html pdf Htpl Hr Hw Hh].
    + unfold select_template, io_try, io_call. rewrite H0, H1. reflexivity.
    + destruct (template_of request) as [t0 r0]. simpl in Htpl. subst r0.
      rewrite Hr. reflexivity.
    + destruct (template_of request) as [t0 r0]. simpl in Htpl. subst r0.
      rewrite Hr, Hw. reflexivity.
    + destruct (template_of request) as [t0 r0]. simpl in Htpl. subst r0.
      rewrite Hr, Hw, Hh. reflexivity.
  - intros r.
    unfold generate_pdf, generate_pdf_body, io_bind, io_call, io_lift, io_ret.
    destruct (template_of request) as [t0 [tpl | e0]]; [| discriminate].
    destruct (render tpl (context_of request)) as [html | e1] eqn:Hr;
      [| discriminate].
    destruct (write_pdf html a4_css) as [pdf | e2] eqn:Hw; [| discriminate].
    destruct (init_headers (response_headers request)) as [[] | e3];
      [| discriminate].
    simpl. intros H. inversion H; subst r. simpl.
    exists tpl, html. repeat split; assumption.
Qed.

End ServiceProperties.


(** ** Totals *)

(** C1 (as the code has it). Without supplied totals and with at least one
    line, [totalHT] is the formatted sum over the lines of quantity times
    unit price (zero when absent), [totalTVA] the formatted sum of quantity
    times unit price times tax rate (zero when absent) over one hundred, and
    [totalTTC] the formatted sum of the two; each amount that is finite is
    printed with a point and exactly two decimals. *)
Theorem computed_totals_sums (alg : Py.summation)
  (request : GeneratePdfRequest) :
  totals request = None ->
  products request <> [] ->
  let total_ht := spec_total_ht alg (products request) in
  let total_tva := spec_total_tva alg (products request) in
  let total_ttc := (total_ht + total_tva)%float in
  resolve_totals alg request =
    Some {| totalHT := Py.format_2f total_ht;
            totalTVA := Py.format_2f total_tva;
            totalTTC := Py.format_2f total_ttc |}
  /\ (isfinite total_ht = true -> fixed_2dp (Py.format_2f total_ht) = true)
  /\ (isfinite total_tva = true -> fixed_2dp (Py.format_2f total_tva) = true)
  /\ (isfinite total_ttc = true -> fixed_2dp (Py.format_2f total_ttc) = true).
Proof.
  intros Ht Hp total_ht total_tva total_ttc.
  split; [| repeat split; apply format_2f_fixed].
  rewrite (resolve_totals_computed alg request Ht Hp).
  unfold compute_totals, total_ttc, total_ht, total_tva.
  now rewrite total_ht_spec, total_tva_spec.
Qed.

(** C9. One line with quantity 10, unit price 100.50 and tax rate 19, and no
    supplied totals: the totals are "1005.00", "190.95" and "1195.95". *)
Theorem single_line_scenario (alg : Py.summation)
  (request : GeneratePdfRequest) (p : Product) :
  products request = [p] ->
  totals request = None ->
  quantite p = 10%float ->
  prixUnitaire p = Some 100.5%float ->
  tauxTVA p = Some 19%float ->
  resolve_totals alg request =
    Some {| totalHT := "1005.00"; totalTVA := "190.95"; totalTTC := "1195.95" |}.
Proof.
  intros Hps Ht Hq Hpu Htva.
  rewrite resolve_totals_computed; [| exact Ht | rewrite Hps; discriminate].
  rewrite Hps. unfold compute_totals. simpl map.
  rewrite Hq, Hpu, Htva. destruct alg; vm_compute; reflexivity.
Qed.

(** ** Runs on the sample environment *)

Lemma unknown_type_rejected_witness :
  Sample.post (Sample.request "devis" [] None) =
    ([], RequestValidationError ["body"; "type"]).
Proof.
  unfold Sample.post. apply unknown_type_rejected. exact devis_not_a_type.
Defined.

Lemma supplied_totals_verbatim_witness :
  let t := {| totalHT := "1.00"; totalTVA := "0.50"; totalTTC := "1.50" |} in
  let request :=
    Sample.request "facture"
      [Sample.line 10 (Some 100.5%float) (Some 19%float)] (Some t) in
  Sample.totals_of request = Some t
  /\ ctx_totals (Sample.context_of request) = Some t
  /\ (forall ctx, In (Render ctx) (fst (Sample.handle request)) ->
                  ctx_totals ctx = Some t).
Proof.
  intros t request. unfold Sample.totals_of, Sample.context_of, Sample.handle.
  apply supplied_totals_verbatim. reflexivity.
Defined.

Lemma unparseable_total_words_of_zero_witness :
  let t := {| totalHT := "n/a"; totalTVA := "n/a"; totalTTC := "abc" |} in
  let request := Sample.request "facture" [] (Some t) in
  Sample.float_of_str "abc" =
    Raise (Exception "could not convert string to float: 'abc'")
  /\ ctx_total_ttc_words (Sample.context_of request) = "zéro dinars".
Proof.
  intros t request.
  assert (Hf : Sample.float_of_str (totalTTC t) =
               Raise (Exception "could not convert string to float: 'abc'"))
    by reflexivity.
  split; [exact Hf |].
  destruct (unparseable_total_words_of_zero Sample.summation
              Sample.num2words Sample.float_of_str Sample.repr_float
              Sample.now request t _ eq_refl Hf) as [Hctx Hwords].
  unfold Sample.context_of. rewrite Hctx, Hwords. reflexivity.
Defined.

Lemma words_failure_falls_back_witness :
  let t := {| totalHT := "inf"; totalTVA := "0.00"; totalTTC := "inf" |} in
  let request := Sample.request "facture" [] (Some t) in
  french_words_body Sample.num2words (Py.PyFloat infinity) =
    Raise (Exception "cannot convert float infinity to integer")
  /\ Sample.to_words (Py.PyFloat infinity) = "inf"
  /\ ctx_total_ttc_words (Sample.context_of request) = "inf"
  /\ exists r, snd (Sample.handle request) = Returned r
                /\ content r = list_byte_of_string "%PDF-1.7".
Proof.
  intros t request.
  assert (Hb : french_words_body Sample.num2words (Py.PyFloat infinity) =
               Raise (Exception "cannot convert float infinity to integer"))
    by reflexivity.
  destruct (words_failure_falls_back Sample.summation Sample.num2words
              Sample.float_of_str Sample.repr_float string Sample.get_template
              Sample.render Sample.write_pdf Sample.init_headers Sample.now
              _ _ Hb) as [Hw Hreq].
  destruct (Hreq request t eq_refl eq_refl) as [Hctx Hret].
  split; [exact Hb |]. split; [exact Hw |]. split; [exact Hctx |].
  exact (Hret "<html>{{ document_title }}</html>" "<html>FACTURE</html>"
           (list_byte_of_string "%PDF-1.7") eq_refl eq_refl eq_refl eq_refl).
Defined.

Lemma empty_products_no_totals_witness :
  let request := Sample.request "facture" [] None in
  Sample.totals_of request = None
  /\ ctx_totals (Sample.context_of request) = None
  /\ ctx_total_ttc_words (Sample.context_of request) = "zéro".
Proof.
  intros request. unfold Sample.totals_of, Sample.context_of.
  apply empty_products_no_totals; reflexivity.
Defined.

(** With an empty product list and no supplied totals the context holds no
    totals, where C2 expects the three strings "0.00"; and the words are
    "zéro", not the phrase the converter gives for zero. *)
Lemma empty_products_totals_absent :
  let request := Sample.request "facture" [] None in
  products request = []
  /\ totals request = None
  /\ ctx_totals (Sample.context_of request) = None
  /\ ctx_totals (Sample.context_of request) <>
       Some {| totalHT := "0.00"; totalTVA := "0.00"; totalTTC := "0.00" |}
  /\ ctx_total_ttc_words (Sample.context_of request) = "zéro"
  /\ Sample.to_words (Py.PyInt 0) = "zéro dinars".
Proof.
  repeat split; try reflexivity. discriminate.
Qed.

Lemma failure_is_internal_error_witness :
  let request := Sample.request "facture" [] None in
  Sample.no_template "facture.html" = Raise (Exception "facture.html")
  /\ Sample.no_template "bon-livraison.html" =
       Raise (Exception "bon-livraison.html")
  /\ snd (Sample.handle_no_template request) =
       HTTPException 500 "Error generating PDF: bon-livraison.html".
Proof.
  intros request.
  split; [reflexivity |]. split; [reflexivity |].
  unfold Sample.handle_no_template.
  apply (proj1 (failure_is_internal_error Sample.summation Sample.num2words
                  Sample.float_of_str Sample.repr_float string
                  Sample.no_template Sample.render Sample.write_pdf
                  Sample.init_headers Sample.now request)
           (Exception "bon-livraison.html")).
  apply (template_raises _ _ _ _ _ _ _ _ _ _ _ _ (Exception "facture.html"));
    reflexivity.
Defined.

Lemma dinar_centime_plurals_witness :
  nonneg (Py.PyFloat 1.5) = true
  /\ Py.int (Py.PyFloat 1.5) = Ok 1%Z
  /\ Sample.num2words 1 = Ok "un"
  /\ centimes_of (Py.PyFloat 1.5) 1 = Ok 50%Z
  /\ spec_centimes (Py.PyFloat 1.5) 50
  /\ Sample.to_words (Py.PyFloat 1.5) = "un dinar et cinquante centimes".
Proof.
  assert (H1 : nonneg (Py.PyFloat 1.5) = true) by reflexivity.
  assert (H2 : Py.int (Py.PyFloat 1.5) = Ok 1%Z) by reflexivity.
  assert (H3 : Sample.num2words 1 = Ok "un") by reflexivity.
  assert (H4 : centimes_of (Py.PyFloat 1.5) 1 = Ok 50%Z)
    by (vm_compute; reflexivity).
  repeat (split; [assumption |]).
  destruct (dinar_centime_plurals Sample.num2words Sample.repr_float
              (Py.PyFloat 1.5) 1 "un" H1 H2 H3)
    as [centimes [Hc [Hspec [_ Hwords]]]].
  rewrite H4 in Hc. inversion Hc; subst centimes.
  split; [exact Hspec |].
  unfold Sample.to_words. rewrite Hwords. reflexivity.
Defined.

Lemma computed_totals_sums_witness :
  let request :=
    Sample.request "bon-commande"
      [Sample.line 2 (Some 0.5%float) None;
       Sample.line 3 None (Some 19%float);
       Sample.line 4 (Some 2.5%float) (Some 10%float)] None in
  Sample.totals_of request =
    Some {| totalHT := "11.00"; totalTVA := "1.00"; totalTTC := "12.00" |}
  /\ fixed_2dp "11.00" = true /\ fixed_2dp "1.00" = true
  /\ fixed_2dp "12.00" = true.
Proof.
  intros request.
  assert (Hne : products request <> []) by discriminate.
  destruct (computed_totals_sums Sample.summation request eq_refl Hne)
    as [H [Hht [Htva Httc]]].
  split; [unfold Sample.totals_of; rewrite H; vm_compute; reflexivity |].
  split; [exact (Hht eq_refl) |].
  split; [exact (Htva eq_refl) | exact (Httc eq_refl)].
Defined.

(** Two factors of 1e200 overflow: the before-tax total is printed as "inf"
    and the two others as "nan", none of them a two-decimal string. *)
#[warnings="-inexact-float"]
Lemma computed_totals_overflow :
  let request :=
    Sample.request "facture" [Sample.line 1e200 (Some 1e200%float) None] None in
  totals request = None
  /\ products request = [Sample.line 1e200 (Some 1e200%float) None]
  /\ resolve_totals Py.LeftToRight request =
       Some {| totalHT := "inf"; totalTVA := "nan"; totalTTC := "nan" |}
  /\ resolve_totals Py.Compensated request =
       Some {| totalHT := "inf"; totalTVA := "nan"; totalTTC := "nan" |}
  /\ fixed_2dp "inf" = false
  /\ fixed_2dp "nan" = false.
Proof.
  repeat split; vm_compute; reflexivity.
Qed.

Lemma single_line_scenario_witness :
  Sample.totals_of
    (Sample.request "facture"
       [Sample.line 10 (Some 100.5%float) (Some 19%float)] None) =
    Some {| totalHT := "1005.00"; totalTVA := "190.95"; totalTTC := "1195.95" |}.
Proof.
  unfold Sample.totals_of.
  apply (single_line_scenario _ _
           (Sample.line 10 (Some 100.5%float) (Some 19%float)));
    reflexivity.
Defined.

(** * Further properties of the service *)

(** ** Titles of the accepted types *)

Lemma In_type_literal_cases (t : string) :
  In t type_literal ->
  t = "bon-livraison" \/ t = "bon-commande" \/ t = "facture"
  \/ t = "facture-proforma" \/ t = "proforma" \/ t = "bon-retour"
  \/ t = "facture-avoir" \/ t = "bon-versement" \/ t = "bon-reception".
Proof.
  simpl. intros H.
  repeat (destruct H as [H | H]; [symmetry in H; tauto |]). contradiction.
Qed.

Lemma accepted_type_title (t : string) :
  valid_type t = true ->
  In (get_document_title t) display_titles
  /\ get_document_title t <> "DOCUMENT".
Proof.
  intros H. apply valid_type_In, In_type_literal_cases in H.
  repeat (destruct H as [-> | H];
          [split; [vm_compute; tauto | vm_compute; discriminate] |]).
  subst. split; [vm_compute; tauto | vm_compute; discriminate].
Qed.

(** X1. Two accepted types with the same title are the same type, or are
    the two names of the pro-forma invoice. *)
Theorem same_title_same_type (a b : string) :
  valid_type a = true -> valid_type b = true ->
  get_document_title a = get_document_title b ->
  a = b \/ (In a ["facture-proforma"; "proforma"]
            /\ In b ["facture-proforma"; "proforma"]).
Proof.
  intros Ha Hb.
  apply valid_type_In, In_type_literal_cases in Ha.
  apply valid_type_In, In_type_literal_cases in Hb.
  repeat (destruct Ha as [-> | Ha]);
  try subst a;
  repeat (destruct Hb as [-> | Hb]);
  try subst b;
  intros H; try (left; reflexivity);
  vm_compute in H; try discriminate H;
  right; simpl; tauto.
Qed.

(** ** Runs of the handler *)

Section HandlerProperties.

Variable summation : Py.summation.
Variable num2words : Z -> exc string.
Variable float_of_str : string -> exc float.
Variable repr_float : float -> string.
Variable Template : Type.
Variable get_template : string -> exc Template.
Variable render : Template -> Context -> exc string.
Variable write_pdf : string -> string -> exc (list Byte.byte).
Variable init_headers : gmap string string -> exc unit.
Variable now : string.

Local Abbreviation totals_of := (resolve_totals summation).
Local Abbreviation context_of :=
  (make_context summation num2words float_of_str repr_float now).
Local Abbreviation template_of := (select_template Template get_template).
Local Abbreviation handle :=
  (generate_pdf summation num2words float_of_str repr_float Template
     get_template render write_pdf init_headers now).
Local Abbreviation stage_failure :=
  (stage_raises summation num2words float_of_str repr_float Template
     get_template render write_pdf init_headers now).
Local Abbreviation post :=
  (post_generate_pdf summation num2words float_of_str repr_float Template
     get_template render write_pdf init_headers now).

(** The run of the handler once a template is selected. *)
Lemma handle_after_template (request : GeneratePdfRequest)
  (lookups : list event) (template : Template) :
  template_of request = (lookups, Ok template) ->
  let ctx := context_of request in
  match render template ctx with
  | Raise e =>
      handle request =
        ((lookups ++ [Render ctx])%list,
         HTTPException 500 ("Error generating PDF: " ++ str_exn e))
  | Ok html =>
      match write_pdf html a4_css with
      | Raise e =>
          handle request =
            ((lookups ++ [Render ctx; WritePdf html a4_css])%list,
             HTTPException 500 ("Error generating PDF: " ++ str_exn e))
      | Ok pdf =>
          match init_headers (response_headers request) with
          | Raise e =>
              handle request =
                ((lookups ++ [Render ctx; WritePdf html a4_css])%list,
                 HTTPException 500 ("Error generating PDF: " ++ str_exn e))
          | Ok _ =>
              handle request =
                ((lookups ++ [Render ctx; WritePdf html a4_css])%list,
                 Returned {| content := pdf;
                             media_type := "application/pdf";
                             headers := response_headers request |})
          end
      end
  end.
Proof.
  intros Ht ctx.
  unfold generate_pdf, generate_pdf_body, io_bind, io_call, io_lift, io_ret.
  rewrite Ht. fold ctx.
  destruct (render template ctx) as [html | e1]; [| reflexivity].
  destruct (write_pdf html a4_css) as [pdf | e2]; [| reflexivity].
  destruct (init_headers (response_headers request)) as [[] | e3];
    [| rewrite app_nil_r; reflexivity].
  rewrite app_nil_r. reflexivity.
Qed.

(** The three ways the selection of the template can go. *)
Lemma template_of_cases (request : GeneratePdfRequest) :
  let first := GetTemplate (type request ++ ".html") in
  let second := GetTemplate "bon-livraison.html" in
  (exists t, get_template (type request ++ ".html") = Ok t
             /\ template_of request = ([first], Ok t))
  \/ (exists e0 t, get_template (type request ++ ".html") = Raise e0
                   /\ get_template "bon-livraison.html" = Ok t
                   /\ template_of request = ([first; second], Ok t))
  \/ (exists e0 e, get_template (type request ++ ".html") = Raise e0
                   /\ get_template "bon-livraison.html" = Raise e
                   /\ template_of request = ([first; second], Raise e)).
Proof.
  intros first second. unfold select_template, io_try, io_call.
  destruct (get_template (type request ++ ".html")) as [t | e0] eqn:H0.
  - left. now exists t.
  - destruct (get_template "bon-livraison.html") as [t | e] eqn:H1.
    + right; left. now exists e0, t.
    + right; right. now exists e0, e.
Qed.

Lemma handle_template_missing (request : GeneratePdfRequest)
  (lookups : list event) (e : exn) :
  template_of request = (lookups, Raise e) ->
  handle request =
    (lookups, HTTPException 500 ("Error generating PDF: " ++ str_exn e)).
Proof.
  intros Ht.
  unfold generate_pdf, generate_pdf_body, io_bind. rewrite Ht. reflexivity.
Qed.



(** X3. A call of the handler ends in one of two ways: it returns a
    response, or one of the four stages (template selection, rendering,
    page conversion, building of the response) raised and the answer is the
    [HTTPException] with status 500 that embeds the text of that failure.
    The totals and the amount in words never fail a request. *)
Theorem handler_outcome (request : GeneratePdfRequest) :
  (exists r, snd (handle request) = Returned r)
  \/ (exists e, stage_failure request e
                /\ snd (handle request) =
                     HTTPException 500 ("Error generating PDF: " ++ str_exn e)).
Proof.
  destruct (template_of_cases request)
    as [[t [_ Ht]] | [[e0 [t [_ [_ Ht]]]] | [e0 [e [H0 [H1 Ht]]]]]].
  1, 2: pose proof (handle_after_template request _ t Ht) as H; cbv zeta in H;
    assert (Hsel : snd (template_of request) = Ok t) by (now rewrite Ht);
    destruct (render t (context_of request)) as [html | e1] eqn:Hr;
    [destruct (write_pdf html a4_css) as [pdf | e2] eqn:Hw;
     [destruct (init_headers (response_headers request)) as [u | e3] eqn:Hh |] |];
    rewrite H; cbn [snd];
    [ left; eexists; reflexivity
    | right; exists e3; split;
      [exact (response_raises _ _ _ _ _ _ _ _ _ _ _ _ t html pdf Hsel Hr Hw Hh)
      | reflexivity]
    | right; exists e2; split;
      [exact (write_pdf_raises _ _ _ _ _ _ _ _ _ _ _ _ t html Hsel Hr Hw)
      | reflexivity]
    | right; exists e1; split;
      [exact (render_raises _ _ _ _ _ _ _ _ _ _ _ _ t Hsel Hr) | reflexivity] ].
  rewrite (handle_template_missing request _ e Ht). cbn [snd].
  right. exists e. split; [| reflexivity].
  exact (template_raises _ _ _ _ _ _ _ _ _ _ _ _ e0 H0 H1).
Qed.


(** X5. When the template of the type cannot be loaded and the generic one
    can, the document is rendered with the generic template from the
    context of the request, which still carries the type of the request and
    the title of that type; the failure of the first lookup is not
    reported, and the request succeeds when the later stages do. *)
Theorem generic_template_fallback (request : GeneratePdfRequest)
  (e0 : exn) (generic : Template) :
  get_template (type request ++ ".html") = Raise e0 ->
  get_template "bon-livraison.html" = Ok generic ->
  let ctx := context_of request in
  (exists rest,
     fst (handle request) =
       GetTemplate (type request ++ ".html")
       :: GetTemplate "bon-livraison.html" :: Render ctx :: rest)
  /\ ctx_type ctx = type request
  /\ ctx_document_title ctx = get_document_title (type request)
  /\ (forall html_content pdf_bytes,
        render generic ctx = Ok html_content ->
        write_pdf html_content a4_css = Ok pdf_bytes ->
        init_headers (response_headers request) = Ok tt ->
        exists r, snd (handle request) = Returned r /\ content r = pdf_bytes).
Proof.
  intros H0 H1 ctx.
  assert (Ht : template_of request =
               ([GetTemplate (type request ++ ".html");
                 GetTemplate "bon-livraison.html"], Ok generic)).
  { unfold select_template, io_try, io_call. now rewrite H0, H1. }
  pose proof (handle_after_template request _ generic Ht) as H. cbv zeta in H.
  fold ctx in H.
  split; [| split; [reflexivity | split; [reflexivity |]]].
  - destruct (render generic ctx) as [html | e1];
      [destruct (write_pdf html a4_css) as [pdf | e2];
       [destruct (init_headers (response_headers request)) as [u | e3] |] |];
      rewrite H; cbn [fst app]; eexists; reflexivity.
  - intros html pdf Hr Hw Hh. rewrite Hr, Hw, Hh in H. rewrite H.
    eexists. split; reflexivity.
Qed.

(** X6. Through the endpoint the fallback title is never rendered: every
    context handed to a template carries the type of the body, one of the
    nine accepted types, and one of the eight titles of the table, never
    "DOCUMENT". *)
Theorem fallback_title_unreachable (body : GeneratePdfRequest) (ctx : Context) :
  In (Render ctx) (fst (post body)) ->
  ctx_type ctx = type body
  /\ In (ctx_type ctx) type_literal
  /\ In (ctx_document_title ctx) display_titles
  /\ ctx_document_title ctx <> "DOCUMENT".
Proof.
  unfold post_generate_pdf.
  destruct (valid_type (type body)) eqn:Hv; [| intros []].
  intros Hin.
  apply render_context in Hin. subst ctx.
  cbn [make_context ctx_type ctx_document_title].
  split; [reflexivity |]. split; [now apply valid_type_In |].
  now apply accepted_type_title.
Qed.

Lemma resolve_totals_idempotent (request : GeneratePdfRequest) :
  totals_of (with_totals request (totals_of request)) = totals_of request.
Proof.
  unfold resolve_totals, with_totals. cbn [totals products].
  destruct (totals request) as [t |]; [reflexivity |].
  destruct (products request); reflexivity.
Qed.

(** X7. Supplying the totals the service computes changes nothing: the
    request with its [totals] replaced by the totals the handler resolves
    gets the same context, hence the same calls and the same answer. *)
Theorem computed_totals_resubmitted (request : GeneratePdfRequest) :
  context_of (with_totals request (totals_of request)) = context_of request
  /\ handle (with_totals request (totals_of request)) = handle request.
Proof.
  assert (Hctx : context_of (with_totals request (totals_of request))
                 = context_of request).
  { unfold make_context. rewrite resolve_totals_idempotent. reflexivity. }
  split; [exact Hctx |].
  unfold generate_pdf, generate_pdf_body. rewrite Hctx. reflexivity.
Qed.

End HandlerProperties.

(** ** Zero terms of a sum *)

Lemma add_zero_r (a z : float) :
  not_neg_zero a -> is_zero_float z -> (a + z)%float = a.
Proof.
  unfold not_neg_zero. intros Ha [s Hs].
  apply Prim2SF_inj. rewrite add_spec, Hs.
  destruct (Prim2SF a) as [sa | sa | | sa ma ea]; try reflexivity.
  destruct sa; [congruence |]. destruct s; reflexivity.
Qed.

Lemma fold_add_not_neg_zero (l : list float) (a : float) :
  not_neg_zero a -> not_neg_zero (fold_left PrimFloat.add l a).
Proof.
  revert a. induction l as [| x l IH]; intros a Ha; [exact Ha |].
  simpl. apply IH. now apply add_not_neg_zero.
Qed.

Lemma is_finite_isfinite (x : float) : is_finite x = isfinite x.
Proof.
  unfold is_finite, is_nan, is_infinity, isfinite.
  rewrite !FloatAxioms.eqb_spec, abs_spec.
  change (Prim2SF infinity) with (S754_infinity false).
  destruct (Prim2SF x) as [s | s | | s m e]; try reflexivity.
  - destruct s; reflexivity.
  - simpl. unfold SFeqb, SFcompare. simpl.
    rewrite Z.compare_refl, Pos.compare_refl. destruct s; reflexivity.
Qed.

Lemma add_nonfinite (f x : float) :
  isfinite f = false -> isfinite (f + x) = false.
Proof.
  unfold isfinite. rewrite add_spec.
  destruct (Prim2SF f) as [s | s | | s m e]; try discriminate; intros _.
  - destruct (Prim2SF x) as [s' | s' | | s' m' e']; try reflexivity.
    destruct s, s'; reflexivity.
  - destruct (Prim2SF x); reflexivity.
Qed.

Lemma add_nonfinite_finite (f c : float) :
  isfinite f = false -> isfinite c = true -> (f + c)%float = f.
Proof.
  unfold isfinite. intros Hf Hc. apply Prim2SF_inj. rewrite add_spec.
  destruct (Prim2SF f) as [s | s | | s m e]; try discriminate;
    destruct (Prim2SF c) as [s' | s' | | s' m' e']; try discriminate;
    reflexivity.
Qed.

Lemma compensated_result_same_sum (st st' : float * float) :
  same_sum st st' -> compensated_result st = compensated_result st'.
Proof.
  destruct st as [f c], st' as [f' c']. unfold same_sum. simpl.
  intros [<- [<- | Hf]]; [reflexivity |].
  assert (H : forall c0, (if Py.truthy c0 && is_finite c0
                          then (f + c0)%float else f) = f).
  { intros c0. destruct (Py.truthy c0); [| reflexivity]. simpl.
    destruct (is_finite c0) eqn:Hc; [| reflexivity].
    rewrite is_finite_isfinite in Hc. now apply add_nonfinite_finite. }
  now rewrite !H.
Qed.

Lemma compensated_add_same_sum (st st' : float * float) (x : float) :
  same_sum st st' ->
  same_sum (Py.compensated_add st x) (Py.compensated_add st' x).
Proof.
  destruct st as [f c], st' as [f' c']. unfold same_sum. simpl.
  intros [<- [<- | Hf]]; [split; [reflexivity | now left] |].
  split; [reflexivity |]. right. now apply add_nonfinite.
Qed.

Lemma fold_compensated_same_sum (l : list float) (st st' : float * float) :
  same_sum st st' ->
  same_sum (fold_left Py.compensated_add l st)
    (fold_left Py.compensated_add l st').
Proof.
  revert st st'. induction l as [| x l IH]; intros st st' H; [exact H |].
  simpl. apply IH. now apply compensated_add_same_sum.
Qed.

Lemma sub_self_finite (f : float) :
  isfinite f = true -> not_neg_zero f -> (f - f)%float = 0%float.
Proof.
  unfold isfinite, not_neg_zero. intros Hf Hn.
  apply Prim2SF_inj. rewrite sub_spec.
  change (Prim2SF 0) with (S754_zero false).
  destruct (Prim2SF f) as [s | s | | s m e]; try discriminate.
  - destruct s; [congruence | reflexivity].
  - apply SFsub_self.
Qed.

Lemma leb_abs_zero (z f : float) :
  is_zero_float z -> isfinite f = true -> (abs z <=? abs f)%float = true.
Proof.
  unfold isfinite. intros [s Hs]. rewrite leb_spec, !abs_spec, Hs.
  destruct (Prim2SF f) as [sf | sf | | sf mf ef]; try discriminate; reflexivity.
Qed.

Lemma zero_add_zero (z : float) : is_zero_float z -> (0 + z)%float = 0%float.
Proof. intros H. apply add_zero_r; [apply zero_not_neg_zero | exact H]. Qed.

(** Adding a zero leaves a state of the compensated loop as it is. *)
Lemma compensated_add_zero (f c z : float) :
  not_neg_zero f -> not_neg_zero c -> is_zero_float z ->
  same_sum (Py.compensated_add (f, c) z) (f, c).
Proof.
  intros Hf Hc Hz. unfold Py.compensated_add, same_sum. cbn [fst snd].
  rewrite (add_zero_r f z Hf Hz). split; [reflexivity |].
  destruct (isfinite f) eqn:Hfin; [left | now right].
  rewrite (leb_abs_zero z f Hz Hfin).
  rewrite (sub_self_finite f Hfin Hf), (zero_add_zero z Hz).
  apply add_zero_r; [exact Hc | exists false; reflexivity].
Qed.

Lemma compensated_not_neg_zero (l : list float) (f c : float) :
  not_neg_zero f -> not_neg_zero c ->
  not_neg_zero (fst (fold_left Py.compensated_add l (f, c)))
  /\ not_neg_zero (snd (fold_left Py.compensated_add l (f, c))).
Proof.
  revert f c. induction l as [| x l IH]; intros f c Hf Hc; [now split |].
  change (fold_left Py.compensated_add (x :: l) (f, c))
    with (fold_left Py.compensated_add l (Py.compensated_add (f, c) x)).
  unfold Py.compensated_add.
  apply IH; [now apply add_not_neg_zero |].
  destruct (abs x <=? abs f)%float; now apply add_not_neg_zero.
Qed.

(** The first item of the compensated sum, taken as an item of the loop. *)
Lemma compensated_add_first (x : float) :
  same_sum (Py.compensated_add (0%float, 0%float) x) ((0 + x)%float, 0%float).
Proof.
  unfold Py.compensated_add, same_sum. cbn [fst snd].
  split; [reflexivity |].
  destruct (isfinite (0 + x)) eqn:Hfin; [left | now right].
  assert (Hx : isfinite x = true).
  { destruct (isfinite x) eqn:E; [reflexivity |].
    unfold isfinite in *. rewrite add_spec in Hfin.
    change (Prim2SF 0) with (S754_zero false) in Hfin.
    destruct (Prim2SF x) as [s | s | | s m e]; try discriminate E;
      discriminate Hfin. }
  apply Prim2SF_inj.
  destruct (abs x <=? abs 0)%float eqn:Hle;
    rewrite leb_spec, !abs_spec in Hle;
    rewrite !add_spec, !sub_spec, !add_spec;
    change (Prim2SF 0) with (S754_zero false) in *;
    unfold isfinite in Hx;
    destruct (Prim2SF x) as [s | s | | s m e]; try discriminate Hx;
    try discriminate Hle.
  - destruct s; reflexivity.
  - cbn [SF64add SFadd]. rewrite SFsub_self. reflexivity.
Qed.

Lemma sum_left_to_right_fold (l : list float) :
  Py.sum Py.LeftToRight l = fold_left PrimFloat.add l 0%float.
Proof. destruct l; reflexivity. Qed.

Lemma sum_compensated_fold (l : list float) :
  Py.sum Py.Compensated l =
    compensated_result (fold_left Py.compensated_add l (0%float, 0%float)).
Proof.
  destruct l as [| x l]; [reflexivity |].
  change (fold_left Py.compensated_add (x :: l) (0%float, 0%float))
    with (fold_left Py.compensated_add l
            (Py.compensated_add (0%float, 0%float) x)).
  rewrite (compensated_result_same_sum _ _
             (fold_compensated_same_sum l _ _ (compensated_add_first x))).
  unfold Py.sum, compensated_result.
  destruct (fold_left Py.compensated_add l ((0 + x)%float, 0%float)).
  reflexivity.
Qed.

(** A zero item changes no sum. *)
Lemma sum_insert_zero (alg : Py.summation) (l1 l2 : list float) (z : float) :
  is_zero_float z -> Py.sum alg (l1 ++ z :: l2) = Py.sum alg (l1 ++ l2).
Proof.
  intros Hz. destruct alg.
  - rewrite !sum_left_to_right_fold, !fold_left_app. simpl.
    rewrite add_zero_r; [reflexivity | | exact Hz].
    apply fold_add_not_neg_zero, zero_not_neg_zero.
  - rewrite !sum_compensated_fold, !fold_left_app.
    apply compensated_result_same_sum.
    change (fold_left Py.compensated_add (z :: l2) ?st)
      with (fold_left Py.compensated_add l2 (Py.compensated_add st z)).
    apply fold_compensated_same_sum.
    destruct (compensated_not_neg_zero l1 0 0 zero_not_neg_zero
                zero_not_neg_zero) as [Hf Hc].
    destruct (fold_left Py.compensated_add l1 (0%float, 0%float)) as [f c].
    now apply compensated_add_zero.
Qed.

Lemma sum_zeros (alg : Py.summation) (l : list float) :
  Forall is_zero_float l -> Py.sum alg l = 0%float.
Proof.
  induction 1 as [| z l Hz _ IH]; [reflexivity |].
  rewrite <- IH. exact (sum_insert_zero alg [] l z Hz).
Qed.

(** ** Lines without a price, lines without tax *)

Lemma compute_totals_terms (alg : Py.summation) (ps : list Product) :
  compute_totals alg ps =
    let total_ht := Py.sum alg (map ht_term ps) in
    let total_tva := Py.sum alg (map tva_term ps) in
    {| totalHT := Py.format_2f total_ht;
       totalTVA := Py.format_2f total_tva;
       totalTTC := Py.format_2f (total_ht + total_tva) |}.
Proof. reflexivity. Qed.

Lemma or_zero_absent (o : option float) :
  match o with None => true | Some x => is_zero x end = true ->
  Py.or_zero o = 0%float.
Proof.
  destruct o as [x |]; [| reflexivity].
  unfold Py.or_zero, Py.truthy. now intros ->.
Qed.

Lemma mul_finite_zero (x z : float) :
  isfinite x = true -> is_zero_float z -> is_zero_float (x * z).
Proof.
  unfold isfinite. intros Hx [s Hs].
  destruct (Prim2SF x) as [sx | sx | | sx mx ex] eqn:Ex; try discriminate Hx;
    eexists; rewrite mul_spec, Ex, Hs; reflexivity.
Qed.

Lemma mul_zero_finite (z x : float) :
  is_zero_float z -> isfinite x = true -> is_zero_float (z * x).
Proof.
  unfold isfinite. intros [s Hs] Hx.
  destruct (Prim2SF x) as [sx | sx | | sx mx ex] eqn:Ex; try discriminate Hx;
    eexists; rewrite mul_spec, Ex, Hs; reflexivity.
Qed.

Lemma div_zero_100 (z : float) : is_zero_float z -> is_zero_float (z / 100).
Proof.
  intros [s Hs]. eexists. rewrite div_spec, Hs. reflexivity.
Qed.

Lemma isfinite_or_zero (o : option float) :
  match o with None => true | Some r => isfinite r end = true ->
  isfinite (Py.or_zero o) = true.
Proof.
  destruct o as [r |]; [| reflexivity]. unfold Py.or_zero.
  destruct (Py.truthy r); [trivial | reflexivity].
Qed.

Lemma unpriced_terms (p : Product) :
  unpriced p = true -> is_zero_float (ht_term p) /\ is_zero_float (tva_term p).
Proof.
  unfold unpriced. intros H.
  apply andb_true_iff in H. destruct H as [H Hr].
  apply andb_true_iff in H. destruct H as [Hp Hq].
  assert (Hht : is_zero_float (ht_term p)).
  { unfold ht_term. rewrite (or_zero_absent _ Hp).
    apply mul_finite_zero; [exact Hq | exists false; reflexivity]. }
  split; [exact Hht |].
  apply div_zero_100. apply mul_zero_finite; [exact Hht |].
  now apply isfinite_or_zero.
Qed.

Lemma untaxed_terms (p : Product) :
  untaxed p = true ->
  same_amount (ht_term p) (calculate_line_total p)
  /\ is_zero_float (tva_term p).
Proof.
  unfold untaxed. intros H.
  apply andb_true_iff in H. destruct H as [Hr Hfin].
  split.
  - unfold ht_term, calculate_line_total.
    assert (Hsub : forall x,
               prixUnitaire p = Some x ->
               match tauxTVA p with
               | Some rate =>
                   if Py.truthy rate
                   then (quantite p * x * (1 + rate / 100))%float
                   else (quantite p * x)%float
               | None => (quantite p * x)%float
               end = (quantite p * x)%float).
    { intros x _. destruct (tauxTVA p) as [rate |]; [| reflexivity].
      unfold Py.truthy. now rewrite Hr. }
    destruct (prixUnitaire p) as [x |] eqn:Hp.
    + cbv zeta. rewrite (Hsub x eq_refl).
      apply mul_same_amount; [apply same_amount_refl |].
      apply (or_zero_same_amount (Some x)).
    + right. split; [| exists false; reflexivity].
      simpl Py.or_zero in *.
      unfold isfinite in Hfin. rewrite mul_spec in Hfin.
      change (Prim2SF 0) with (S754_zero false) in Hfin.
      destruct (Prim2SF (quantite p)) as [s | s | | s m e] eqn:Eq;
        try discriminate Hfin;
        eexists; rewrite mul_spec, Eq; reflexivity.
  - unfold tva_term. rewrite (or_zero_absent _ Hr).
    apply div_zero_100.
    apply mul_finite_zero; [exact Hfin | exists false; reflexivity].
Qed.

Lemma map_zero_terms (f : Product -> float) (P : Product -> bool)
  (ps : list Product) :
  (forall p, P p = true -> is_zero_float (f p)) ->
  forallb P ps = true -> Forall is_zero_float (map f ps).
Proof.
  intros HP. induction ps as [| p ps IH]; simpl; intros H; constructor.
  - apply HP. now apply andb_true_iff in H.
  - apply IH. now apply andb_true_iff in H.
Qed.

(** Sums of items that agree up to the sign of their zeros. *)
Lemma sum_same_amounts (alg : Py.summation) (l l' : list float) :
  Forall2 same_amount l l' -> Py.sum alg l = Py.sum alg l'.
Proof.
  intros H. destruct H as [| x y l l' Hxy Hrest]; [reflexivity |].
  assert (Hfirst : (0 + x)%float = (0 + y)%float).
  { destruct Hxy as [-> | [Hx Hy]]; [reflexivity |].
    apply add_zero_same; [apply zero_not_neg_zero | assumption ..]. }
  assert (Hnz : not_neg_zero (0 + y)).
  { apply add_not_neg_zero, zero_not_neg_zero. }
  unfold Py.sum. rewrite Hfirst. destruct alg.
  - now apply fold_add_same_amount.
  - now rewrite (fold_compensated_same _ _ _ _ Hrest Hnz).
Qed.

Lemma sum_not_neg_zero (alg : Py.summation) (l : list float) :
  not_neg_zero (Py.sum alg l).
Proof.
  destruct alg.
  - rewrite sum_left_to_right_fold.
    apply fold_add_not_neg_zero, zero_not_neg_zero.
  - rewrite sum_compensated_fold.
    destruct (compensated_not_neg_zero l 0 0 zero_not_neg_zero
                zero_not_neg_zero) as [Hf Hc].
    destruct (fold_left Py.compensated_add l (0%float, 0%float)) as [f c].
    unfold compensated_result. simpl in Hf.
    destruct (Py.truthy c && is_finite c); [now apply add_not_neg_zero | exact Hf].
Qed.

(** X8. A line without a price adds nothing to the totals of the other
    lines: in a request without supplied totals, with the unit price of
    the line absent or zero and its quantity and tax rate finite, and with
    at least one other line, the totals the handler resolves are the same
    with the line and without it, wherever it stands in the list and under
    either float summation. *)
Theorem unpriced_line_adds_nothing (alg : Py.summation)
  (request request' : GeneratePdfRequest)
  (before after : list Product) (p : Product) :
  unpriced p = true ->
  (before ++ after)%list <> [] ->
  totals request = None ->
  totals request' = None ->
  products request = (before ++ p :: after)%list ->
  products request' = (before ++ after)%list ->
  resolve_totals alg request
  = Some (compute_totals alg (before ++ after)%list)
  /\ resolve_totals alg request' = resolve_totals alg request.
Proof.
  intros H Hne Ht Ht' Hp Hp'. destruct (unpriced_terms p H) as [Hht Htva].
  assert (Hres : resolve_totals alg request
                 = Some (compute_totals alg (before ++ after)%list)).
  { rewrite resolve_totals_computed;
      [| exact Ht | rewrite Hp; now destruct before].
    rewrite Hp. f_equal.
    rewrite !compute_totals_terms. cbv zeta.
    rewrite !map_app. simpl map.
    now rewrite !sum_insert_zero. }
  split; [exact Hres |].
  rewrite Hres.
  rewrite resolve_totals_computed; [| exact Ht' | now rewrite Hp'].
  now rewrite Hp'.
Qed.

Section TotalsWords.

Variable alg : Py.summation.
Variable num2words : Z -> exc string.
Variable float_of_str : string -> exc float.
Variable repr_float : float -> string.
Variable now : string.

(** X9. A document whose lines all come without a price (a delivery note,
    say) and without supplied totals gets the totals "0.00", "0.00" and
    "0.00", and, when [float] reads "0.00" as zero, the words of zero
    followed by " dinars". *)
Theorem unpriced_lines_zero_totals (request : GeneratePdfRequest) (w : string) :
  totals request = None ->
  products request <> [] ->
  forallb unpriced (products request) = true ->
  float_of_str "0.00" = Ok 0%float ->
  num2words 0 = Ok w ->
  let ctx := make_context alg num2words float_of_str repr_float now request in
  ctx_totals ctx =
    Some {| totalHT := "0.00"; totalTVA := "0.00"; totalTTC := "0.00" |}
  /\ ctx_total_ttc_words ctx = w ++ " dinars".
Proof.
  intros Ht Hne Hall Hf Hw ctx.
  assert (Hres : resolve_totals alg request =
            Some {| totalHT := "0.00"; totalTVA := "0.00"; totalTTC := "0.00" |}).
  { rewrite (resolve_totals_computed alg request Ht Hne).
    rewrite compute_totals_terms. cbv zeta.
    rewrite (sum_zeros alg (map ht_term (products request))),
      (sum_zeros alg (map tva_term (products request))); [reflexivity | |].
    - apply (map_zero_terms _ unpriced); [| exact Hall].
      intros p Hp. now apply unpriced_terms.
    - apply (map_zero_terms _ unpriced); [| exact Hall].
      intros p Hp. now apply unpriced_terms. }
  split; [exact Hres |].
  unfold ctx, make_context. cbn [ctx_total_ttc_words]. rewrite Hres.
  unfold total_ttc_words_of, total_ttc_value. cbn [totalTTC]. rewrite Hf.
  unfold number_to_french_words, french_words_body.
  change (Py.int (Py.PyFloat 0)) with (@Ok Z 0%Z). cbn [exc_bind].
  change (centimes_of (Py.PyFloat 0) 0) with (@Ok Z 0%Z). cbn [exc_bind].
  rewrite Hw. cbn [exc_bind]. simpl. apply append_assoc.
Qed.

End TotalsWords.

(** X10. Without tax rates (each absent or zero, the line amounts finite)
    the computed [totalTVA] is "0.00" and [totalHT] and [totalTTC] are the
    same string: the formatted sum of the line totals of
    [calculate_line_total]. *)
Theorem untaxed_totals (alg : Py.summation) (request : GeneratePdfRequest) :
  totals request = None ->
  products request <> [] ->
  forallb untaxed (products request) = true ->
  let total := Py.sum alg (map calculate_line_total (products request)) in
  resolve_totals alg request =
    Some {| totalHT := Py.format_2f total;
            totalTVA := "0.00";
            totalTTC := Py.format_2f total |}.
Proof.
  intros Ht Hne Hall total.
  rewrite (resolve_totals_computed alg request Ht Hne).
  rewrite compute_totals_terms. cbv zeta.
  assert (Hht : Py.sum alg (map ht_term (products request)) = total).
  { apply sum_same_amounts. clear Ht Hne total.
    induction (products request) as [| p ps IH]; simpl; constructor.
    - apply untaxed_terms. simpl in Hall. now apply andb_true_iff in Hall.
    - apply IH. simpl in Hall. now apply andb_true_iff in Hall. }
  rewrite Hht.
  rewrite (sum_zeros alg (map tva_term (products request))).
  - rewrite add_zero_r;
      [reflexivity | apply sum_not_neg_zero | exists false; reflexivity].
  - apply (map_zero_terms _ untaxed); [| exact Hall].
    intros p Hp. now apply untaxed_terms.
Qed.

(** ** Reading a printed amount back *)

Lemma split_point_digits (a b : string) :
  all_digits a = true -> split_point (a ++ "." ++ b) = Some (a, b).
Proof.
  induction a as [| c a IH]; intros Ha; [reflexivity |].
  simpl in Ha. apply andb_true_iff in Ha. destruct Ha as [Hc Ha].
  rewrite append_cons. cbn [split_point].
  destruct (Ascii.eqb_spec c ".") as [-> | _]; [discriminate Hc |].
  now rewrite (IH Ha).
Qed.

Lemma read_digits_digits (z : Z) :
  (0 <= z)%Z -> read_digits (Py.digits z) = Some z.
Proof.
  intros Hz. unfold Py.digits.
  pose proof (DecimalN.Unsigned.of_to (Z.to_N z)) as Hof.
  destruct (N.to_uint (Z.to_N z)) as [|d|d|d|d|d|d|d|d|d|d] eqn:Ed;
    [ simpl in Hof; simpl; f_equal; lia
    | unfold read_digits, NilZero.string_of_uint;
      rewrite NilEmpty.usu, Hof; cbn [NilEmpty.string_of_uint];
      f_equal; lia .. ].
Qed.

Lemma read_two_digits (r : Z) :
  (0 <= r < 100)%Z ->
  read_digits (Py.two_digits r) = Some r
  /\ String.length (Py.two_digits r) = 2%nat.
Proof.
  intros Hr.
  assert (Hall : forallb
                   (fun k =>
                      match read_digits (Py.two_digits (Z.of_nat k)) with
                      | Some z => (z =? Z.of_nat k)%Z
                      | None => false
                      end
                      && (String.length (Py.two_digits (Z.of_nat k)) =? 2)%nat)
                   (seq 0 100) = true) by (vm_compute; reflexivity).
  rewrite forallb_forall in Hall.
  specialize (Hall (Z.to_nat r)). rewrite Z2Nat.id in Hall by lia.
  specialize (Hall ltac:(apply in_seq; lia)).
  apply andb_true_iff in Hall. destruct Hall as [H1 H2].
  apply Nat.eqb_eq in H2. split; [| exact H2].
  destruct (read_digits (Py.two_digits r)) as [z |]; [| discriminate H1].
  apply Z.eqb_eq in H1. now subst.
Qed.

(** The hundredths printed for a finite float. *)
Lemma read_2dp_format (s : bool) (c : Z) :
  (0 <= c)%Z ->
  read_2dp (Py.sign_prefix s ++ Py.digits (c / 100) ++ "."
            ++ Py.two_digits (c mod 100)) = Some (s, c).
Proof.
  intros Hc.
  assert (Hq : (0 <= c / 100)%Z) by (apply Z.div_pos; lia).
  pose proof (Z.mod_pos_bound c 100 eq_refl) as Hr.
  destruct (digits_shape (c / 100)) as [c0 [ds [Hd [Hc0 Hds]]]].
  assert (Hall : all_digits (Py.digits (c / 100)) = true).
  { rewrite Hd. simpl. now rewrite Hc0, Hds. }
  destruct (read_two_digits (c mod 100) Hr) as [Hfrac Hlen].
  assert (Hbody : match split_point (Py.digits (c / 100) ++ "."
                                     ++ Py.two_digits (c mod 100)) with
                  | Some (whole, frac) =>
                      if (String.length frac =? 2)%nat then
                        match read_digits whole, read_digits frac with
                        | Some w, Some c' => Some (s, (100 * w + c')%Z)
                        | _, _ => None
                        end
                      else None
                  | None => None
                  end = Some (s, c)).
  { rewrite (split_point_digits _ _ Hall), Hlen. simpl Nat.eqb. cbv iota.
    rewrite (read_digits_digits _ Hq), Hfrac.
    f_equal. f_equal. pose proof (Z.div_mod c 100 ltac:(lia)). lia. }
  unfold read_2dp. destruct s.
  - exact Hbody.
  - change (Py.sign_prefix false ++ ?t) with t.
    rewrite Hd in *. rewrite append_cons in *.
    destruct (Ascii.eqb_spec c0 "-") as [-> | Hne]; [discriminate Hc0 |].
    destruct c0 as [[] [] [] [] [] [] [] []]; try exact Hbody;
      try discriminate Hc0; contradiction Hne; reflexivity.
Qed.

(** X11. The two-decimal string printed for a finite float, read back, has
    the sign of the float and its number of hundredths is an integer
    nearest to a hundred times the magnitude [m * 2^e] of the float: exact
    for [e >= 0], at most half a hundredth away otherwise. *)
Theorem format_2f_nearest_cent (x : float) (s : bool) (m : positive) (e : Z) :
  Prim2SF x = S754_finite s m e ->
  exists cents,
    read_2dp (Py.format_2f x) = Some (s, cents)
    /\ (0 <= cents)%Z
    /\ (if (0 <=? e)%Z then cents = 100 * Zpos m * 2 ^ e
        else Z.abs (2 * (100 * Zpos m - cents * 2 ^ (- e))) <= 2 ^ (- e))%Z.
Proof.
  intros Ex. exists (Py.round_half_even (100 * Zpos m) e).
  assert (Hc : (0 <= Py.round_half_even (100 * Zpos m) e)%Z)
    by (apply round_half_even_nonneg; lia).
  split; [| split; [exact Hc |]].
  - unfold Py.format_2f. rewrite Ex. cbv zeta. now apply read_2dp_format.
  - destruct (Z.leb_spec 0 e) as [He | He].
    + unfold Py.round_half_even.
      now replace (0 <=? e)%Z with true by (symmetry; apply Z.leb_le; lia).
    + now apply round_half_even_nearest.
Qed.

(** ** The currency filter *)

Lemma group3_rev_step (a b c d : ascii) (l : list ascii) :
  group3_rev (a :: b :: c :: d :: l)
  = a :: b :: c :: ","%char :: group3_rev (d :: l).
Proof. reflexivity. Qed.

Lemma group3_rev_chunks (n : nat) (l : list ascii) :
  (length l <= n)%nat -> l <> [] ->
  exists (groups : list (list ascii)) (last : list ascii),
    (1 <= length last <= 3)%nat
    /\ Forall (fun g => length g = 3%nat) groups
    /\ l = (concat groups ++ last)%list
    /\ group3_rev l
       = (concat (map (fun g => g ++ [","%char])%list groups) ++ last)%list.
Proof.
  revert l. induction n as [| n IH]; intros l Hn Hne.
  - destruct l; [contradiction | simpl in Hn; lia].
  - destruct l as [| a [| b [| c [| d l]]]]; [contradiction | | | |].
    1-3: exists []; eexists; simpl;
      (split; [| split; [constructor | split; reflexivity]]); simpl; lia.
    destruct (IH (d :: l)) as [groups [last [Hl [Hg [Hd Hr]]]]];
      [simpl in *; lia | discriminate |].
    exists ([a; b; c] :: groups), last.
    split; [exact Hl |]. split; [now constructor |].
    split.
    + simpl. now rewrite <- Hd.
    + rewrite group3_rev_step, Hr. reflexivity.
Qed.

Lemma rev_concat_map {A : Type} (f : list A -> list A) (l : list (list A)) :
  rev (concat (map f l)) = concat (map (fun g => rev (f g)) (rev l)).
Proof.
  induction l as [| g l IH]; [reflexivity |].
  simpl. rewrite rev_app_distr, IH, map_app, concat_app. simpl.
  now rewrite app_nil_r.
Qed.

Lemma group3_grouping (l : list ascii) :
  l <> [] -> grouping l (rev (group3_rev (rev l))).
Proof.
  intros Hne.
  destruct (group3_rev_chunks (length (rev l)) (rev l) (le_n _))
    as [groups [last [Hl [Hg [Hd Hr]]]]].
  { intros H. apply (f_equal (@rev ascii)) in H. rewrite rev_involutive in H.
    contradiction. }
  exists (rev last), (map (@rev ascii) (rev groups)).
  split; [now rewrite length_rev |].
  split.
  { apply List.Forall_forall. intros g Hin.
    apply in_map_iff in Hin. destruct Hin as [g' [<- Hin]].
    apply in_rev in Hin. rewrite length_rev.
    exact (proj1 (List.Forall_forall _ _) Hg g' Hin). }
  split.
  - rewrite <- (rev_involutive l), Hd, rev_app_distr. f_equal.
    rewrite <- (map_id groups) at 1. rewrite rev_concat_map.
    reflexivity.
  - rewrite Hr, rev_app_distr. f_equal.
    rewrite rev_concat_map, map_map. f_equal.
    apply map_ext. intros g. rewrite rev_app_distr. reflexivity.
Qed.

Lemma remove_commas_list (l : list ascii) :
  remove_commas (string_of_list_ascii l)
  = string_of_list_ascii (List.filter not_comma l).
Proof.
  induction l as [| c l IH]; [reflexivity |].
  cbn [string_of_list_ascii remove_commas List.filter]. unfold not_comma at 1.
  destruct (Ascii.eqb c ","); cbn [negb string_of_list_ascii];
    now rewrite IH.
Qed.

Lemma remove_commas_app (a b : string) :
  remove_commas (a ++ b) = remove_commas a ++ remove_commas b.
Proof.
  induction a as [| c a IH]; [reflexivity |].
  rewrite append_cons. simpl. destruct (Ascii.eqb c ",");
    [exact IH | rewrite append_cons; now rewrite IH].
Qed.

Lemma digit_not_comma (c : ascii) : is_digit c = true -> not_comma c = true.
Proof.
  intros Hc. unfold not_comma.
  destruct (Ascii.eqb_spec c ",") as [-> | _]; [discriminate Hc | reflexivity].
Qed.

Lemma remove_commas_digits (s : string) :
  all_digits s = true -> remove_commas s = s.
Proof.
  induction s as [| c s IH]; [reflexivity |].
  simpl. intros H. apply andb_true_iff in H. destruct H as [Hc Hs].
  apply digit_not_comma in Hc. unfold not_comma in Hc.
  destruct (Ascii.eqb c ","); [discriminate Hc | now rewrite IH].
Qed.

Lemma filter_grouping (whole grouped : list ascii) :
  forallb not_comma whole = true -> grouping whole grouped ->
  List.filter not_comma grouped = whole.
Proof.
  intros Hw [first [groups [_ [_ [-> ->]]]]].
  rewrite forallb_app in Hw. apply andb_true_iff in Hw. destruct Hw as [Hf Hg].
  rewrite List.filter_app. f_equal.
  - rewrite forallb_forall in Hf. clear Hg.
    induction first as [| c first IH]; [reflexivity |].
    simpl. rewrite (Hf c (or_introl eq_refl)). f_equal.
    apply IH. intros x Hx. apply Hf. now right.
  - induction groups as [| g groups IH]; [reflexivity |].
    simpl in *. rewrite forallb_app in Hg. apply andb_true_iff in Hg.
    destruct Hg as [Hg Hrest].
    rewrite List.filter_app, (IH Hrest). f_equal.
    rewrite forallb_forall in Hg. clear IH Hrest.
    induction g as [| c g IHg]; [reflexivity |].
    simpl. rewrite (Hg c (or_introl eq_refl)). f_equal.
    apply IHg. intros x Hx. apply Hg. now right.
Qed.

Lemma all_digits_list (s : string) :
  all_digits s = true -> forallb not_comma (list_ascii_of_string s) = true.
Proof.
  induction s as [| c s IH]; [reflexivity |].
  simpl. intros H. apply andb_true_iff in H. destruct H as [Hc Hs].
  now rewrite (digit_not_comma c Hc), IH.
Qed.

Lemma digits_all_digits (z : Z) :
  all_digits (Py.digits z) = true /\ list_ascii_of_string (Py.digits z) <> [].
Proof.
  destruct (digits_shape z) as [c0 [ds [Hd [Hc0 Hds]]]]. rewrite Hd.
  split; [simpl; now rewrite Hc0, Hds | discriminate].
Qed.

Lemma remove_commas_group3 (z : Z) :
  remove_commas (group3 (Py.digits z)) = Py.digits z.
Proof.
  destruct (digits_all_digits z) as [Hall Hne].
  unfold group3. rewrite remove_commas_list.
  rewrite (filter_grouping _ _ (all_digits_list _ Hall)
             (group3_grouping _ Hne)).
  apply string_of_list_ascii_of_string.
Qed.

Lemma remove_commas_two_digits (r : Z) :
  (0 <= r < 100)%Z -> remove_commas (Py.two_digits r) = Py.two_digits r.
Proof.
  intros Hr. apply remove_commas_digits.
  pose proof (two_digits_shape r Hr) as H.
  destruct (Py.two_digits r) as [| d1 [| d2 [| ? ?]]]; try discriminate H.
  simpl in *. apply andb_true_iff in H. destruct H as [-> ->]. reflexivity.
Qed.

Lemma remove_commas_format (x : float) :
  remove_commas (format_grouped_2f x) = Py.format_2f x.
Proof.
  unfold format_grouped_2f, Py.format_2f.
  destruct (Prim2SF x) as [s | s | | s m e]; try (destruct s; reflexivity);
    try reflexivity.
  cbv zeta. rewrite !remove_commas_app, remove_commas_group3.
  rewrite remove_commas_two_digits by (apply Z.mod_pos_bound; lia).
  destruct s; reflexivity.
Qed.

(** X12. On a value that [float] accepts, [format_currency] returns the
    grouped two-decimal string of the float; without its commas it is the
    plain two-decimal string, and for a finite float the two strings
    differ in the integer digits only, where a comma stands before each
    group of three digits that follows a first group of one to three. *)
Theorem format_currency_grouped (float_of_str : string -> exc float)
  (value : template_value) (x : float) :
  float_of_value float_of_str value = Ok x ->
  format_currency float_of_str value = Ok (format_grouped_2f x)
  /\ remove_commas (format_grouped_2f x) = Py.format_2f x
  /\ (forall s m e,
        Prim2SF x = S754_finite s m e ->
        exists whole grouped,
          Py.format_2f x =
            Py.sign_prefix s ++ string_of_list_ascii whole ++ "."
            ++ Py.two_digits (Py.round_half_even (100 * Zpos m) e mod 100)
          /\ format_grouped_2f x =
               Py.sign_prefix s ++ string_of_list_ascii grouped ++ "."
               ++ Py.two_digits (Py.round_half_even (100 * Zpos m) e mod 100)
          /\ grouping whole grouped).
Proof.
  intros Hx. split; [| split; [apply remove_commas_format |]].
  - destruct value as [| n | s]; [discriminate Hx | |];
      unfold format_currency; rewrite Hx; reflexivity.
  - intros s m e Ex.
    set (c := Py.round_half_even (100 * Zpos m) e).
    destruct (digits_all_digits (c / 100)) as [_ Hne].
    exists (list_ascii_of_string (Py.digits (c / 100))),
      (rev (group3_rev (rev (list_ascii_of_string (Py.digits (c / 100)))))).
    unfold Py.format_2f, format_grouped_2f. rewrite Ex. cbv zeta. fold c.
    rewrite string_of_list_ascii_of_string.
    split; [reflexivity |]. split; [reflexivity |].
    now apply group3_grouping.
Qed.

(** ** Negative amounts and whole amounts in words *)

Lemma ltb_zero_negative (f : float) :
  (f <? 0)%float = true ->
  Prim2SF f = S754_infinity true \/ exists m e, Prim2SF f = S754_finite true m e.
Proof.
  rewrite ltb_spec. change (Prim2SF 0) with (S754_zero false).
  destruct (Prim2SF f) as [s | s | | s m e]; try discriminate.
  - destruct s; [now left | discriminate].
  - destruct s; [right; now exists m, e | discriminate].
Qed.

Lemma eqb_same_amount (f g : float) :
  (f =? g)%float = true -> same_amount f g.
Proof.
  rewrite FloatAxioms.eqb_spec. unfold SFeqb, SFcompare.
  destruct (Prim2SF f) as [s | s | | s m e] eqn:Ef;
    destruct (Prim2SF g) as [s' | s' | | s' m' e'] eqn:Eg;
    try discriminate; try (destruct s; discriminate);
    try (destruct s'; discriminate).
  - intros _. right. split; [now exists s | now exists s'].
  - destruct s, s'; try discriminate; intros _; left;
      apply Prim2SF_inj; congruence.
  - intros H.
    assert (Hs : s = s') by (destruct s, s'; (reflexivity || discriminate H)).
    subst s'.
    assert (He : e = e').
    { destruct (Z.compare_spec e e') as [He | He | He]; [exact He | |];
        destruct s; discriminate H. }
    subst e'. rewrite Z.compare_refl in H.
    assert (Hm : m = m').
    { apply Pos.compare_eq. unfold Pos.compare.
      destruct (Pos.compare_cont Eq m m'); [reflexivity | |];
        destruct s; discriminate H. }
    subst m'. left. apply Prim2SF_inj. congruence.
Qed.

Section Words.

Variable num2words : Z -> exc string.
Variable repr_float : float -> string.

Local Abbreviation to_words := (number_to_french_words num2words repr_float).

(** X14. For a negative amount the words have no cents clause, and "dinar"
    takes its "s" only when the integer part is zero: the result is the
    words of the integer part (which is at most zero) followed by
    " dinar", or by " dinars" for an amount above minus one. *)
Theorem negative_amount_words (f : float) (entier : Z) (w : string) :
  (f <? 0)%float = true ->
  Py.int (Py.PyFloat f) = Ok entier ->
  num2words entier = Ok w ->
  (entier <= 0)%Z
  /\ to_words (Py.PyFloat f) =
       w ++ " dinar" ++ (if (entier =? 0)%Z then "s" else "").
Proof.
  intros Hneg Hint Hw.
  destruct (ltb_zero_negative f Hneg) as [Ef | [m [e Ef]]].
  { unfold Py.int in Hint. rewrite Ef in Hint. discriminate Hint. }
  assert (Hle : (entier <= 0)%Z).
  { unfold Py.int in Hint. rewrite Ef in Hint. inversion Hint.
    pose proof (truncate_nonneg m e). simpl. lia. }
  split; [exact Hle |].
  destruct (centimes_of_total f entier Hint) as [centimes Hc].
  pose proof (centimes_bounds f true m e entier centimes Ef Hint Hc) as Hs.
  simpl in Hs.
  unfold number_to_french_words, french_words_body.
  rewrite Hint. cbn [exc_bind]. rewrite Hc. cbn [exc_bind].
  rewrite Hw. cbn [exc_bind]. cbv zeta.
  replace (centimes >? 0)%Z with false by (symmetry; rewrite Z.gtb_ltb; apply Z.ltb_ge; lia).
  replace (entier >? 1)%Z with false by (symmetry; rewrite Z.gtb_ltb; apply Z.ltb_ge; lia).
  simpl orb. destruct (entier =? 0)%Z.
  - apply append_assoc.
  - reflexivity.
Qed.

(** X15. For a whole amount (one equal to the float of its integer part)
    the cents are zero and the words have no cents clause: the words of the
    integer part followed by " dinars", or by " dinar" when the integer
    part is one or negative. *)
Theorem whole_amount_words (f g : float) (entier : Z) (w : string) :
  Py.int (Py.PyFloat f) = Ok entier ->
  Py.to_float (Py.PyInt entier) = Ok g ->
  (f =? g)%float = true ->
  num2words entier = Ok w ->
  centimes_of (Py.PyFloat f) entier = Ok 0%Z
  /\ to_words (Py.PyFloat f) =
       w ++ " dinar" ++ (if (entier =? 1)%Z || (entier <? 0)%Z then "" else "s").
Proof.
  intros Hint Hg Heq Hw.
  assert (Hc : centimes_of (Py.PyFloat f) entier = Ok 0%Z).
  { rewrite (centimes_of_round f g entier Hg).
    assert (Hz : is_zero_float (f - g)).
    { destruct (eqb_same_amount f g Heq) as [<- | [[s Hs] [s' Hs']]].
      - exists false. rewrite sub_spec.
        unfold Py.int in Hint.
        destruct (Prim2SF f) as [s | s | | s m e]; try discriminate Hint.
        + destruct s; reflexivity.
        + apply SFsub_self.
      - destruct s, s'; eexists; rewrite sub_spec, Hs, Hs'; reflexivity. }
    destruct Hz as [s Hs]. unfold Py.round.
    rewrite mul_spec, Hs, Prim2SF_100. reflexivity. }
  split; [exact Hc |].
  unfold number_to_french_words, french_words_body.
  rewrite Hint. cbn [exc_bind]. rewrite Hc. cbn [exc_bind].
  rewrite Hw. cbn [exc_bind]. cbv zeta.
  change (0 >? 0)%Z with false. cbv iota.
  destruct (Z.eqb_spec entier 1) as [-> | Hne1]; [reflexivity |].
  destruct (Z.ltb_spec entier 0) as [Hlt | Hge].
  - replace (entier >? 1)%Z with false
      by (symmetry; rewrite Z.gtb_ltb; apply Z.ltb_ge; lia).
    replace (entier =? 0)%Z with false by (symmetry; apply Z.eqb_neq; lia).
    reflexivity.
  - replace ((entier >? 1)%Z || (entier =? 0)%Z) with true.
    + simpl. apply append_assoc.
    + symmetry. apply orb_true_iff.
      destruct (Z.eqb_spec entier 0); [now right | left].
      rewrite Z.gtb_ltb. apply Z.ltb_lt. lia.
Qed.

End Words.

(** ** Further runs on the sample environment *)

Lemma same_title_same_type_witness :
  valid_type "proforma" = true
  /\ valid_type "facture-proforma" = true
  /\ get_document_title "proforma" = "FACTURE PROFORMA"
  /\ get_document_title "facture-proforma" = "FACTURE PROFORMA"
  /\ ("proforma" = "facture-proforma"
      \/ (In "proforma" ["facture-proforma"; "proforma"]
          /\ In "facture-proforma" ["facture-proforma"; "proforma"])).
Proof.
  assert (Ha : valid_type "proforma" = true) by reflexivity.
  assert (Hb : valid_type "facture-proforma" = true) by reflexivity.
  assert (Ht : get_document_title "proforma"
               = get_document_title "facture-proforma")
    by (vm_compute; reflexivity).
  split; [exact Ha |]. split; [exact Hb |].
  split; [vm_compute; reflexivity |]. split; [vm_compute; reflexivity |].
  exact (same_title_same_type "proforma" "facture-proforma" Ha Hb Ht).
Defined.


Lemma generic_template_fallback_witness :
  let request := Sample.request "facture" [] None in
  Sample.get_template "facture.html" = Raise (Exception "facture.html")
  /\ Sample.get_template "bon-livraison.html"
     = Ok "<html>{{ document_title }}</html>"
  /\ ctx_type (Sample.context_of request) = "facture"
  /\ ctx_document_title (Sample.context_of request) = "FACTURE"
  /\ exists r, snd (Sample.handle request) = Returned r
               /\ content r = list_byte_of_string "%PDF-1.7".
Proof.
  intros request.
  assert (H0 : Sample.get_template (type request ++ ".html")
               = Raise (Exception "facture.html")) by reflexivity.
  assert (H1 : Sample.get_template "bon-livraison.html"
               = Ok "<html>{{ document_title }}</html>") by reflexivity.
  destruct (generic_template_fallback Sample.summation Sample.num2words
              Sample.float_of_str Sample.repr_float string Sample.get_template
              Sample.render Sample.write_pdf Sample.init_headers Sample.now
              request _ _ H0 H1) as [_ [Hty [Htitle Hret]]].
  split; [exact H0 |]. split; [exact H1 |].
  split; [exact Hty |].
  split; [unfold Sample.context_of; rewrite Htitle; vm_compute; reflexivity |].
  exact (Hret "<html>FACTURE</html>" (list_byte_of_string "%PDF-1.7")
           eq_refl eq_refl eq_refl).
Defined.

Lemma fallback_title_unreachable_witness :
  let request := Sample.request "facture" [] None in
  let ctx := Sample.context_of request in
  In (Render ctx) (fst (Sample.post request))
  /\ ctx_type ctx = "facture"
  /\ In (ctx_document_title ctx) display_titles
  /\ ctx_document_title ctx <> "DOCUMENT".
Proof.
  intros request ctx.
  assert (Hin : In (Render ctx) (fst (Sample.post request)))
    by (right; right; left; reflexivity).
  split; [exact Hin |].
  destruct (fallback_title_unreachable Sample.summation Sample.num2words
              Sample.float_of_str Sample.repr_float string Sample.get_template
              Sample.render Sample.write_pdf Sample.init_headers Sample.now
              request ctx Hin) as [Hty [_ [Hd Hne]]].
  split; [exact Hty |]. split; [exact Hd | exact Hne].
Defined.

Lemma unpriced_line_adds_nothing_witness :
  let before := [Sample.line 2 (Some 0.5%float) None] in
  let p := Sample.line (-3) None (Some 19%float) in
  let after := [Sample.line 4 (Some 2.5%float) (Some 10%float)] in
  let request := Sample.request "facture" (before ++ p :: after)%list None in
  let request' := Sample.request "facture" (before ++ after)%list None in
  unpriced p = true
  /\ resolve_totals Py.LeftToRight request =
       Some {| totalHT := "11.00"; totalTVA := "1.00"; totalTTC := "12.00" |}
  /\ resolve_totals Py.LeftToRight request' =
       Some {| totalHT := "11.00"; totalTVA := "1.00"; totalTTC := "12.00" |}.
Proof.
  intros before p after request request'.
  assert (Hp : unpriced p = true) by reflexivity.
  assert (Hne : (before ++ after)%list <> []) by discriminate.
  destruct (unpriced_line_adds_nothing Py.LeftToRight request request'
              before after p Hp Hne eq_refl eq_refl eq_refl eq_refl)
    as [Hres Hsame].
  split; [exact Hp |].
  rewrite Hsame, Hres. split; vm_compute; reflexivity.
Defined.

Lemma unpriced_lines_zero_totals_witness :
  let request :=
    Sample.request "bon-livraison"
      [Sample.line 3 None None; Sample.line (-2) (Some 0%float) (Some 19%float)]
      None in
  forallb unpriced (products request) = true
  /\ ctx_totals (Sample.context_of request) =
       Some {| totalHT := "0.00"; totalTVA := "0.00"; totalTTC := "0.00" |}
  /\ ctx_total_ttc_words (Sample.context_of request) = "zéro dinars".
Proof.
  intros request.
  assert (Hall : forallb unpriced (products request) = true) by reflexivity.
  assert (Hne : products request <> []) by discriminate.
  split; [exact Hall |].
  exact (unpriced_lines_zero_totals Sample.summation Sample.num2words
           Sample.float_of_str Sample.repr_float Sample.now request "zéro"
           eq_refl Hne Hall eq_refl eq_refl).
Defined.

Lemma untaxed_totals_witness :
  let request :=
    Sample.request "bon-commande"
      [Sample.line 2 (Some 0.5%float) None;
       Sample.line 4 (Some 2.5%float) (Some 0%float);
       Sample.line 7 None None] None in
  forallb untaxed (products request) = true
  /\ map calculate_line_total (products request) = [1; 10; 0]%float
  /\ Sample.totals_of request =
       Some {| totalHT := "11.00"; totalTVA := "0.00"; totalTTC := "11.00" |}.
Proof.
  intros request.
  assert (Hall : forallb untaxed (products request) = true) by reflexivity.
  assert (Hne : products request <> []) by discriminate.
  split; [exact Hall |]. split; [reflexivity |].
  unfold Sample.totals_of.
  rewrite (untaxed_totals Sample.summation request eq_refl Hne Hall).
  vm_compute. reflexivity.
Defined.

Lemma format_2f_nearest_cent_witness :
  Prim2SF 0.125 = S754_finite false 4503599627370496 (-55)
  /\ Py.format_2f 0.125 = "0.12"
  /\ read_2dp "0.12" = Some (false, 12%Z)
  /\ (Z.abs (2 * (100 * 4503599627370496 - 12 * 2 ^ 55)) <= 2 ^ 55)%Z.
Proof.
  assert (Ex : Prim2SF 0.125 = S754_finite false 4503599627370496 (-55))
    by reflexivity.
  assert (Hf : Py.format_2f 0.125 = "0.12") by reflexivity.
  destruct (format_2f_nearest_cent 0.125 false 4503599627370496 (-55) Ex)
    as [cents [Hr [_ Hn]]].
  rewrite Hf in Hr.
  assert (Hc : cents = 12%Z).
  { assert (H : read_2dp "0.12" = Some (false, 12%Z)) by reflexivity.
    rewrite H in Hr. now inversion Hr. }
  subst cents.
  split; [exact Ex |]. split; [exact Hf |]. split; [exact Hr | exact Hn].
Defined.

Lemma format_currency_grouped_witness :
  float_of_value Sample.float_of_str (VNumber (Py.PyFloat 1234567.875))
  = Ok 1234567.875%float
  /\ format_currency Sample.float_of_str (VNumber (Py.PyFloat 1234567.875))
     = Ok "1,234,567.88"
  /\ remove_commas "1,234,567.88" = "1234567.88"
  /\ Py.format_2f 1234567.875 = "1234567.88".
Proof.
  assert (Hx : float_of_value Sample.float_of_str
                 (VNumber (Py.PyFloat 1234567.875)) = Ok 1234567.875%float)
    by reflexivity.
  destruct (format_currency_grouped Sample.float_of_str _ _ Hx)
    as [Hc [Hr _]].
  assert (Hg : format_grouped_2f 1234567.875 = "1,234,567.88")
    by (vm_compute; reflexivity).
  rewrite Hg in Hc, Hr.
  split; [exact Hx |]. split; [exact Hc |]. split; [| vm_compute; reflexivity].
  rewrite Hr. vm_compute. reflexivity.
Defined.

Lemma negative_amount_words_witness :
  (-2.5 <? 0)%float = true
  /\ Py.int (Py.PyFloat (-2.5)) = Ok (-2)%Z
  /\ signed_words (-2) = Ok "moins deux"
  /\ centimes_of (Py.PyFloat (-2.5)) (-2) = Ok (-50)%Z
  /\ number_to_french_words signed_words Sample.repr_float (Py.PyFloat (-2.5))
     = "moins deux dinar".
Proof.
  assert (H1 : (-2.5 <? 0)%float = true) by reflexivity.
  assert (H2 : Py.int (Py.PyFloat (-2.5)) = Ok (-2)%Z) by reflexivity.
  assert (H3 : signed_words (-2) = Ok "moins deux") by reflexivity.
  split; [exact H1 |]. split; [exact H2 |]. split; [exact H3 |].
  split; [vm_compute; reflexivity |].
  exact (proj2 (negative_amount_words signed_words Sample.repr_float
                  (-2.5) (-2) "moins deux" H1 H2 H3)).
Defined.

Lemma whole_amount_words_witness :
  Py.int (Py.PyFloat 2) = Ok 2%Z
  /\ Py.to_float (Py.PyInt 2) = Ok 2%float
  /\ centimes_of (Py.PyFloat 2) 2 = Ok 0%Z
  /\ Sample.to_words (Py.PyFloat 2) = "deux dinars".
Proof.
  assert (H1 : Py.int (Py.PyFloat 2) = Ok 2%Z) by reflexivity.
  assert (H2 : Py.to_float (Py.PyInt 2) = Ok 2%float) by reflexivity.
  assert (H3 : (2 =? 2)%float = true) by reflexivity.
  assert (H4 : Sample.num2words 2 = Ok "deux") by reflexivity.
  split; [exact H1 |]. split; [exact H2 |].
  exact (whole_amount_words Sample.num2words Sample.repr_float
           2 2 2 "deux" H1 H2 H3 H4).
Defined.

Lemma centimes_range_witness :
  Py.int (Py.PyFloat 1.9990234375) = Ok 1%Z
  /\ centimes_of (Py.PyFloat 1.9990234375) 1 = Ok 100%Z
  /\ (-100 <= 100 <= 100)%Z
  /\ number_to_french_words words_with_hundred Sample.repr_float
       (Py.PyFloat 1.9990234375) = "un dinar et cent centimes".
Proof.
  assert (Hint : Py.int (Py.PyFloat 1.9990234375) = Ok 1%Z) by reflexivity.
  destruct (centimes_range 1.9990234375 1 Hint) as [centimes [Hc [Hb _]]].
  assert (H100 : centimes_of (Py.PyFloat 1.9990234375) 1 = Ok 100%Z)
    by (vm_compute; reflexivity).
  rewrite H100 in Hc. inversion Hc; subst centimes.
  split; [exact Hint |]. split; [exact H100 |]. split; [exact Hb |].
  vm_compute. reflexivity.
Defined.
